(** * A device registry and telemetry store: storage.py and app.py

    The two Python modules are embedded as Rocq functions over JSON
    values.  [storage] keeps one JSON document in a file and reads or
    rewrites it under a lock; [app] holds the HTTP handlers that validate a
    request and call into [storage].

    - Python values that travel through [json.load] / [json.dump] are
      values of [json]; a Python [dict] with string keys is a [gmap].
    - A Python exception is a value of [exn]; a computation that may raise
      returns a [result].
    - The backing file is the state threaded through the monad [M].
    - The clock ([datetime.utcnow]) and the random source ([uuid4]) are
      inputs of the handlers that use them.
    - [dateutil.parser.isoparse] and the builtin [int] are parameters of the
      functions that call them. *)

From Stdlib Require Import ZArith String Ascii List Lia.
From Stdlib Require Import DecimalString HexadecimalString.
From Stdlib Require Import Floats.SpecFloat.
From stdpp Require Import gmap strings list fin_maps.

Local Open Scope Z_scope.

(** ** JSON values and Python exceptions *)

#[warnings="-register-all"]
Inductive json : Type :=
  | JNull
  | JBool (b : bool)
  | JInt (z : Z)
  | JFloat (f : spec_float)
  | JStr (s : string)
  | JArr (l : list json)
  | JObj (m : gmap string json).

(** The exception classes the two modules can meet.  [JSONDecodeError] is a
    subclass of [ValueError] in Python. *)
Inductive exn : Type :=
  | ValueError
  | JSONDecodeError
  | KeyError
  | TypeError
  | AttributeError
  | FileNotFoundError.

Definition is_ValueError (e : exn) : bool :=
  match e with ValueError | JSONDecodeError => true | _ => false end.

Definition is_KeyError (e : exn) : bool :=
  match e with KeyError => true | _ => false end.

Inductive result (A : Type) : Type :=
  | Ok (a : A)
  | Raise (e : exn).
Arguments Ok {A} a.
Arguments Raise {A} e.

Definition rbind {A B} (r : result A) (k : A -> result B) : result B :=
  match r with
  | Ok a => k a
  | Raise e => Raise e
  end.

Declare Scope res_scope.
Delimit Scope res_scope with res.
Notation "x <- r ; k" := (rbind r (fun x => k))
  (at level 100, r at next level, right associativity) : res_scope.

(** ** The Python operations the modules apply to JSON values *)

Module Py.

(** [bool(o)] *)
Definition truthy (o : json) : bool :=
  match o with
  | JNull => false
  | JBool b => b
  | JInt z => negb (z =? 0)
  | JFloat f => match f with S754_zero _ => false | _ => true end
  | JStr s => negb (String.eqb s "")
  | JArr l => match l with [] => false | _ => true end
  | JObj m => negb (Nat.eqb (size m) 0)
  end.

(** [o[k]] for a string [k] *)
Definition getitem (o : json) (k : string) : result json :=
  match o with
  | JObj m => match m !! k with Some v => Ok v | None => Raise KeyError end
  | _ => Raise TypeError
  end.

(** [k in o] for a string [k]: key membership in a dict, element
    membership in a list, substring test in a string. *)
Definition contains (k : string) (o : json) : result bool :=
  match o with
  | JObj m => Ok (bool_decide (is_Some (m !! k)))
  | JArr l =>
      Ok (existsb (fun x => match x with JStr s => String.eqb s k | _ => false end) l)
  | JStr s => Ok (match String.index 0 k s with Some _ => true | None => false end)
  | _ => Raise TypeError
  end.

(** [o[k] = v]; the result is [o] after the assignment. *)
Definition setitem (o : json) (k : string) (v : json) : result json :=
  match o with
  | JObj m => Ok (JObj (<[k := v]> m))
  | _ => Raise TypeError
  end.

(** [o.setdefault(k, v)]; the result is [o] after the call. *)
Definition setdefault (o : json) (k : string) (v : json) : result json :=
  match o with
  | JObj m => Ok (JObj (match m !! k with Some _ => m | None => <[k := v]> m end))
  | _ => Raise AttributeError
  end.

(** [o.append(v)]; the result is [o] after the call. *)
Definition append (o : json) (v : json) : result json :=
  match o with
  | JArr l => Ok (JArr (l ++ [v]))
  | _ => Raise AttributeError
  end.

(** [o.get(k)]: [None] (here [JNull]) when the key is absent. *)
Definition get (o : json) (k : string) : result json :=
  match o with
  | JObj m => Ok (default JNull (m !! k))
  | _ => Raise AttributeError
  end.

(** [o[k].f(...)] where the call changes [o[k]] in place: the changed
    value is put back under [k]. *)
Definition modify_item (o : json) (k : string) (f : json -> result json) : result json :=
  (v <- getitem o k;
   v' <- f v;
   setitem o k v')%res.

(** The elements [for it in o] runs through.  The keys of a dict come in
    the order of [map_to_list]; Python yields them in insertion order. *)
Definition iter (o : json) : result (list json) :=
  match o with
  | JArr l => Ok l
  | JStr s => Ok (map (fun c => JStr (String c EmptyString)) (list_ascii_of_string s))
  | JObj m => Ok (map (fun kv => JStr (fst kv)) (map_to_list m))
  | _ => Raise TypeError
  end.

(** [l[start:]] on a sequence: a negative [start] counts from the end,
    and the index is clamped to the bounds. *)
Definition slice_from {A} (start : Z) (l : list A) : list A :=
  let n := Z.of_nat (length l) in
  let i := if start <? 0 then Z.max (start + n) 0 else Z.min start n in
  drop (Z.to_nat i) l.

(** [o[start:]].  Slicing a dict raises [TypeError] (unhashable slice) up
    to Python 3.11 and [KeyError] from 3.12 on; the first is modelled. *)
Definition getslice_from (o : json) (start : Z) : result json :=
  match o with
  | JArr l => Ok (JArr (slice_from start l))
  | JStr s => Ok (JStr (string_of_list_ascii (slice_from start (list_ascii_of_string s))))
  | _ => Raise TypeError
  end.

(** [x or y] on an optional string: [None] and the empty string are
    falsy. *)
Definition str_truthy (s : option string) : bool :=
  match s with
  | Some x => negb (String.eqb x "")
  | None => false
  end.

End Py.

(** ** Dates and times *)

(** A Python [datetime]: the calendar fields and, for an aware value, the
    offset from UTC in seconds. *)
Record datetime : Type := {
  year : N;
  month : N;
  day : N;
  hour : N;
  minute : N;
  second : N;
  microsecond : N;
  utcoffset : option Z
}.

Module Datetime.

Definition decimal (n : N) : string :=
  DecimalString.NilEmpty.string_of_uint (N.to_uint n).

(** ["%0wd" % n] *)
Definition zero_pad (w : nat) (n : N) : string :=
  let s := decimal n in
  string_of_list_ascii (replicate (w - String.length s) "0"%char) +:+ s.

(** [_format_offset]: [+HH:MM], with [:SS] when the offset has seconds. *)
Definition format_offset (off : option Z) : string :=
  match off with
  | None => ""
  | Some o =>
      let a := Z.abs_N o in
      let hh := (a / 3600)%N in
      let mm := ((a mod 3600) / 60)%N in
      let ss := (a mod 60)%N in
      (if o <? 0 then "-" else "+") +:+ zero_pad 2 hh +:+ ":" +:+ zero_pad 2 mm
      +:+ (if (ss =? 0)%N then "" else ":" +:+ zero_pad 2 ss)
  end.

(** [d.isoformat()] *)
Definition isoformat (d : datetime) : string :=
  zero_pad 4 (year d) +:+ "-" +:+ zero_pad 2 (month d) +:+ "-" +:+ zero_pad 2 (day d)
  +:+ "T" +:+ zero_pad 2 (hour d) +:+ ":" +:+ zero_pad 2 (minute d) +:+ ":"
  +:+ zero_pad 2 (second d)
  +:+ (if (microsecond d =? 0)%N then "" else "." +:+ zero_pad 6 (microsecond d))
  +:+ format_offset (utcoffset d).

Definition is_leap (y : N) : bool :=
  ((y mod 4 =? 0) && (negb (y mod 100 =? 0) || (y mod 400 =? 0)))%N.

Definition days_before_year (y : N) : Z :=
  let p := Z.of_N y - 1 in
  p * 365 + p / 4 - p / 100 + p / 400.

Definition days_before_month (y m : N) : Z :=
  nth (N.to_nat (m - 1)) [0; 31; 59; 90; 120; 151; 181; 212; 243; 273; 304; 334] 0
  + (if (2 <? m)%N && is_leap y then 1 else 0).

(** [d.toordinal()] *)
Definition toordinal (d : datetime) : Z :=
  days_before_year (year d) + days_before_month (year d) (month d) + Z.of_N (day d).

(** Microseconds from 0001-01-01T00:00:00 to the reading of the calendar
    fields. *)
Definition wall (d : datetime) : Z :=
  (((toordinal d - 1) * 24 + Z.of_N (hour d)) * 60 + Z.of_N (minute d)) * 60000000
  + Z.of_N (second d) * 1000000 + Z.of_N (microsecond d).

(** The point in time an aware value denotes; for a naive value, its
    wall reading. *)
Definition instant (d : datetime) : Z :=
  match utcoffset d with
  | Some o => wall d - o * 1000000
  | None => wall d
  end.

Definition aware (d : datetime) : bool :=
  match utcoffset d with Some _ => true | None => false end.

(** [a < b].  Two naive values compare by their fields, two aware values
    by the instants they denote; a naive and an aware value do not
    compare: Python raises [TypeError]. *)
Definition lt (a b : datetime) : result bool :=
  if Bool.eqb (aware a) (aware b) then Ok (instant a <? instant b)
  else Raise TypeError.

(** [a > b] *)
Definition gt (a b : datetime) : result bool := lt b a.

End Datetime.

(** A [uuid.UUID], as the 128-bit integer it holds. *)
Definition uuid : Type := N.

Module Uuid.

Definition hexadecimal (n : N) : string :=
  HexadecimalString.NilEmpty.string_of_uint (N.to_hex_uint n).

(** [u.hex], that is ['%032x' % u.int] *)
Definition hex (u : uuid) : string :=
  let s := hexadecimal u in
  string_of_list_ascii (replicate (32 - String.length s) "0"%char) +:+ s.

(** [str(u)]: the hexadecimal digits in groups of 8-4-4-4-12. *)
Definition str (u : uuid) : string :=
  let h := hex u in
  substring 0 8 h +:+ "-" +:+ substring 8 4 h +:+ "-" +:+ substring 12 4 h
  +:+ "-" +:+ substring 16 4 h +:+ "-" +:+ substring 20 (String.length h - 20) h.

End Uuid.


(** ** The backing file and the store monad *)

(** What [DATA_FILE] holds: nothing (the file does not exist), a text that
    [json.load] rejects, or the serialisation of a JSON value.  [json.dump]
    followed by [json.load] gives back the value written, whatever its
    shape. *)
Inductive file_state : Type :=
  | NoFile
  | Garbage
  | Stored (j : json).

(** A computation on the backing file that returns a value or raises. *)
Definition M (A : Type) : Type := file_state -> result A * file_state.

Definition ret {A} (a : A) : M A := fun fs => (Ok a, fs).

Definition bind {A B} (m : M A) (k : A -> M B) : M B :=
  fun fs =>
    match m fs with
    | (Ok a, fs') => k a fs'
    | (Raise e, fs') => (Raise e, fs')
    end.

(** A pure computation that may raise, run inside [M]. *)
Definition lift {A} (r : result A) : M A := fun fs => (r, fs).

(** [try: m  except E: h], where [handles] tells the exceptions of class
    [E]. *)
Definition try_except {A} (m : M A) (handles : exn -> bool) (h : M A) : M A :=
  fun fs =>
    match m fs with
    | (Ok a, fs') => (Ok a, fs')
    | (Raise e, fs') => if handles e then h fs' else (Raise e, fs')
    end.

Declare Scope store_scope.
Delimit Scope store_scope with store.
Notation "x <- m ;; k" := (bind m (fun x => k))
  (at level 100, m at next level, right associativity) : store_scope.
Notation "m ;; k" := (bind m (fun _ => k))
  (at level 100, right associativity) : store_scope.

(** The document of the file layout: a dict with the two keys [devices]
    and [telemetry], each a dict. *)
Definition document (devs tel : gmap string json) : json :=
  JObj (<["devices" := JObj devs]> (<["telemetry" := JObj tel]> ∅)).

(** ** storage.py *)

Module storage.

Local Open Scope store_scope.

Definition initial : json := document ∅ ∅.

Definition _ensure_datafile : M unit :=
  fun fs =>
    match fs with
    | NoFile => (Ok tt, Stored initial)
    | _ => (Ok tt, fs)
    end.

Definition read_all : M json :=
  _ensure_datafile ;;
  fun fs =>
    match fs with
    | Stored j => (Ok j, fs)
    | Garbage => (Raise JSONDecodeError, fs)
    | NoFile => (Raise FileNotFoundError, fs)
    end.

(** The temporary file replaces [DATA_FILE] in one step. *)
Definition write_atomic (data : json) : M unit :=
  fun _ => (Ok tt, Stored data).

(** The lock is held from the first to the last step of the two
    [with_lock_*] functions; in a run of one thread it has no effect. *)
Definition with_lock_read : M json := read_all.

(** A mutator gets the loaded document and returns it as it is after the
    in-place changes, together with the value the Python function
    returns ([None] when it returns nothing). *)
Definition with_lock_write (mutator_fn : json -> result (json * option json)) : M json :=
  data <- read_all ;;
  r <- lift (mutator_fn data) ;;
  let to_write := match snd r with Some result => result | None => fst r end in
  write_atomic to_write ;;
  ret to_write.

Definition device_record (meta : json) (now : datetime) : json :=
  JObj (<["meta" := meta]>
        (<["registered_at" := JStr (Datetime.isoformat now +:+ "Z")]> ∅)).

Definition register_device_mut (device_id : string) (meta : json) (now : datetime)
    (d : json) : result (json * option json) :=
  (devices <- Py.getitem d "devices";
   present <- Py.contains device_id devices;
   if present then Raise ValueError
   else
     d <- Py.modify_item d "devices"
            (fun devices => Py.setitem devices device_id (device_record meta now));
     d <- Py.modify_item d "telemetry"
            (fun telemetry => Py.setdefault telemetry device_id (JArr []));
     Ok (d, Some d))%res.

Definition register_device (device_id : string) (meta : json) (now : datetime) : M json :=
  with_lock_write (register_device_mut device_id meta now).

Definition list_devices : M json :=
  d <- with_lock_read ;;
  lift (Py.getitem d "devices").

Definition store_telemetry_mut (device_id : string) (payload : json)
    (d : json) : result (json * option json) :=
  (devices <- Py.getitem d "devices";
   present <- Py.contains device_id devices;
   if negb present then Raise KeyError
   else
     d <- Py.modify_item d "telemetry"
            (fun telemetry => Py.setdefault telemetry device_id (JArr []));
     d <- Py.modify_item d "telemetry"
            (fun telemetry =>
               Py.modify_item telemetry device_id (fun bucket => Py.append bucket payload));
     Ok (d, Some d))%res.

Definition store_telemetry (device_id : string) (payload : json) : M json :=
  with_lock_write (store_telemetry_mut device_id payload).

Section get_telemetry.

(** [dateutil.parser.isoparse] on a string; [None] when it raises. *)
Variable isoparse : string -> option datetime.

(** The local [to_dt].  On a value that is not a string [isoparse]
    raises, and the [except Exception] turns that into [None]. *)
Definition to_dt (s : json) : option datetime :=
  match s with
  | JStr x => isoparse x
  | _ => None
  end.

(** One turn of the loop: [true] when [it] is appended to [filtered]. *)
Definition keeps (s_dt e_dt : option datetime) (it : json) : result bool :=
  (ts <- Py.get it "timestamp";
   match (if Py.truthy ts then to_dt ts else None) with
   | None => Ok false
   | Some tdt =>
       before <- match s_dt with
                 | Some s => Datetime.lt tdt s
                 | None => Ok false
                 end;
       if before : bool then Ok false
       else
         after <- match e_dt with
                  | Some e => Datetime.gt tdt e
                  | None => Ok false
                  end;
         Ok (negb after)
   end)%res.

Fixpoint time_filter (s_dt e_dt : option datetime) (items : list json)
    : result (list json) :=
  match items with
  | [] => Ok []
  | it :: rest =>
      (keep <- keeps s_dt e_dt it;
       filtered <- time_filter s_dt e_dt rest;
       Ok (if keep : bool then it :: filtered else filtered))%res
  end.

Definition bound (iso : option string) : option datetime :=
  match iso with
  | Some s => if Py.str_truthy iso then to_dt (JStr s) else None
  | None => None
  end.

Definition get_telemetry (device_id : string) (start_iso end_iso : option string)
    (limit : Z) : M json :=
  d <- with_lock_read ;;
  telemetry <- lift (Py.getitem d "telemetry") ;;
  present <- lift (Py.contains device_id telemetry) ;;
  if negb present then ret (JArr [])
  else
    items <- lift (Py.getitem telemetry device_id) ;;
    items <- (if Py.str_truthy start_iso || Py.str_truthy end_iso then
                let s_dt := bound start_iso in
                let e_dt := bound end_iso in
                its <- lift (Py.iter items) ;;
                filtered <- lift (time_filter s_dt e_dt its) ;;
                ret (JArr filtered)
              else ret items) ;;
    lift (Py.getslice_from items (- limit)).

End get_telemetry.

End storage.

(** ** app.py *)

Module app.

Local Open Scope store_scope.

(** What a handler returns: the JSON body given to [jsonify] and the
    status code.  An exception no handler catches leaves the view
    function; it is the [Raise] of the result. *)
Definition response : Type := json * Z.

Definition error_body (msg : string) : json := JObj {[ "error" := JStr msg ]}.

(** The body of [POST /devices], a JSON object: the value under
    [device_id] when it is a string, and the values under [name] and
    [meta] when the keys are present. *)
Record register_payload : Type := {
  reg_device_id : option string;
  reg_name : option json;
  reg_meta : option json
}.

(** [{"name": name, **meta}]: the entries of [meta] win. *)
Definition with_name (name : json) (meta : json) : result json :=
  match meta with
  | JObj m => Ok (JObj (m ∪ {[ "name" := name ]}))
  | _ => Raise TypeError
  end.

(** [u1] is the [uuid4()] drawn for a missing device id, [u2] the one
    drawn for the API key, [now] the reading of [datetime.utcnow()]. *)
Definition register_device (payload : register_payload) (u1 u2 : uuid) (now : datetime)
    : M response :=
  let device_id :=
    if Py.str_truthy (reg_device_id payload)
    then default "" (reg_device_id payload)
    else Uuid.str u1 in
  let name := default (JStr "") (reg_name payload) in
  let meta := default (JObj ∅) (reg_meta payload) in
  let api_key := Uuid.hex u2 in
  meta <- lift (Py.setitem meta "api_key" (JStr api_key)) ;;
  named <- lift (with_name name meta) ;;
  try_except
    (storage.register_device device_id named now ;;
     ret (JObj (<["device_id" := JStr device_id]> (<["api_key" := JStr api_key]> ∅)), 201))
    is_ValueError
    (ret (error_body "device already exists", 409)).

Definition list_devices : M response :=
  devices <- storage.list_devices ;;
  ret (devices, 200).

(** The body of [POST /telemetry], a JSON object: the value under
    [device_id] when it is a string, and the values under [timestamp]
    and [data] when the keys are present. *)
Record telemetry_payload : Type := {
  tel_device_id : option string;
  tel_timestamp : option json;
  tel_data : option json
}.

(** [api_key != expected_key], for the header value (a string or [None])
    and a stored value that is truthy. *)
Definition key_differs (api_key : option string) (expected_key : json) : bool :=
  match api_key, expected_key with
  | Some a, JStr e => negb (String.eqb a e)
  | _, _ => true
  end.

Definition telemetry_record (payload : telemetry_payload) (now : datetime) : json :=
  let timestamp :=
    match tel_timestamp payload with
    | Some t => if Py.truthy t then t else JStr (Datetime.isoformat now +:+ "Z")
    | None => JStr (Datetime.isoformat now +:+ "Z")
    end in
  JObj (<["timestamp" := timestamp]>
        (<["data" := default (JObj ∅) (tel_data payload)]> ∅)).

(** [api_key] is the value of the [X-API-KEY] header. *)
Definition telemetry_ingest (payload : telemetry_payload) (api_key : option string)
    (now : datetime) : M response :=
  if negb (Py.str_truthy (tel_device_id payload))
  then ret (error_body "device_id required", 400)
  else
    let device_id := default "" (tel_device_id payload) in
    devices <- storage.list_devices ;;
    dev <- lift (Py.get devices device_id) ;;
    if negb (Py.truthy dev) then ret (error_body "unknown device", 404)
    else
      meta <- lift (Py.getitem dev "meta") ;;
      expected_key <- lift (Py.get meta "api_key") ;;
      if Py.truthy expected_key && key_differs api_key expected_key
      then ret (error_body "invalid api key", 401)
      else
        let telemetry := telemetry_record payload now in
        try_except
          (storage.store_telemetry device_id telemetry ;;
           ret (JObj {[ "status" := JStr "ok" ]}, 201))
          is_KeyError
          (ret (error_body "unknown device", 404)).

Section telemetry_query.

Variable isoparse : string -> option datetime.

(** The builtin [int] on a string; it raises [ValueError] on a text
    that is not an integer literal. *)
Variable int : string -> result Z.

(** [start], [end_] and [limit] are the query arguments of the same
    names, [None] when absent. *)
Definition telemetry_query (device_id : string) (start end_ limit : option string)
    : M response :=
  limit <- lift (int (default "100" limit)) ;;
  items <- storage.get_telemetry isoparse device_id start end_ limit ;;
  ret (items, 200).

End telemetry_query.

End app.

(** ** app.py: the two pages and the second query route *)

Module pages.

Local Open Scope store_scope.

(** What a page view ends with: the template given to [render_template]
    with its keyword arguments, or the status given to [abort]. *)
Inductive page : Type :=
  | Rendered (template : string) (context : gmap string json)
  | Aborted (status : Z).

(** [o.get(k, d)] *)
Definition get_or (o : json) (k : string) (d : json) : result json :=
  match o with
  | JObj m => Ok (default d (m !! k))
  | _ => Raise AttributeError
  end.

(** [o.items()].  The items come in the order of [map_to_list]; Python
    yields them in insertion order. *)
Definition items (o : json) : result (list (string * json)) :=
  match o with
  | JObj m => Ok (map_to_list m)
  | _ => Raise AttributeError
  end.

(** The [name] of one entry of [dev_list], for the device record [v]:
    [v.get("meta", {}).get("name", v.get("meta", {}).get("name", ""))
     or v.get("meta", {}).get("name", "")]. *)
Definition index_name (v : json) : result json :=
  (meta1 <- get_or v "meta" (JObj ∅);
   meta2 <- get_or v "meta" (JObj ∅);
   fallback <- get_or meta2 "name" (JStr "");
   name <- get_or meta1 "name" fallback;
   if Py.truthy name then Ok name
   else
     meta3 <- get_or v "meta" (JObj ∅);
     get_or meta3 "name" (JStr ""))%res.

(** The list comprehension of [index] over the items of [devices]. *)
Fixpoint dev_list (kvs : list (string * json)) : result (list json) :=
  match kvs with
  | [] => Ok []
  | (k, v) :: rest =>
      (name <- index_name v;
       entries <- dev_list rest;
       Ok (JObj (<["device_id" := JStr k]> (<["name" := name]> ∅)) :: entries))%res
  end.

Definition index : M page :=
  devices <- storage.list_devices ;;
  kvs <- lift (items devices) ;;
  entries <- lift (dev_list kvs) ;;
  ret (Rendered "index.html" {[ "devices" := JArr entries ]}).

Definition dashboard (device_id : string) : M page :=
  devices <- storage.list_devices ;;
  present <- lift (Py.contains device_id devices) ;;
  if negb present then ret (Aborted 404)
  else
    device <- lift (Py.getitem devices device_id) ;;
    meta <- lift (get_or device "meta" (JObj ∅)) ;;
    device_name <- lift (get_or meta "name" (JStr device_id)) ;;
    ret (Rendered "dashboard.html"
           (<["device_id" := JStr device_id]> (<["device_name" := device_name]> ∅))).

Section api_telemetry.

Variable isoparse : string -> option datetime.
Variable int : string -> result Z.

(** [limit] is the query argument of that name, [None] when absent. *)
Definition api_telemetry (device_id : string) (limit : option string) : M app.response :=
  limit <- lift (int (default "100" limit)) ;;
  items <- storage.get_telemetry isoparse device_id None None limit ;;
  ret (items, 200).

End api_telemetry.

End pages.

(** ** The two modules run by several threads

    The same functions with the lock and every access to the file as
    separate steps, so that the steps of several requests can interleave.
    What a thread computes between two steps is pure and takes no step. *)

Module threaded.

(** What is left of a request: it has returned, or its next step takes the
    lock, gives the lock back, or accesses the file. *)
#[warnings="-register-all"]
Inductive prog (A : Type) : Type :=
  | Return (a : A)
  | Acquire (k : prog A)
  | Release (k : prog A)
  | Do (X : Type) (op : file_state -> X * file_state) (k : X -> prog A).
Arguments Return {A} a.
Arguments Acquire {A} k.
Arguments Release {A} k.
Arguments Do {A} X op k.

Fixpoint pbind {A B} (p : prog A) (f : A -> prog B) : prog B :=
  match p with
  | Return a => f a
  | Acquire k => Acquire (pbind k f)
  | Release k => Release (pbind k f)
  | Do X op k => Do X op (fun x => pbind (k x) f)
  end.

(** The continuation runs on a value and is skipped on an exception. *)
Definition ebind {A B} (p : prog (result A)) (f : A -> prog (result B)) : prog (result B) :=
  pbind p (fun r => match r with Ok a => f a | Raise e => Return (Raise e) end).

(** [try: p  except E: h] *)
Definition try_except {A} (p : prog (result A)) (handles : exn -> bool)
    (h : prog (result A)) : prog (result A) :=
  pbind p (fun r =>
    match r with
    | Ok a => Return (Ok a)
    | Raise e => if handles e then h else Return (Raise e)
    end).

(** [with _lock: body]: the lock is given back when the body returns and
    when it raises. *)
Definition with_lock {A} (body : prog A) : prog A :=
  Acquire (pbind body (fun a => Release (Return a))).

(** The accesses to the file. *)
Definition path_exists : file_state -> bool * file_state :=
  fun fs => (match fs with NoFile => false | _ => true end, fs).

Definition dump (j : json) : file_state -> unit * file_state :=
  fun _ => (tt, Stored j).

Definition load : file_state -> result json * file_state :=
  fun fs =>
    (match fs with
     | Stored j => Ok j
     | Garbage => Raise JSONDecodeError
     | NoFile => Raise FileNotFoundError
     end, fs).

Definition _ensure_datafile : prog unit :=
  Do bool path_exists (fun b =>
    if negb b then Do unit (dump storage.initial) Return else Return tt).

Definition read_all : prog (result json) :=
  pbind _ensure_datafile (fun _ => Do (result json) load Return).

Definition write_atomic (data : json) : prog unit :=
  Do unit (dump data) Return.

Definition with_lock_read : prog (result json) := with_lock read_all.

Definition with_lock_write (mutator_fn : json -> result (json * option json))
    : prog (result json) :=
  with_lock
    (ebind read_all (fun data =>
     ebind (Return (mutator_fn data)) (fun r =>
     let to_write := match snd r with Some result => result | None => fst r end in
     pbind (write_atomic to_write) (fun _ => Return (Ok to_write))))).

Definition register_device (device_id : string) (meta : json) (now : datetime)
    : prog (result json) :=
  with_lock_write (storage.register_device_mut device_id meta now).

Definition list_devices : prog (result json) :=
  ebind with_lock_read (fun d => Return (Py.getitem d "devices")).

Definition store_telemetry (device_id : string) (payload : json) : prog (result json) :=
  with_lock_write (storage.store_telemetry_mut device_id payload).

(** The handler of [POST /devices]. *)
Definition app_register_device (payload : app.register_payload) (u1 u2 : uuid)
    (now : datetime) : prog (result app.response) :=
  let device_id :=
    if Py.str_truthy (app.reg_device_id payload)
    then default "" (app.reg_device_id payload)
    else Uuid.str u1 in
  let name := default (JStr "") (app.reg_name payload) in
  let meta := default (JObj ∅) (app.reg_meta payload) in
  let api_key := Uuid.hex u2 in
  ebind (Return (Py.setitem meta "api_key" (JStr api_key))) (fun meta =>
  ebind (Return (app.with_name name meta)) (fun named =>
  try_except
    (ebind (register_device device_id named now) (fun _ =>
     Return (Ok (JObj (<["device_id" := JStr device_id]>
                       (<["api_key" := JStr api_key]> ∅)), 201))))
    is_ValueError
    (Return (Ok (app.error_body "device already exists", 409))))).

(** The handler of [POST /telemetry]. *)
Definition app_telemetry_ingest (payload : app.telemetry_payload)
    (api_key : option string) (now : datetime) : prog (result app.response) :=
  if negb (Py.str_truthy (app.tel_device_id payload))
  then Return (Ok (app.error_body "device_id required", 400))
  else
    let device_id := default "" (app.tel_device_id payload) in
    ebind list_devices (fun devices =>
    ebind (Return (Py.get devices device_id)) (fun dev =>
    if negb (Py.truthy dev) then Return (Ok (app.error_body "unknown device", 404))
    else
      ebind (Return (Py.getitem dev "meta")) (fun meta =>
      ebind (Return (Py.get meta "api_key")) (fun expected_key =>
      if Py.truthy expected_key && app.key_differs api_key expected_key
      then Return (Ok (app.error_body "invalid api key", 401))
      else
        let telemetry := app.telemetry_record payload now in
        try_except
          (ebind (store_telemetry device_id telemetry) (fun _ =>
           Return (Ok (JObj {[ "status" := JStr "ok" ]}, 201))))
          is_KeyError
          (Return (Ok (app.error_body "unknown device", 404))))))).

(** A request run by one thread alone: the lock is free whenever it is
    taken. *)
Fixpoint run {A} (p : prog A) (fs : file_state) : A * file_state :=
  match p with
  | Return a => (a, fs)
  | Acquire k => run k fs
  | Release k => run k fs
  | Do X op k => run (k (fst (op fs))) (snd (op fs))
  end.

(** The file, the lock ([true] when held) and what is left of each
    request. *)
Record pool (A : Type) : Type := Pool {
  file : file_state;
  locked : bool;
  threads : list (prog A)
}.
Arguments Pool {A} file locked threads.
Arguments file {A} p.
Arguments locked {A} p.
Arguments threads {A} p.

(** One step of one thread.  Taking the lock is possible only while it is
    free; the other steps are always possible. *)
Inductive step {A} : pool A -> pool A -> Prop :=
  | step_acquire fs ts i k :
      ts !! i = Some (Acquire k) ->
      step (Pool fs false ts) (Pool fs true (<[i := k]> ts))
  | step_release fs b ts i k :
      ts !! i = Some (Release k) ->
      step (Pool fs b ts) (Pool fs false (<[i := k]> ts))
  | step_do fs b ts i X op k :
      ts !! i = Some (Do X op k) ->
      step (Pool fs b ts) (Pool (snd (op fs)) b (<[i := k (fst (op fs))]> ts)).

(** Zero or more steps. *)
Inductive steps {A} : pool A -> pool A -> Prop :=
  | steps_refl st : steps st st
  | steps_step st1 st2 st3 : step st1 st2 -> steps st2 st3 -> steps st1 st3.

Definition returned {A} (p : prog A) : Prop := exists a, p = Return a.

(** Every request has returned. *)
Definition finished {A} (st : pool A) : Prop := Forall returned (threads st).

(** A thread that does not hold the lock is [outside]: it has returned or
    waits for the lock.  A thread that holds the lock is [inside]: it
    accesses the file and then gives the lock back. *)
Fixpoint outside {A} (p : prog A) : Prop :=
  match p with
  | Return _ => True
  | Acquire k => inside k
  | _ => False
  end
with inside {A} (p : prog A) : Prop :=
  match p with
  | Release k => outside k
  | Do X op k => forall x, inside (k x)
  | _ => False
  end.

(** A thread that holds the lock, run up to the step that gives the lock
    back: what is left of it then, and the file. *)
Fixpoint run_section {A} (p : prog A) (fs : file_state) : prog A * file_state :=
  match p with
  | Release k => (k, fs)
  | Do X op k => run_section (k (fst (op fs))) (snd (op fs))
  | _ => (p, fs)
  end.

(** One step of the serial execution: a thread that waits for the lock runs
    until it has given the lock back, with no step of another thread in
    between. *)
Inductive serial_step {A} : file_state * list (prog A) -> file_state * list (prog A) -> Prop :=
  | serial_section fs ts i k :
      ts !! i = Some (Acquire k) ->
      serial_step (fs, ts) (snd (run_section k fs), <[i := fst (run_section k fs)]> ts).

Inductive serial_steps {A}
    : file_state * list (prog A) -> file_state * list (prog A) -> Prop :=
  | serial_refl c : serial_steps c c
  | serial_more c1 c2 c3 : serial_steps c1 c2 -> serial_step c2 c3 -> serial_steps c1 c3.

(** [p'] is what is left of [p] after one step. *)
Inductive rest_of {A} : prog A -> prog A -> Prop :=
  | rest_of_acquire k : rest_of (Acquire k) k
  | rest_of_release k : rest_of (Release k) k
  | rest_of_do X op k x : rest_of (Do X op k) (k x).

(** One thread of the list takes one step. *)
Inductive advance {A} : list (prog A) -> list (prog A) -> Prop :=
  | advance_at ts i p p' :
      ts !! i = Some p -> rest_of p p' -> advance ts (<[i := p']> ts).

End threaded.

(** * Vocabulary of the properties *)

(** ** Documents and requests *)

(** The top-level shape of the file layout. *)
Definition holds_document (fs : file_state) : Prop :=
  fs = NoFile \/ exists devs tel, fs = Stored (document devs tel).

(** The telemetry mapping after [setdefault(device_id, [])]. *)
Definition with_bucket (tel : gmap string json) (device_id : string) : gmap string json :=
  match tel !! device_id with
  | Some _ => tel
  | None => <[device_id := JArr []]> tel
  end.

(** The file holds the document made of [devs] and [tel]; a missing file
    counts as the empty document, which the first access writes. *)
Definition holds (fs : file_state) (devs tel : gmap string json) : Prop :=
  fs = Stored (document devs tel) \/ (fs = NoFile /\ devs = ∅ /\ tel = ∅).

(** The supplied key passes the check of [telemetry_ingest] against the value
    stored under [api_key]: the stored value is absent or falsy, or it is the
    supplied string. *)
Definition key_accepted (stored : option json) (api_key : option string) : Prop :=
  Py.truthy (default JNull stored) = false
  \/ exists k, stored = Some (JStr k) /\ api_key = Some k.

(** The time of a telemetry record: its [timestamp], when that is a
    non-empty string that [isoparse] accepts. *)
Definition record_time (isoparse : string -> option datetime) (it : json)
    : option datetime :=
  match it with
  | JObj r =>
      match r !! "timestamp" with
      | Some (JStr ts) => if String.eqb ts "" then None else isoparse ts
      | _ => None
      end
  | _ => None
  end.

(** The filter of a time-bounded query as the code applies it: the record
    has a time, not before the start bound and not after the end bound,
    where a bound that is absent, empty or not parsable does not constrain. *)
Definition in_range (isoparse : string -> option datetime)
    (start_iso end_iso : option string) (it : json) : bool :=
  match record_time isoparse it with
  | None => false
  | Some t =>
      match storage.bound isoparse start_iso with
      | Some s => Datetime.instant s <=? Datetime.instant t
      | None => true
      end
      && match storage.bound isoparse end_iso with
         | Some e => Datetime.instant t <=? Datetime.instant e
         | None => true
         end
  end.

(** The filter as the specification words it: a bound that is given must
    be met, so a given bound that is no datetime is met by no record. *)
Definition in_range_as_specified (isoparse : string -> option datetime)
    (start_iso end_iso : option string) (it : json) : bool :=
  let meets (iso : option string) (cmp : datetime -> bool) : bool :=
    match iso with
    | Some s =>
        if Py.str_truthy iso
        then match isoparse s with Some b => cmp b | None => false end
        else true
    | None => true
    end in
  match record_time isoparse it with
  | None => false
  | Some t =>
      meets start_iso (fun s => Datetime.instant s <=? Datetime.instant t)
      && meets end_iso (fun e => Datetime.instant t <=? Datetime.instant e)
  end.

(** Every time of a record in [items] and every parsed bound are of one
    kind: all with a UTC offset, or all without. *)
Definition same_kind (isoparse : string -> option datetime)
    (start_iso end_iso : option string) (items : list json) : Prop :=
  forall it t b,
    In it items ->
    record_time isoparse it = Some t ->
    storage.bound isoparse start_iso = Some b \/ storage.bound isoparse end_iso = Some b ->
    Datetime.aware t = Datetime.aware b.

Definition is_object (j : json) : Prop := exists m, j = JObj m.

(** One call into the store: a request to one of the four handlers of
    [app], or a direct call of one of the two writers of [storage]. *)
Inductive call : Type :=
  | RegisterDevice (payload : app.register_payload) (u1 u2 : uuid) (now : datetime)
  | ListDevices
  | IngestTelemetry (payload : app.telemetry_payload) (api_key : option string)
      (now : datetime)
  | QueryTelemetry (device_id : string) (start end_ limit : option string)
  | StorageRegister (device_id : string) (meta : json) (now : datetime)
  | StorageStore (device_id : string) (payload : json).

(** The file after a call. *)
Definition after (isoparse : string -> option datetime) (int : string -> result Z)
    (c : call) (fs : file_state) : file_state :=
  match c with
  | RegisterDevice payload u1 u2 now => snd (app.register_device payload u1 u2 now fs)
  | ListDevices => snd (app.list_devices fs)
  | IngestTelemetry payload api_key now => snd (app.telemetry_ingest payload api_key now fs)
  | QueryTelemetry device_id start end_ limit =>
      snd (app.telemetry_query isoparse int device_id start end_ limit fs)
  | StorageRegister device_id meta now => snd (storage.register_device device_id meta now fs)
  | StorageStore device_id payload => snd (storage.store_telemetry device_id payload fs)
  end.

(** The files a sequence of calls leads to, from the state in which
    [DATA_FILE] does not exist yet. *)
Inductive reachable (isoparse : string -> option datetime) (int : string -> result Z)
    : file_state -> Prop :=
  | reachable_start : reachable isoparse int NoFile
  | reachable_call fs c :
      reachable isoparse int fs -> reachable isoparse int (after isoparse int c fs).

(** Every key of [telemetry] is a key of [devices]. *)
Definition telemetry_within_devices (fs : file_state) : Prop :=
  fs = NoFile
  \/ exists devs tel : gmap string json,
       fs = Stored (document devs tel) /\ dom tel ⊆ dom devs.

(** ** Threads *)

(** The lock is free and every thread is outside, or the lock is held, the
    thread [i] is inside and the others are outside. *)
Definition lock_free {A} (st : threaded.pool A) : Prop :=
  threaded.locked st = false /\ Forall threaded.outside (threaded.threads st).

Definition lock_held {A} (st : threaded.pool A) (i : nat) (p : threaded.prog A) : Prop :=
  threaded.locked st = true
  /\ threaded.threads st !! i = Some p
  /\ threaded.inside p
  /\ forall j q, i <> j -> threaded.threads st !! j = Some q -> threaded.outside q.

Definition well_locked {A} (st : threaded.pool A) : Prop :=
  lock_free st \/ exists i p, lock_held st i p.

(** The run that led to [st] from the configuration [c0] is serial up to
    the section in progress: [st] is reached by serial steps, or a thread
    [i] is inside a section that started in a configuration reached by
    serial steps and will end as the serial step of [i] from there. *)
Definition serial_so_far {A} (c0 : file_state * list (threaded.prog A))
    (st : threaded.pool A) : Prop :=
  (lock_free st /\ threaded.serial_steps c0 (threaded.file st, threaded.threads st))
  \/ (exists i k p fsA tsA,
        threaded.serial_steps c0 (fsA, tsA)
        /\ Forall threaded.outside tsA
        /\ tsA !! i = Some (threaded.Acquire k)
        /\ threaded.locked st = true
        /\ threaded.threads st = <[i := p]> tsA
        /\ threaded.inside p
        /\ threaded.run_section p (threaded.file st) = threaded.run_section k fsA).

(** A request that skips taking the lock: what is left of [p] after its
    first step, when that step takes the lock. *)
Definition without_lock {A} (p : threaded.prog A) : threaded.prog A :=
  match p with
  | threaded.Acquire k => k
  | _ => p
  end.

(** A request to [POST /devices], with the values drawn while it is
    served. *)
Record register_request : Type := {
  rr_payload : app.register_payload;
  rr_u1 : uuid;
  rr_u2 : uuid;
  rr_now : datetime
}.

Definition register_thread (r : register_request) : threaded.prog (result app.response) :=
  threaded.app_register_device (rr_payload r) (rr_u1 r) (rr_u2 r) (rr_now r).

(** The device id the request registers: the one it names, or the one
    drawn for it. *)
Definition requested_id (r : register_request) : string :=
  if Py.str_truthy (app.reg_device_id (rr_payload r))
  then default "" (app.reg_device_id (rr_payload r))
  else Uuid.str (rr_u1 r).

(** The answer to a registration that succeeds. *)
Definition register_reply (r : register_request) : app.response :=
  (JObj (<["device_id" := JStr (requested_id r)]>
         (<["api_key" := JStr (Uuid.hex (rr_u2 r))]> ∅)), 201).

(** The device record a registration that succeeds stores. *)
Definition registered_record (r : register_request) : json :=
  storage.device_record
    (JObj (<["api_key" := JStr (Uuid.hex (rr_u2 r))]>
             (match default (JObj ∅) (app.reg_meta (rr_payload r)) with
              | JObj m => m
              | _ => ∅
              end)
           ∪ {[ "name" := default (JStr "") (app.reg_name (rr_payload r)) ]}))
    (rr_now r).

(** The [meta] of the request is absent or a JSON object. *)
Definition meta_is_object (r : register_request) : Prop :=
  is_object (default (JObj ∅) (app.reg_meta (rr_payload r))).

(** The state of a serial run of the registrations [reqs] on a document
    that had the devices [devs]: the file holds a document whose devices are
    those of [devs] and of the requests served; a request not yet served
    still waits and its id is free, a request served has got its reply and
    its record is stored. *)
Definition registrations_served (reqs : list register_request)
    (devs : gmap string json)
    (c : file_state * list (threaded.prog (result app.response))) : Prop :=
  exists devs' tel' : gmap string json,
    holds (fst c) devs' tel'
    /\ length (snd c) = length reqs
    /\ dom devs ⊆ dom devs'
    /\ dom devs' ⊆ dom devs ∪ list_to_set (requested_id <$> reqs)
    /\ forall i r,
         reqs !! i = Some r ->
         (snd c !! i = Some (register_thread r) /\ devs' !! requested_id r = None)
         \/ (snd c !! i = Some (threaded.Return (Ok (register_reply r)))
             /\ devs' !! requested_id r = Some (registered_record r)).

(** A request to [POST /telemetry], with its [X-API-KEY] header and the
    clock reading while it is served. *)
Record ingest_request : Type := {
  ir_payload : app.telemetry_payload;
  ir_api_key : option string;
  ir_now : datetime
}.

Definition ingest_thread (r : ingest_request) : threaded.prog (result app.response) :=
  threaded.app_telemetry_ingest (ir_payload r) (ir_api_key r) (ir_now r).

(** The record the request appends. *)
Definition ingest_record (r : ingest_request) : json :=
  app.telemetry_record (ir_payload r) (ir_now r).

(** The answer to an ingestion that succeeds. *)
Definition ingest_reply : app.response := (JObj {[ "status" := JStr "ok" ]}, 201).

(** What is left of [telemetry_ingest] once the request has passed the
    checks: the locked append and the reply. *)
Definition ingest_checked (device_id : string) (r : ingest_request)
    : threaded.prog (result app.response) :=
  threaded.try_except
    (threaded.ebind (threaded.store_telemetry device_id (ingest_record r))
       (fun _ => threaded.Return (Ok ingest_reply)))
    is_KeyError
    (threaded.Return (Ok (app.error_body "unknown device", 404))).

(** The request is for [device_id] and its key passes the check against
    [meta]. *)
Definition accepted_request (device_id : string) (meta : gmap string json)
    (r : ingest_request) : Prop :=
  app.tel_device_id (ir_payload r) = Some device_id
  /\ key_accepted (meta !! "api_key") (ir_api_key r).

Definition has_returned {A} (p : threaded.prog A) : bool :=
  match p with
  | threaded.Return _ => true
  | _ => false
  end.

(** The state of a serial run of the ingestions [reqs] for one device whose
    list was [l]: the devices are unchanged, the list of the device is [l]
    followed by one record for each request that has returned; a request
    has not passed the checks yet, or has passed them and waits to append,
    or has got its reply and its record is in the list. *)
Definition ingestions_served (reqs : list ingest_request) (device_id : string)
    (devs : gmap string json) (l : list json)
    (c : file_state * list (threaded.prog (result app.response))) : Prop :=
  exists (tel' : gmap string json) (appended : list json),
    fst c = Stored (document devs tel')
    /\ default (JArr []) (tel' !! device_id) = JArr (l ++ appended)
    /\ length (snd c) = length reqs
    /\ length appended = length (List.filter has_returned (snd c))
    /\ forall i r,
         reqs !! i = Some r ->
         (snd c !! i = Some (ingest_thread r)
          \/ snd c !! i = Some (ingest_checked device_id r))
         \/ (snd c !! i = Some (threaded.Return (Ok ingest_reply))
             /\ ingest_record r ∈ appended).

(** ** Reads *)

(** The computation leaves the file as it found it, except that it may
    create a missing file with the empty document. *)
Definition reads_only {A} (m : M A) : Prop :=
  forall fs,
    snd (m fs) = fs \/ (fs = NoFile /\ snd (m fs) = Stored storage.initial).

(** ** Pages *)

(** The name [index] shows for the device record [v]: the [name] of its
    [meta], or the empty string when the record has no [meta] or the [meta]
    no [name]. *)
Definition listed_name (v : json) : json :=
  match v with
  | JObj record =>
      match default (JObj ∅) (record !! "meta") with
      | JObj meta => default (JStr "") (meta !! "name")
      | _ => JNull
      end
  | _ => JNull
  end.

(** The entry of [dev_list] for the device [k] with the record [v]. *)
Definition device_entry (kv : string * json) : json :=
  JObj (<["device_id" := JStr (fst kv)]> (<["name" := listed_name (snd kv)]> ∅)).

(** The record is a JSON object, and so is its [meta] when it has one. *)
Definition has_meta_object (v : json) : Prop :=
  exists record : gmap string json,
    v = JObj record /\ is_object (default (JObj ∅) (record !! "meta")).

(** ** Requests served one after the other *)

(** The file after the ingestions [reqs], served in the order of the
    list. *)
Definition ingest_all (reqs : list ingest_request) (fs : file_state) : file_state :=
  foldl (fun fs r =>
           snd (app.telemetry_ingest (ir_payload r) (ir_api_key r) (ir_now r) fs))
        fs reqs.

(** ** Stores built through the routes *)

(** A request to one of the seven routes of [app]. *)
Inductive request : Type :=
  | PostDevices (r : register_request)
  | GetDevices
  | PostTelemetry (r : ingest_request)
  | GetTelemetry (device_id : string) (start end_ limit : option string)
  | GetApiTelemetry (device_id : string) (limit : option string)
  | GetIndex
  | GetDashboard (device_id : string).

(** The file after the request has been served. *)
Definition serve (isoparse : string -> option datetime) (int : string -> result Z)
    (q : request) (fs : file_state) : file_state :=
  match q with
  | PostDevices r =>
      snd (app.register_device (rr_payload r) (rr_u1 r) (rr_u2 r) (rr_now r) fs)
  | GetDevices => snd (app.list_devices fs)
  | PostTelemetry r =>
      snd (app.telemetry_ingest (ir_payload r) (ir_api_key r) (ir_now r) fs)
  | GetTelemetry device_id start end_ limit =>
      snd (app.telemetry_query isoparse int device_id start end_ limit fs)
  | GetApiTelemetry device_id limit =>
      snd (pages.api_telemetry isoparse int device_id limit fs)
  | GetIndex => snd (pages.index fs)
  | GetDashboard device_id => snd (pages.dashboard device_id fs)
  end.

(** The files that requests lead to, served one after the other from the
    state in which [DATA_FILE] does not exist yet. *)
Inductive served (isoparse : string -> option datetime) (int : string -> result Z)
    : file_state -> Prop :=
  | served_start : served isoparse int NoFile
  | served_next fs q :
      served isoparse int fs -> served isoparse int (serve isoparse int q fs).

(** A device record as [register_device] of [app] writes it: an object
    with the time of registration and a [meta] object that holds a name and
    a non-empty API key. *)
Definition device_well_formed (v : json) : Prop :=
  exists (record meta : gmap string json) (key registered_at : string),
    v = JObj record
    /\ record !! "registered_at" = Some (JStr registered_at)
    /\ record !! "meta" = Some (JObj meta)
    /\ meta !! "api_key" = Some (JStr key)
    /\ key <> ""
    /\ is_Some (meta !! "name").

(** A telemetry record as [telemetry_ingest] writes it: an object with a
    truthy [timestamp] and a [data]. *)
Definition record_well_formed (it : json) : Prop :=
  exists (r : gmap string json) (ts : json),
    it = JObj r
    /\ r !! "timestamp" = Some ts
    /\ Py.truthy ts = true
    /\ is_Some (r !! "data").

(** Every device has a list of telemetry and every list belongs to a
    device; the device records and the telemetry records are as the handlers
    write them. *)
Definition well_formed (devs tel : gmap string json) : Prop :=
  dom tel = dom devs
  /\ map_Forall (fun _ v => device_well_formed v) devs
  /\ map_Forall (fun _ b => exists l, b = JArr l /\ Forall record_well_formed l) tel.

Definition store_well_formed (fs : file_state) : Prop :=
  fs = NoFile
  \/ exists devs tel : gmap string json,
       fs = Stored (document devs tel) /\ well_formed devs tel.

(** ** Threads: registrations of one id *)


(** ** What requests keep *)



(** * Sample values

    Concrete inputs at which the functions are evaluated. *)

Module sample.

Definition now : datetime :=
  {| year := 2024; month := 5; day := 17; hour := 9; minute := 30; second := 0;
     microsecond := 0; utcoffset := None |}.

Definition later : datetime :=
  {| year := 2024; month := 5; day := 17; hour := 9; minute := 31; second := 12;
     microsecond := 250000; utcoffset := None |}.

(** A device record with the API key [key] (none when [key] is [None]). *)
Definition device (key : option string) : json :=
  JObj (<["meta" := JObj (match key with
                          | Some k => <["api_key" := JStr k]> {[ "name" := JStr "probe" ]}
                          | None => {[ "name" := JStr "probe" ]}
                          end)]>
        {[ "registered_at" := JStr "2024-05-17T09:00:00Z" ]}).

(** A telemetry record with the timestamp [ts] and the reading [t]. *)
Definition reading (ts : string) (t : Z) : json :=
  JObj (<["timestamp" := JStr ts]> {[ "data" := JObj {[ "t" := JInt t ]} ]}).

(** What [dateutil.parser.isoparse] returns on the strings of the examples:
    a naive value for a text without a zone, an aware value for a text that
    ends in [Z]; it raises on the other texts used here. *)
Definition isoparse (s : string) : option datetime :=
  if String.eqb s "2024-05-17T09:00:00" then
    Some {| year := 2024; month := 5; day := 17; hour := 9; minute := 0; second := 0;
            microsecond := 0; utcoffset := None |}
  else if String.eqb s "2024-05-17T09:00:00Z" then
    Some {| year := 2024; month := 5; day := 17; hour := 9; minute := 0; second := 0;
            microsecond := 0; utcoffset := Some 0 |}
  else if String.eqb s "2024-05-17T09:30:00Z" then
    Some {| year := 2024; month := 5; day := 17; hour := 9; minute := 30; second := 0;
            microsecond := 0; utcoffset := Some 0 |}
  else if String.eqb s "2024-05-17T10:00:00Z" then
    Some {| year := 2024; month := 5; day := 17; hour := 10; minute := 0; second := 0;
            microsecond := 0; utcoffset := Some 0 |}
  else None.

(** What the builtin [int] returns on the strings of the examples; it
    raises [ValueError] on the other texts used here. *)
Definition int (s : string) : result Z :=
  if String.eqb s "100" then Ok 100
  else if String.eqb s "2" then Ok 2
  else if String.eqb s "0" then Ok 0
  else if String.eqb s "-1" then Ok (-1)
  else Raise ValueError.

(** The body of a [POST /telemetry] request for [device_id]. *)
Definition post (device_id : option string) : app.telemetry_payload :=
  {| app.tel_device_id := device_id;
     app.tel_timestamp := None;
     app.tel_data := Some (JObj {[ "t" := JInt 1 ]}) |}.

End sample.

(** Two registrations and two ingestions to be served in parallel. *)
Definition sample_registrations : list register_request :=
  [ {| rr_payload := {| app.reg_device_id := Some "d1"; app.reg_name := None;
                        app.reg_meta := None |};
       rr_u1 := 1%N; rr_u2 := 2%N; rr_now := sample.now |};
    {| rr_payload := {| app.reg_device_id := Some "d2"; app.reg_name := None;
                        app.reg_meta := Some (JObj {[ "site" := JStr "roof" ]}) |};
       rr_u1 := 3%N; rr_u2 := 4%N; rr_now := sample.later |} ].

Definition sample_ingestions : list ingest_request :=
  [ {| ir_payload := sample.post (Some "d1"); ir_api_key := Some "k1";
       ir_now := sample.now |};
    {| ir_payload := sample.post (Some "d1"); ir_api_key := Some "k1";
       ir_now := sample.later |} ].


(** * Properties *)

(** ** The library functions on concrete values *)

Example isoformat_with_microseconds :
  Datetime.isoformat sample.later = "2024-05-17T09:31:12.250000".
Proof. reflexivity. Qed.

Example isoformat_whole_second :
  Datetime.isoformat sample.now = "2024-05-17T09:30:00".
Proof. reflexivity. Qed.

Example toordinal_of_a_leap_year :
  Datetime.toordinal {| year := 2024; month := 3; day := 1; hour := 0; minute := 0;
                        second := 0; microsecond := 0; utcoffset := None |} = 738946.
Proof. reflexivity. Qed.

Example naive_against_aware :
  Datetime.lt sample.now
    {| year := 2024; month := 5; day := 17; hour := 9; minute := 30; second := 0;
       microsecond := 0; utcoffset := Some 0 |} = Raise TypeError.
Proof. reflexivity. Qed.

Example uuid_hex_is_padded : Uuid.hex 255%N = "000000000000000000000000000000ff".
Proof. reflexivity. Qed.

Example uuid_str_is_grouped :
  Uuid.str 0x12345678123456781234567812345678%N
  = "12345678-1234-5678-1234-567812345678".
Proof. reflexivity. Qed.

Example slice_last_two : Py.slice_from (- 2) [1; 2; 3; 4; 5] = [4; 5].
Proof. reflexivity. Qed.

Example slice_minus_zero : Py.slice_from (- 0) [1; 2; 3; 4; 5] = [1; 2; 3; 4; 5].
Proof. reflexivity. Qed.

Example slice_of_negated_negative : Py.slice_from (- (-2)) [1; 2; 3; 4; 5] = [3; 4; 5].
Proof. reflexivity. Qed.

Example slice_beyond_the_length : Py.slice_from (- 7) [1; 2; 3; 4; 5] = [1; 2; 3; 4; 5].
Proof. reflexivity. Qed.

Ltac res_simpl := cbn [rbind fst snd].

(** ** Documents *)

Lemma document_devices devs tel :
  Py.getitem (document devs tel) "devices" = Ok (JObj devs).
Proof. unfold Py.getitem, document. by rewrite lookup_insert_eq. Qed.

Lemma document_telemetry devs tel :
  Py.getitem (document devs tel) "telemetry" = Ok (JObj tel).
Proof.
  unfold Py.getitem, document.
  rewrite lookup_insert_ne by done. by rewrite lookup_insert_eq.
Qed.

Lemma document_set_devices devs tel devs' :
  Py.setitem (document devs tel) "devices" (JObj devs') = Ok (document devs' tel).
Proof. unfold Py.setitem, document. by rewrite insert_insert_eq. Qed.

Lemma document_set_telemetry devs tel tel' :
  Py.setitem (document devs tel) "telemetry" (JObj tel') = Ok (document devs tel').
Proof.
  unfold Py.setitem, document.
  rewrite insert_insert_ne by done. by rewrite insert_insert_eq.
Qed.

Lemma document_inj devs tel devs' tel' :
  document devs tel = document devs' tel' -> devs = devs' /\ tel = tel'.
Proof.
  intros H.
  pose proof (f_equal (fun d => Py.getitem d "devices") H) as Hd.
  pose proof (f_equal (fun d => Py.getitem d "telemetry") H) as Ht.
  cbv beta in Hd, Ht.
  rewrite !document_devices in Hd. rewrite !document_telemetry in Ht.
  split; congruence.
Qed.

Lemma contains_dict k (m : gmap string json) :
  Py.contains k (JObj m) = Ok (match m !! k with Some _ => true | None => false end).
Proof.
  unfold Py.contains. f_equal.
  destruct (m !! k) eqn:E.
  - apply bool_decide_eq_true. eauto.
  - apply bool_decide_eq_false. by intros [? ?].
Qed.

Lemma with_bucket_lookup tel device_id :
  with_bucket tel device_id !! device_id
  = Some (default (JArr []) (tel !! device_id)).
Proof.
  unfold with_bucket. destruct (tel !! device_id) eqn:E; simpl.
  - done.
  - by rewrite lookup_insert_eq.
Qed.


(** ** The mutators on a document *)

Lemma modify_devices devs tel f :
  Py.modify_item (document devs tel) "devices" f
  = (v <- f (JObj devs); Py.setitem (document devs tel) "devices" v)%res.
Proof. unfold Py.modify_item. by rewrite document_devices. Qed.

Lemma modify_telemetry devs tel f :
  Py.modify_item (document devs tel) "telemetry" f
  = (v <- f (JObj tel); Py.setitem (document devs tel) "telemetry" v)%res.
Proof. unfold Py.modify_item. by rewrite document_telemetry. Qed.

Lemma setdefault_bucket tel device_id :
  Py.setdefault (JObj tel) device_id (JArr []) = Ok (JObj (with_bucket tel device_id)).
Proof. reflexivity. Qed.

Lemma register_device_mut_document device_id meta now devs tel :
  storage.register_device_mut device_id meta now (document devs tel)
  = match devs !! device_id with
    | Some _ => Raise ValueError
    | None =>
        let d := document (<[device_id := storage.device_record meta now]> devs)
                          (with_bucket tel device_id) in
        Ok (d, Some d)
    end.
Proof.
  unfold storage.register_device_mut.
  rewrite document_devices. res_simpl. rewrite contains_dict. res_simpl.
  destruct (devs !! device_id); [done|].
  rewrite modify_devices. cbn [Py.setitem rbind].
  rewrite document_set_devices. res_simpl.
  rewrite modify_telemetry, setdefault_bucket. res_simpl.
  by rewrite document_set_telemetry.
Qed.

Lemma store_telemetry_mut_document device_id payload devs tel :
  storage.store_telemetry_mut device_id payload (document devs tel)
  = match devs !! device_id with
    | None => Raise KeyError
    | Some _ =>
        match default (JArr []) (tel !! device_id) with
        | JArr l =>
            let d := document devs (<[device_id := JArr (l ++ [payload])]> tel) in
            Ok (d, Some d)
        | _ => Raise AttributeError
        end
    end.
Proof.
  unfold storage.store_telemetry_mut.
  rewrite document_devices. res_simpl. rewrite contains_dict. res_simpl.
  destruct (devs !! device_id); [|done]. cbn [negb].
  rewrite modify_telemetry, setdefault_bucket. res_simpl.
  rewrite document_set_telemetry. res_simpl.
  rewrite modify_telemetry.
  unfold Py.modify_item, Py.getitem. rewrite with_bucket_lookup. res_simpl.
  destruct (default (JArr []) (tel !! device_id)); try done.
  cbn [Py.append rbind Py.setitem].
  rewrite document_set_telemetry.
  unfold with_bucket. destruct (tel !! device_id); [done|].
  by rewrite insert_insert_eq.
Qed.

(** ** The locked read and write on the three kinds of file *)

Lemma read_all_stored j : storage.read_all (Stored j) = (Ok j, Stored j).
Proof. reflexivity. Qed.

Lemma read_all_missing :
  storage.read_all NoFile = (Ok storage.initial, Stored storage.initial).
Proof. reflexivity. Qed.

Lemma read_all_garbage : storage.read_all Garbage = (Raise JSONDecodeError, Garbage).
Proof. reflexivity. Qed.

Lemma with_lock_write_stored mutator_fn j :
  storage.with_lock_write mutator_fn (Stored j)
  = match mutator_fn j with
    | Ok r =>
        let to_write := match snd r with Some result => result | None => fst r end in
        (Ok to_write, Stored to_write)
    | Raise e => (Raise e, Stored j)
    end.
Proof.
  unfold storage.with_lock_write, bind, lift. rewrite read_all_stored.
  by destruct (mutator_fn j).
Qed.

Lemma with_lock_write_missing mutator_fn :
  storage.with_lock_write mutator_fn NoFile
  = storage.with_lock_write mutator_fn (Stored storage.initial).
Proof. reflexivity. Qed.

Lemma register_device_stored device_id meta now devs tel :
  storage.register_device device_id meta now (Stored (document devs tel))
  = match devs !! device_id with
    | Some _ => (Raise ValueError, Stored (document devs tel))
    | None =>
        let d := document (<[device_id := storage.device_record meta now]> devs)
                          (with_bucket tel device_id) in
        (Ok d, Stored d)
    end.
Proof.
  unfold storage.register_device.
  rewrite with_lock_write_stored, register_device_mut_document.
  by destruct (devs !! device_id).
Qed.

Lemma store_telemetry_stored device_id payload devs tel :
  storage.store_telemetry device_id payload (Stored (document devs tel))
  = match devs !! device_id with
    | None => (Raise KeyError, Stored (document devs tel))
    | Some _ =>
        match default (JArr []) (tel !! device_id) with
        | JArr l =>
            let d := document devs (<[device_id := JArr (l ++ [payload])]> tel) in
            (Ok d, Stored d)
        | _ => (Raise AttributeError, Stored (document devs tel))
        end
    end.
Proof.
  unfold storage.store_telemetry.
  rewrite with_lock_write_stored, store_telemetry_mut_document.
  destruct (devs !! device_id); [|done].
  by destruct (default (JArr []) (tel !! device_id)).
Qed.

Lemma list_devices_stored devs tel :
  storage.list_devices (Stored (document devs tel))
  = (Ok (JObj devs), Stored (document devs tel)).
Proof.
  unfold storage.list_devices, storage.with_lock_read, bind, lift.
  by rewrite read_all_stored, document_devices.
Qed.

(** C1. Registering a device id a second time raises [ValueError] (the
    module's "device already exists" error), whatever the first call did,
    and the second call leaves the file as the first call left it. *)
Theorem register_device_twice_fails (fs : file_state) (device_id : string)
    (meta1 meta2 : json) (now1 now2 : datetime) :
  holds_document fs ->
  let fs1 := snd (storage.register_device device_id meta1 now1 fs) in
  storage.register_device device_id meta2 now2 fs1 = (Raise ValueError, fs1).
Proof.
  assert (Hstored : forall devs tel,
    let fs1 := snd (storage.register_device device_id meta1 now1
                      (Stored (document devs tel))) in
    storage.register_device device_id meta2 now2 fs1 = (Raise ValueError, fs1)).
  { intros devs tel. simpl. rewrite register_device_stored.
    destruct (devs !! device_id) eqn:E; simpl.
    - rewrite register_device_stored. by rewrite E.
    - rewrite register_device_stored. by rewrite lookup_insert_eq. }
  intros [-> | (devs & tel & ->)].
  - unfold storage.register_device. rewrite with_lock_write_missing.
    apply (Hstored ∅ ∅).
  - apply Hstored.
Qed.

Lemma register_device_twice_fails_witness :
  holds_document NoFile /\
  storage.register_device "d1" (JObj ∅)
    {| year := 2024; month := 5; day := 17; hour := 9; minute := 30; second := 0;
       microsecond := 0; utcoffset := None |}
    (snd (storage.register_device "d1" JNull
            {| year := 2024; month := 5; day := 17; hour := 9; minute := 29; second := 58;
               microsecond := 120000; utcoffset := None |} NoFile))
  = (Raise ValueError,
     snd (storage.register_device "d1" JNull
            {| year := 2024; month := 5; day := 17; hour := 9; minute := 29; second := 58;
               microsecond := 120000; utcoffset := None |} NoFile)).
Proof.
  split.
  - by left.
  - apply (register_device_twice_fails NoFile "d1" JNull (JObj ∅)). by left.
Defined.

(** ** Ingestion *)

Ltac store_simpl :=
  unfold bind, lift, ret, try_except; cbn [fst snd].

(** What [telemetry_ingest] does once the request has passed the checks. *)
Lemma telemetry_ingest_accepted payload api_key now device_id devs tel record meta :
  app.tel_device_id payload = Some device_id ->
  device_id <> "" ->
  devs !! device_id = Some (JObj record) ->
  record !! "meta" = Some (JObj meta) ->
  Py.truthy (default JNull (meta !! "api_key"))
    && app.key_differs api_key (default JNull (meta !! "api_key")) = false ->
  app.telemetry_ingest payload api_key now (Stored (document devs tel))
  = match default (JArr []) (tel !! device_id) with
    | JArr l =>
        (Ok (JObj {[ "status" := JStr "ok" ]}, 201),
         Stored (document devs
                   (<[device_id := JArr (l ++ [app.telemetry_record payload now])]> tel)))
    | _ => (Raise AttributeError, Stored (document devs tel))
    end.
Proof.
  intros Hid Hne Hdev Hmeta Hkey.
  unfold app.telemetry_ingest. rewrite Hid.
  assert (Py.str_truthy (Some device_id) = true) as ->.
  { simpl. apply negb_true_iff, String.eqb_neq. done. }
  cbn [negb from_option id]. unfold bind at 1. rewrite list_devices_stored.
  store_simpl. cbn [Py.get]. rewrite Hdev. cbn [from_option id].
  assert (Py.truthy (JObj record) = true) as ->.
  { simpl. apply negb_true_iff, Nat.eqb_neq. intros Hz.
    apply map_size_empty_iff in Hz. subst record. by rewrite lookup_empty in Hmeta. }
  cbn [negb Py.getitem]. rewrite Hmeta. cbn [Py.get]. rewrite Hkey.
  rewrite store_telemetry_stored, Hdev.
  by destruct (default (JArr []) (tel !! device_id)).
Qed.

(** C2. The checks of [telemetry_ingest], in their order: an empty device id
    is answered 400 "device_id required" without touching the store; an id
    that is not a key of [devices] is answered 404 "unknown device" for
    every API key; a stored non-empty [api_key] different from the supplied
    key is answered 401 "invalid api key"; with no stored [api_key], or an
    empty one, the key is not compared and the record is appended. *)
Theorem telemetry_ingest_checks (payload : app.telemetry_payload)
    (api_key : option string) (now : datetime) :
  (forall fs,
     Py.str_truthy (app.tel_device_id payload) = false ->
     app.telemetry_ingest payload api_key now fs
     = (Ok (app.error_body "device_id required", 400), fs))
  /\ (forall device_id devs tel,
        app.tel_device_id payload = Some device_id ->
        device_id <> "" ->
        devs !! device_id = None ->
        app.telemetry_ingest payload api_key now (Stored (document devs tel))
        = (Ok (app.error_body "unknown device", 404), Stored (document devs tel)))
  /\ (forall device_id devs tel record meta stored_key,
        app.tel_device_id payload = Some device_id ->
        device_id <> "" ->
        devs !! device_id = Some (JObj record) ->
        record !! "meta" = Some (JObj meta) ->
        meta !! "api_key" = Some (JStr stored_key) ->
        stored_key <> "" ->
        api_key <> Some stored_key ->
        app.telemetry_ingest payload api_key now (Stored (document devs tel))
        = (Ok (app.error_body "invalid api key", 401), Stored (document devs tel)))
  /\ (forall device_id devs tel record meta l,
        app.tel_device_id payload = Some device_id ->
        device_id <> "" ->
        devs !! device_id = Some (JObj record) ->
        record !! "meta" = Some (JObj meta) ->
        meta !! "api_key" = None \/ meta !! "api_key" = Some (JStr "") ->
        default (JArr []) (tel !! device_id) = JArr l ->
        app.telemetry_ingest payload api_key now (Stored (document devs tel))
        = (Ok (JObj {[ "status" := JStr "ok" ]}, 201),
           Stored (document devs
                     (<[device_id := JArr (l ++ [app.telemetry_record payload now])]> tel)))).
Proof.
  repeat split.
  - intros fs Hempty. unfold app.telemetry_ingest. by rewrite Hempty.
  - intros device_id devs tel Hid Hne Hdev.
    unfold app.telemetry_ingest. rewrite Hid.
    assert (Py.str_truthy (Some device_id) = true) as ->.
    { simpl. apply negb_true_iff, String.eqb_neq. done. }
    cbn [negb from_option id]. unfold bind at 1. rewrite list_devices_stored.
    store_simpl. cbn [Py.get]. by rewrite Hdev.
  - intros device_id devs tel record meta stored_key Hid Hne Hdev Hmeta Hkey Hstored Hdiff.
    unfold app.telemetry_ingest. rewrite Hid.
    assert (Py.str_truthy (Some device_id) = true) as ->.
    { simpl. apply negb_true_iff, String.eqb_neq. done. }
    cbn [negb from_option id]. unfold bind at 1. rewrite list_devices_stored.
    store_simpl. cbn [Py.get]. rewrite Hdev. cbn [from_option id].
    assert (Py.truthy (JObj record) = true) as ->.
    { simpl. apply negb_true_iff, Nat.eqb_neq. intros Hz.
      apply map_size_empty_iff in Hz. subst record. by rewrite lookup_empty in Hmeta. }
    cbn [negb Py.getitem]. rewrite Hmeta. cbn [Py.get]. rewrite Hkey.
    cbn [from_option id Py.truthy].
    assert (negb (String.eqb stored_key "") = true) as ->.
    { apply negb_true_iff, String.eqb_neq. done. }
    assert (app.key_differs api_key (JStr stored_key) = true) as ->; [|done].
    destruct api_key as [a|]; [|done]. simpl.
    apply negb_true_iff, String.eqb_neq. congruence.
  - intros device_id devs tel record meta l Hid Hne Hdev Hmeta Hkey Hbucket.
    rewrite (telemetry_ingest_accepted payload api_key now device_id devs tel record meta)
      by (try done; destruct Hkey as [-> | ->]; done).
    by rewrite Hbucket.
Qed.

Lemma telemetry_ingest_checks_witness :
  app.telemetry_ingest (sample.post (Some "")) (Some "k1") sample.now Garbage
  = (Ok (app.error_body "device_id required", 400), Garbage)
  /\ app.telemetry_ingest (sample.post (Some "d2")) (Some "k1") sample.now
       (Stored (document {[ "d1" := sample.device (Some "k1") ]} ∅))
     = (Ok (app.error_body "unknown device", 404),
        Stored (document {[ "d1" := sample.device (Some "k1") ]} ∅))
  /\ app.telemetry_ingest (sample.post (Some "d1")) (Some "k2") sample.now
       (Stored (document {[ "d1" := sample.device (Some "k1") ]} ∅))
     = (Ok (app.error_body "invalid api key", 401),
        Stored (document {[ "d1" := sample.device (Some "k1") ]} ∅))
  /\ app.telemetry_ingest (sample.post (Some "d1")) None sample.now
       (Stored (document {[ "d1" := sample.device None ]} ∅))
     = (Ok (JObj {[ "status" := JStr "ok" ]}, 201),
        Stored (document {[ "d1" := sample.device None ]}
                  (<["d1" := JArr ([] ++ [app.telemetry_record (sample.post (Some "d1"))
                                            sample.now])]> ∅))).
Proof.
  split; [|split; [|split]].
  - destruct (telemetry_ingest_checks (sample.post (Some "")) (Some "k1") sample.now)
      as (H & _).
    apply H. reflexivity.
  - destruct (telemetry_ingest_checks (sample.post (Some "d2")) (Some "k1") sample.now)
      as (_ & H & _).
    apply (H "d2"); [reflexivity | discriminate | reflexivity].
  - destruct (telemetry_ingest_checks (sample.post (Some "d1")) (Some "k2") sample.now)
      as (_ & _ & H & _).
    eapply (H "d1"); [reflexivity | discriminate | reflexivity | reflexivity
                     | reflexivity | discriminate | discriminate].
  - destruct (telemetry_ingest_checks (sample.post (Some "d1")) None sample.now)
      as (_ & _ & _ & H).
    eapply (H "d1"); [reflexivity | discriminate | reflexivity | reflexivity
                     | left; reflexivity | reflexivity].
Defined.

(** ** Queries *)

(** [get_telemetry] on a document, as a function of the bucket. *)
Lemma get_telemetry_stored isoparse device_id start_iso end_iso limit devs tel :
  storage.get_telemetry isoparse device_id start_iso end_iso limit
    (Stored (document devs tel))
  = (match tel !! device_id with
     | None => Ok (JArr [])
     | Some items =>
         (items <- (if Py.str_truthy start_iso || Py.str_truthy end_iso
                    then
                      its <- Py.iter items;
                      filtered <- storage.time_filter isoparse
                                    (storage.bound isoparse start_iso)
                                    (storage.bound isoparse end_iso) its;
                      Ok (JArr filtered)
                    else Ok items);
          Py.getslice_from items (- limit))%res
     end, Stored (document devs tel)).
Proof.
  unfold storage.get_telemetry, storage.with_lock_read.
  unfold bind at 1. rewrite read_all_stored.
  unfold bind at 1. unfold lift at 1. rewrite document_telemetry.
  unfold bind at 1. unfold lift at 1. rewrite contains_dict.
  destruct (tel !! device_id) as [items|] eqn:E; cbn [negb]; [|done].
  unfold bind at 1. unfold lift at 1. cbn [Py.getitem]. rewrite E.
  destruct (Py.str_truthy start_iso || Py.str_truthy end_iso).
  - store_simpl. destruct (Py.iter items) as [its|]; [|done]. res_simpl.
    by destruct (storage.time_filter _ _ _ its).
  - by store_simpl.
Qed.

Lemma get_telemetry_missing isoparse device_id start_iso end_iso limit :
  storage.get_telemetry isoparse device_id start_iso end_iso limit NoFile
  = (Ok (JArr []), Stored storage.initial).
Proof.
  change (storage.get_telemetry isoparse device_id start_iso end_iso limit NoFile)
    with (storage.get_telemetry isoparse device_id start_iso end_iso limit
            (Stored storage.initial)).
  unfold storage.initial. rewrite get_telemetry_stored. by rewrite lookup_empty.
Qed.

Lemma slice_from_nil {A} start : Py.slice_from start (@nil A) = [].
Proof. unfold Py.slice_from. by rewrite drop_nil. Qed.

(** A positive [limit] keeps the last [limit] elements, all of them when
    there are fewer. *)
Lemma slice_from_last {A} (l : list A) (limit : Z) :
  0 < limit ->
  Py.slice_from (- limit) l = drop (length l - Z.to_nat limit) l.
Proof.
  intros Hpos. unfold Py.slice_from.
  assert (((- limit) <? 0) = true) as -> by (apply Z.ltb_lt; lia).
  f_equal. lia.
Qed.

(** A [limit] of zero or below keeps everything from index [- limit] on. *)
Lemma slice_from_nonpositive {A} (l : list A) (limit : Z) :
  limit <= 0 ->
  Py.slice_from (- limit) l = drop (Z.to_nat (- limit)) l.
Proof.
  intros Hle. unfold Py.slice_from.
  assert (((- limit) <? 0) = false) as -> by (apply Z.ltb_ge; lia).
  destruct (Z.le_gt_cases (- limit) (Z.of_nat (length l))) as [H|H].
  - by rewrite Z.min_l.
  - rewrite Z.min_r by lia. rewrite Nat2Z.id, drop_all.
    symmetry. apply drop_ge. lia.
Qed.

(** C7. For a device id with no telemetry bucket [get_telemetry] returns
    the empty list and raises nothing, for every start, end and limit: on a
    document without the bucket, and on a missing file (which it creates).
    A device with an empty bucket gets the same answer. *)
Theorem get_telemetry_no_bucket (isoparse : string -> option datetime)
    (device_id : string) (start_iso end_iso : option string) (limit : Z) :
  (forall devs tel,
     tel !! device_id = None ->
     storage.get_telemetry isoparse device_id start_iso end_iso limit
       (Stored (document devs tel))
     = (Ok (JArr []), Stored (document devs tel)))
  /\ storage.get_telemetry isoparse device_id start_iso end_iso limit NoFile
     = (Ok (JArr []), Stored storage.initial)
  /\ (forall devs tel,
        tel !! device_id = Some (JArr []) ->
        storage.get_telemetry isoparse device_id start_iso end_iso limit
          (Stored (document devs tel))
        = (Ok (JArr []), Stored (document devs tel))).
Proof.
  split; [|split].
  - intros devs tel Hnone. by rewrite get_telemetry_stored, Hnone.
  - apply get_telemetry_missing.
  - intros devs tel Hempty. rewrite get_telemetry_stored, Hempty.
    destruct (Py.str_truthy start_iso || Py.str_truthy end_iso); cbn.
    + by rewrite slice_from_nil.
    + by rewrite slice_from_nil.
Qed.

Lemma get_telemetry_no_bucket_witness :
  storage.get_telemetry (fun _ => None) "d9" (Some "2024-05-17T00:00:00Z") None 5
    (Stored (document {[ "d1" := sample.device None ]}
               {[ "d1" := JArr [sample.reading "2024-05-17T09:30:00Z" 21] ]}))
  = (Ok (JArr []),
     Stored (document {[ "d1" := sample.device None ]}
               {[ "d1" := JArr [sample.reading "2024-05-17T09:30:00Z" 21] ]}))
  /\ storage.get_telemetry (fun _ => None) "d1" None (Some "x") (-3)
       (Stored (document {[ "d1" := sample.device None ]} {[ "d1" := JArr [] ]}))
     = (Ok (JArr []),
        Stored (document {[ "d1" := sample.device None ]} {[ "d1" := JArr [] ]})).
Proof.
  split.
  - destruct (get_telemetry_no_bucket (fun _ => None) "d9"
                (Some "2024-05-17T00:00:00Z") None 5) as (H & _).
    apply H. reflexivity.
  - destruct (get_telemetry_no_bucket (fun _ => None) "d1" None (Some "x") (-3))
      as (_ & _ & H).
    apply H. reflexivity.
Defined.

(** ** Reading the file *)

(** C8, as the code has it. When the file does not exist [read_all] creates
    it with the document [{devices: {}, telemetry: {}}] and returns that
    document; when the file holds a text that is not JSON it raises
    [JSONDecodeError]; when the file holds a JSON value it returns that value
    and leaves the file alone, whatever the structure of the value. *)
Theorem read_all_cases :
  storage.read_all NoFile = (Ok (document ∅ ∅), Stored (document ∅ ∅))
  /\ storage.read_all Garbage = (Raise JSONDecodeError, Garbage)
  /\ (forall j, storage.read_all (Stored j) = (Ok j, Stored j)).
Proof. repeat split. Qed.

(** C8 fails as stated: a file holding the JSON text [[]] exists and does
    not hold a document, and [read_all] returns the list without an error. *)
Lemma read_all_unvalidated :
  ~ holds_document (Stored (JArr []))
  /\ storage.read_all (Stored (JArr [])) = (Ok (JArr []), Stored (JArr [])).
Proof.
  split; [|reflexivity].
  intros [H | (devs & tel & H)]; discriminate.
Qed.

(** ** The limit of a query *)

(** Without a time filter the answer is the slice [items[-limit:]] of the
    bucket. *)
Lemma get_telemetry_unfiltered isoparse device_id limit devs tel items :
  tel !! device_id = Some (JArr items) ->
  storage.get_telemetry isoparse device_id None None limit (Stored (document devs tel))
  = (Ok (JArr (Py.slice_from (- limit) items)), Stored (document devs tel)).
Proof. intros H. by rewrite get_telemetry_stored, H. Qed.

(** With a positive limit the answer is the last [limit] records of the
    bucket, in their order. *)
Lemma get_telemetry_positive_limit isoparse device_id limit devs tel items :
  tel !! device_id = Some (JArr items) ->
  0 < limit ->
  storage.get_telemetry isoparse device_id None None limit (Stored (document devs tel))
  = (Ok (JArr (drop (length items - Z.to_nat limit) items)),
     Stored (document devs tel)).
Proof.
  intros H Hpos.
  by rewrite (get_telemetry_unfiltered _ _ _ _ _ items), slice_from_last.
Qed.

(** On a limit that is not positive the answer is the bucket from index
    [- limit] on, which for [limit = 0] is the whole bucket. *)
Lemma get_telemetry_nonpositive_limit isoparse device_id limit devs tel items :
  tel !! device_id = Some (JArr items) ->
  limit <= 0 ->
  storage.get_telemetry isoparse device_id None None limit (Stored (document devs tel))
  = (Ok (JArr (drop (Z.to_nat (- limit)) items)), Stored (document devs tel)).
Proof.
  intros H Hle.
  by rewrite (get_telemetry_unfiltered _ _ _ _ _ items), slice_from_nonpositive.
Qed.

(** ** A missing file *)

Lemma app_register_device_missing payload u1 u2 now m0 :
  default (JObj ∅) (app.reg_meta payload) = JObj m0 ->
  app.register_device payload u1 u2 now NoFile
  = app.register_device payload u1 u2 now (Stored storage.initial).
Proof. intros Hmeta. unfold app.register_device. by rewrite Hmeta. Qed.

Lemma app_telemetry_ingest_missing payload api_key now :
  Py.str_truthy (app.tel_device_id payload) = true ->
  app.telemetry_ingest payload api_key now NoFile
  = app.telemetry_ingest payload api_key now (Stored storage.initial).
Proof. intros Hid. unfold app.telemetry_ingest. by rewrite Hid. Qed.

(** ** Registration *)

Lemma hex_nonempty u : Uuid.hex u <> "".
Proof.
  unfold Uuid.hex. generalize (Uuid.hexadecimal u). intros s.
  destruct (32 - String.length s)%nat eqn:E; cbn [replicate string_of_list_ascii].
  - destruct s; [simpl in E; lia | discriminate].
  - discriminate.
Qed.

Lemma with_bucket_fresh tel device_id :
  tel !! device_id = None \/ tel !! device_id = Some (JArr []) ->
  with_bucket tel device_id = <[device_id := JArr []]> tel.
Proof.
  unfold with_bucket. intros [-> | H]; [done|].
  rewrite H. symmetry. by apply insert_id.
Qed.

(** C5. A registration that succeeds: the request names a device id that is
    not registered (or names none, and the drawn one is not registered), its
    [meta] is absent or a JSON object, and the telemetry mapping has no
    records for the id.  The handler answers 201 with the device id and the
    drawn API key, which is not empty; the file then holds the old devices
    plus one record under the id, with [registered_at] the clock reading
    followed by [Z] and [meta.api_key] the returned key, and an empty
    telemetry list under the id; [list_devices] returns that mapping. *)
Theorem register_device_success (payload : app.register_payload) (u1 u2 : uuid)
    (now : datetime) (fs : file_state) (devs tel m0 : gmap string json) :
  holds fs devs tel ->
  default (JObj ∅) (app.reg_meta payload) = JObj m0 ->
  let device_id :=
    if Py.str_truthy (app.reg_device_id payload)
    then default "" (app.reg_device_id payload)
    else Uuid.str u1 in
  devs !! device_id = None ->
  tel !! device_id = None \/ tel !! device_id = Some (JArr []) ->
  let api_key := Uuid.hex u2 in
  let meta :=
    JObj (<["api_key" := JStr api_key]> m0
          ∪ {[ "name" := default (JStr "") (app.reg_name payload) ]}) in
  let record :=
    JObj (<["meta" := meta]>
          (<["registered_at" := JStr (Datetime.isoformat now +:+ "Z")]> ∅)) in
  let fs' := Stored (document (<[device_id := record]> devs)
                              (<[device_id := JArr []]> tel)) in
  app.register_device payload u1 u2 now fs
  = (Ok (JObj (<["device_id" := JStr device_id]> (<["api_key" := JStr api_key]> ∅)), 201),
     fs')
  /\ api_key <> ""
  /\ Py.getitem meta "api_key" = Ok (JStr api_key)
  /\ app.list_devices fs' = (Ok (JObj (<[device_id := record]> devs), 200), fs')
  /\ <[device_id := record]> devs !! device_id = Some record
  /\ size (<[device_id := record]> devs) = S (size devs).
Proof.
  intros Hfs Hmeta device_id Hfresh Hbucket api_key meta record fs'.
  assert (Hrun : app.register_device payload u1 u2 now (Stored (document devs tel))
                 = (Ok (JObj (<["device_id" := JStr device_id]>
                                (<["api_key" := JStr api_key]> ∅)), 201), fs')).
  { unfold app.register_device. fold device_id api_key.
    rewrite Hmeta. cbn [Py.setitem]. store_simpl. cbn [app.with_name].
    rewrite register_device_stored, Hfresh. cbn [fst snd].
    unfold fs', record, meta, storage.device_record.
    by rewrite with_bucket_fresh. }
  split; [|split; [|split; [|split; [|split]]]].
  - destruct Hfs as [-> | (-> & -> & ->)]; [done|].
    by rewrite (app_register_device_missing _ _ _ _ m0).
  - apply hex_nonempty.
  - unfold meta. cbn [Py.getitem].
    erewrite lookup_union_Some_l; [done|]. by rewrite lookup_insert_eq.
  - unfold app.list_devices, fs'. unfold bind. by rewrite list_devices_stored.
  - by rewrite lookup_insert_eq.
  - by apply map_size_insert_None.
Qed.

Lemma register_device_success_witness :
  app.register_device
    {| app.reg_device_id := Some "d1"; app.reg_name := Some (JStr "probe");
       app.reg_meta := None |}
    7%N 255%N sample.now NoFile
  = (Ok (JObj (<["device_id" := JStr "d1"]>
               (<["api_key" := JStr "000000000000000000000000000000ff"]> ∅)), 201),
     Stored (document
               {[ "d1" := JObj (<["meta" := JObj (<["api_key" :=
                                                      JStr "000000000000000000000000000000ff"]>
                                                    {[ "name" := JStr "probe" ]})]>
                                {[ "registered_at" := JStr "2024-05-17T09:30:00Z" ]}) ]}
               {[ "d1" := JArr [] ]})).
Proof.
  pose proof (register_device_success
                {| app.reg_device_id := Some "d1"; app.reg_name := Some (JStr "probe");
                   app.reg_meta := None |}
                7%N 255%N sample.now NoFile ∅ ∅ ∅) as H.
  destruct H as (H & _).
  - right. done.
  - reflexivity.
  - reflexivity.
  - left. reflexivity.
  - rewrite H. vm_compute. reflexivity.
Defined.

(** ** Ingestion followed by a query *)

Lemma key_accepted_passes stored api_key :
  key_accepted stored api_key ->
  Py.truthy (default JNull stored) && app.key_differs api_key (default JNull stored) = false.
Proof.
  intros [-> | (k & -> & ->)]; [done|].
  cbn [from_option id app.key_differs]. rewrite String.eqb_refl.
  apply andb_false_r.
Qed.

Lemma telemetry_query_default isoparse int device_id devs tel items :
  int "100" = Ok 100 ->
  tel !! device_id = Some (JArr items) ->
  app.telemetry_query isoparse int device_id None None None (Stored (document devs tel))
  = (Ok (JArr (drop (length items - 100) items), 200), Stored (document devs tel)).
Proof.
  intros Hint Hitems. unfold app.telemetry_query. cbn [from_option id].
  unfold bind at 1. unfold lift at 1. rewrite Hint.
  unfold bind. by rewrite (get_telemetry_positive_limit _ _ _ _ _ items).
Qed.

(** C6. An ingestion that passes the checks answers 201 and appends one
    record to the list of the device, after the records already there.  The
    record has the supplied timestamp, or the clock reading in ISO format
    followed by [Z] when the request has none (or a falsy one), and the
    supplied data, or an empty object when the request has none.  When the
    list was empty, the query that follows, with no bounds and the default
    limit, answers the list of that one record. *)
Theorem telemetry_ingest_appends (isoparse : string -> option datetime)
    (int : string -> result Z) (payload : app.telemetry_payload)
    (api_key : option string) (now : datetime) (fs : file_state)
    (device_id : string) (devs tel record meta : gmap string json) (l : list json) :
  holds fs devs tel ->
  app.tel_device_id payload = Some device_id ->
  device_id <> "" ->
  devs !! device_id = Some (JObj record) ->
  record !! "meta" = Some (JObj meta) ->
  key_accepted (meta !! "api_key") api_key ->
  default (JArr []) (tel !! device_id) = JArr l ->
  let timestamp :=
    match app.tel_timestamp payload with
    | Some t => if Py.truthy t then t else JStr (Datetime.isoformat now +:+ "Z")
    | None => JStr (Datetime.isoformat now +:+ "Z")
    end in
  let data := default (JObj ∅) (app.tel_data payload) in
  let telemetry := JObj (<["timestamp" := timestamp]> (<["data" := data]> ∅)) in
  let fs' := Stored (document devs (<[device_id := JArr (l ++ [telemetry])]> tel)) in
  app.telemetry_ingest payload api_key now fs
  = (Ok (JObj {[ "status" := JStr "ok" ]}, 201), fs')
  /\ (l = [] ->
      int "100" = Ok 100 ->
      app.telemetry_query isoparse int device_id None None None fs'
      = (Ok (JArr [telemetry], 200), fs')).
Proof.
  intros Hfs Hid Hne Hdev Hmeta Hkey Hbucket timestamp data telemetry fs'.
  split.
  - destruct Hfs as [-> | (-> & -> & ->)].
    + rewrite (telemetry_ingest_accepted payload api_key now device_id devs tel
                 record meta) by (try done; by apply key_accepted_passes).
      by rewrite Hbucket.
    + by rewrite lookup_empty in Hdev.
  - intros -> Hint. unfold fs'.
    rewrite (telemetry_query_default _ _ _ _ _ [telemetry]); [done | done |].
    by rewrite lookup_insert_eq.
Qed.

Lemma telemetry_ingest_appends_witness :
  app.telemetry_ingest (sample.post (Some "d1")) (Some "k1") sample.later
    (Stored (document {[ "d1" := sample.device (Some "k1") ]} {[ "d1" := JArr [] ]}))
  = (Ok (JObj {[ "status" := JStr "ok" ]}, 201),
     Stored (document {[ "d1" := sample.device (Some "k1") ]}
               {[ "d1" := JArr [JObj (<["timestamp" := JStr "2024-05-17T09:31:12.250000Z"]>
                                      {[ "data" := JObj {[ "t" := JInt 1 ]} ]})] ]}))
  /\ app.telemetry_query (fun _ => None) (fun _ => Ok 100) "d1" None None None
       (Stored (document {[ "d1" := sample.device (Some "k1") ]}
                  {[ "d1" := JArr [JObj (<["timestamp" := JStr "2024-05-17T09:31:12.250000Z"]>
                                         {[ "data" := JObj {[ "t" := JInt 1 ]} ]})] ]}))
     = (Ok (JArr [JObj (<["timestamp" := JStr "2024-05-17T09:31:12.250000Z"]>
                        {[ "data" := JObj {[ "t" := JInt 1 ]} ]})], 200),
        Stored (document {[ "d1" := sample.device (Some "k1") ]}
                  {[ "d1" := JArr [JObj (<["timestamp" := JStr "2024-05-17T09:31:12.250000Z"]>
                                         {[ "data" := JObj {[ "t" := JInt 1 ]} ]})] ]})).
Proof.
  pose proof (telemetry_ingest_appends (fun _ => None) (fun _ => Ok 100)
                (sample.post (Some "d1")) (Some "k1") sample.later
                (Stored (document {[ "d1" := sample.device (Some "k1") ]}
                           {[ "d1" := JArr [] ]}))
                "d1" {[ "d1" := sample.device (Some "k1") ]} {[ "d1" := JArr [] ]}
                (<["meta" := JObj (<["api_key" := JStr "k1"]> {[ "name" := JStr "probe" ]})]>
                   {[ "registered_at" := JStr "2024-05-17T09:00:00Z" ]})
                (<["api_key" := JStr "k1"]> {[ "name" := JStr "probe" ]})
                []) as H.
  destruct H as (H1 & H2).
  - by left.
  - reflexivity.
  - discriminate.
  - reflexivity.
  - reflexivity.
  - right. exists "k1". split; reflexivity.
  - reflexivity.
  - split.
    + rewrite H1. vm_compute. reflexivity.
    + specialize (H2 eq_refl eq_refl). etransitivity; [|etransitivity; [exact H2|]].
      * vm_compute. reflexivity.
      * vm_compute. reflexivity.
Defined.

(** ** The time filter *)

Lemma keeps_in_range isoparse start_iso end_iso items it :
  In it items ->
  is_object it ->
  same_kind isoparse start_iso end_iso items ->
  storage.keeps isoparse (storage.bound isoparse start_iso)
    (storage.bound isoparse end_iso) it
  = Ok (in_range isoparse start_iso end_iso it).
Proof.
  intros Hin [r ->] Hkind.
  unfold storage.keeps, in_range. cbn [Py.get rbind].
  assert (Htime : (if Py.truthy (default JNull (r !! "timestamp"))
                   then storage.to_dt isoparse (default JNull (r !! "timestamp"))
                   else None) = record_time isoparse (JObj r)).
  { unfold record_time. destruct (r !! "timestamp") as [ts|]; [|done].
    cbn [from_option id]. destruct ts; cbn [Py.truthy storage.to_dt]; try done.
    - by destruct b.
    - by destruct (negb (z =? 0)).
    - by destruct f.
    - by destruct (String.eqb s "").
    - by destruct l.
    - by destruct (negb _). }
  rewrite Htime. destruct (record_time isoparse (JObj r)) as [t|] eqn:Ht; [|done].
  destruct (storage.bound isoparse start_iso) as [s|] eqn:Hs.
  - unfold Datetime.lt at 1.
    rewrite (Hkind (JObj r) t s Hin Ht (or_introl Hs)).
    rewrite Bool.eqb_reflx. cbn [rbind].
    rewrite (Z.leb_antisym (Datetime.instant t) (Datetime.instant s)).
    destruct (Datetime.instant t <? Datetime.instant s); cbn [negb andb]; [done|].
    destruct (storage.bound isoparse end_iso) as [e|] eqn:He; [|done].
    unfold Datetime.gt, Datetime.lt.
    rewrite (Hkind (JObj r) t e Hin Ht (or_intror He)).
    rewrite Bool.eqb_reflx. cbn [rbind].
    by rewrite (Z.leb_antisym (Datetime.instant e) (Datetime.instant t)).
  - cbn [rbind andb].
    destruct (storage.bound isoparse end_iso) as [e|] eqn:He; [|done].
    unfold Datetime.gt, Datetime.lt.
    rewrite (Hkind (JObj r) t e Hin Ht (or_intror He)).
    rewrite Bool.eqb_reflx. cbn [rbind].
    by rewrite (Z.leb_antisym (Datetime.instant e) (Datetime.instant t)).
Qed.

Lemma time_filter_in_range isoparse start_iso end_iso items :
  Forall is_object items ->
  same_kind isoparse start_iso end_iso items ->
  storage.time_filter isoparse (storage.bound isoparse start_iso)
    (storage.bound isoparse end_iso) items
  = Ok (List.filter (in_range isoparse start_iso end_iso) items).
Proof.
  induction items as [|it rest IH]; intros Hobj Hkind; [done|].
  apply Forall_cons in Hobj as [Hit Hrest].
  cbn [storage.time_filter List.filter].
  rewrite (keeps_in_range isoparse start_iso end_iso (it :: rest)); [|by left|done|done].
  cbn [rbind]. rewrite IH; [done | done |].
  intros it' t b Hin. apply Hkind. by right.
Qed.

(** C3, as the code has it. On a bucket whose records are JSON objects, a
    query with a non-empty start or end in which the times of the records
    and the parsed bounds are of one kind returns the records that have a
    time within the bounds, both inclusive, in their order in the bucket,
    sliced by the limit; a bound that is absent, empty or not parsable does
    not constrain, and a record without a parsable timestamp is left out.
    A query with neither start nor end leaves no record out before the
    slice. *)
Theorem get_telemetry_time_filter (isoparse : string -> option datetime)
    (device_id : string) (start_iso end_iso : option string) (limit : Z)
    (devs tel : gmap string json) (items : list json) :
  tel !! device_id = Some (JArr items) ->
  (Py.str_truthy start_iso || Py.str_truthy end_iso = true ->
   Forall is_object items ->
   same_kind isoparse start_iso end_iso items ->
   storage.get_telemetry isoparse device_id start_iso end_iso limit
     (Stored (document devs tel))
   = (Ok (JArr (Py.slice_from (- limit)
                  (List.filter (in_range isoparse start_iso end_iso) items))),
      Stored (document devs tel)))
  /\ (Py.str_truthy start_iso || Py.str_truthy end_iso = false ->
      storage.get_telemetry isoparse device_id start_iso end_iso limit
        (Stored (document devs tel))
      = (Ok (JArr (Py.slice_from (- limit) items)), Stored (document devs tel))).
Proof.
  intros Hitems. split.
  - intros Hgiven Hobj Hkind.
    rewrite get_telemetry_stored, Hitems, Hgiven. cbn [Py.iter rbind].
    by rewrite time_filter_in_range.
  - intros Hnone. by rewrite get_telemetry_stored, Hitems, Hnone.
Qed.

Lemma get_telemetry_time_filter_witness :
  storage.get_telemetry sample.isoparse "d1" (Some "2024-05-17T09:30:00Z") None 100
    (Stored (document {[ "d1" := sample.device None ]}
               {[ "d1" := JArr [sample.reading "2024-05-17T09:00:00Z" 20;
                                sample.reading "2024-05-17T09:30:00Z" 21;
                                sample.reading "not a time" 0;
                                sample.reading "2024-05-17T10:00:00Z" 22] ]}))
  = (Ok (JArr [sample.reading "2024-05-17T09:30:00Z" 21;
               sample.reading "2024-05-17T10:00:00Z" 22]),
     Stored (document {[ "d1" := sample.device None ]}
               {[ "d1" := JArr [sample.reading "2024-05-17T09:00:00Z" 20;
                                sample.reading "2024-05-17T09:30:00Z" 21;
                                sample.reading "not a time" 0;
                                sample.reading "2024-05-17T10:00:00Z" 22] ]}))
  /\ storage.get_telemetry sample.isoparse "d1" None (Some "") 100
       (Stored (document {[ "d1" := sample.device None ]}
                  {[ "d1" := JArr [sample.reading "not a time" 0] ]}))
     = (Ok (JArr [sample.reading "not a time" 0]),
        Stored (document {[ "d1" := sample.device None ]}
                  {[ "d1" := JArr [sample.reading "not a time" 0] ]})).
Proof.
  split.
  - destruct (get_telemetry_time_filter sample.isoparse "d1"
                (Some "2024-05-17T09:30:00Z") None 100
                {[ "d1" := sample.device None ]}
                {[ "d1" := JArr [sample.reading "2024-05-17T09:00:00Z" 20;
                                 sample.reading "2024-05-17T09:30:00Z" 21;
                                 sample.reading "not a time" 0;
                                 sample.reading "2024-05-17T10:00:00Z" 22] ]}
                [sample.reading "2024-05-17T09:00:00Z" 20;
                 sample.reading "2024-05-17T09:30:00Z" 21;
                 sample.reading "not a time" 0;
                 sample.reading "2024-05-17T10:00:00Z" 22]) as (H & _).
    + reflexivity.
    + rewrite H.
      * vm_compute. reflexivity.
      * reflexivity.
      * repeat constructor; eexists; reflexivity.
      * intros it t b Hin Ht Hb.
        destruct Hb as [Hb | Hb]; vm_compute in Hb; [|discriminate].
        injection Hb as <-.
        destruct Hin as [<- | [<- | [<- | [<- | []]]]];
          vm_compute in Ht; try discriminate; injection Ht as <-; reflexivity.
  - destruct (get_telemetry_time_filter sample.isoparse "d1" None (Some "") 100
                {[ "d1" := sample.device None ]}
                {[ "d1" := JArr [sample.reading "not a time" 0] ]}
                [sample.reading "not a time" 0]) as (_ & H).
    + reflexivity.
    + rewrite H; [|reflexivity]. vm_compute. reflexivity.
Defined.

(** C3 fails as stated, twice, on the bucket of one record stamped
    [2024-05-17T09:30:00Z].  With the start bound [2024-05-17T09:00:00],
    which has no zone, the comparison of the two datetimes raises
    [TypeError] and no list comes back, while the record lies after the
    bound.  With the start bound [yesterday], which is no datetime, the
    record is returned, while it meets no such bound. *)
Lemma get_telemetry_time_filter_counterexample :
  let items := [sample.reading "2024-05-17T09:30:00Z" 21] in
  let fs := Stored (document {[ "d1" := sample.device None ]} {[ "d1" := JArr items ]}) in
  storage.get_telemetry sample.isoparse "d1" (Some "2024-05-17T09:00:00") None 100 fs
  = (Raise TypeError, fs)
  /\ List.filter (in_range_as_specified sample.isoparse (Some "2024-05-17T09:00:00") None)
       items = items
  /\ storage.get_telemetry sample.isoparse "d1" (Some "yesterday") None 100 fs
     = (Ok (JArr items), fs)
  /\ List.filter (in_range_as_specified sample.isoparse (Some "yesterday") None) items = [].
Proof. vm_compute. repeat split. Qed.

(** ** The limit of a query, after the filter *)

Lemma length_drop_last {A} (l : list A) (n : nat) :
  length (drop (length l - n) l) = Nat.min n (length l).
Proof. rewrite length_drop. lia. Qed.

(** C4, as the code has it.  The records that match are those the time
    filter keeps, or all records when the query has no bounds.  With a
    positive limit [get_telemetry] returns the last [limit] of them, all of
    them when there are fewer, in their order in the bucket.
    [telemetry_query] takes the limit from the text of the [limit] argument,
    or of ["100"] when the argument is absent, by [int]: when [int] raises,
    the handler raises before it reads the store; the number is not compared
    with zero and never replaced. *)
Theorem get_telemetry_limit (isoparse : string -> option datetime)
    (int : string -> result Z) (device_id : string) (start_iso end_iso : option string)
    (devs tel : gmap string json) (items : list json) :
  tel !! device_id = Some (JArr items) ->
  (Py.str_truthy start_iso || Py.str_truthy end_iso = true ->
   Forall is_object items /\ same_kind isoparse start_iso end_iso items) ->
  let matching :=
    if Py.str_truthy start_iso || Py.str_truthy end_iso
    then List.filter (in_range isoparse start_iso end_iso) items
    else items in
  (forall limit,
     0 < limit ->
     storage.get_telemetry isoparse device_id start_iso end_iso limit
       (Stored (document devs tel))
     = (Ok (JArr (drop (length matching - Z.to_nat limit) matching)),
        Stored (document devs tel))
     /\ length (drop (length matching - Z.to_nat limit) matching)
        = Nat.min (Z.to_nat limit) (length matching))
  /\ (forall limit n,
        int (default "100" limit) = Ok n ->
        0 < n ->
        app.telemetry_query isoparse int device_id start_iso end_iso limit
          (Stored (document devs tel))
        = (Ok (JArr (drop (length matching - Z.to_nat n) matching), 200),
           Stored (document devs tel)))
  /\ (forall limit e fs,
        int (default "100" limit) = Raise e ->
        app.telemetry_query isoparse int device_id start_iso end_iso limit fs
        = (Raise e, fs)).
Proof.
  intros Hitems Hfilter matching.
  assert (Hget : forall limit, 0 < limit ->
    storage.get_telemetry isoparse device_id start_iso end_iso limit
      (Stored (document devs tel))
    = (Ok (JArr (drop (length matching - Z.to_nat limit) matching)),
       Stored (document devs tel))).
  { intros limit Hpos. unfold matching.
    rewrite get_telemetry_stored, Hitems.
    destruct (Py.str_truthy start_iso || Py.str_truthy end_iso) eqn:Hgiven.
    - destruct (Hfilter eq_refl) as (Hobj & Hkind). cbn [Py.iter rbind].
      rewrite time_filter_in_range by done. cbn [rbind Py.getslice_from].
      by rewrite slice_from_last.
    - cbn [rbind Py.getslice_from]. by rewrite slice_from_last. }
  split; [|split].
  - intros limit Hpos. split; [by apply Hget|]. apply length_drop_last.
  - intros limit n Hint Hpos. unfold app.telemetry_query.
    unfold bind at 1. unfold lift at 1. rewrite Hint.
    unfold bind. by rewrite Hget.
  - intros limit e fs Hint. unfold app.telemetry_query.
    unfold bind at 1. unfold lift at 1. by rewrite Hint.
Qed.

Lemma get_telemetry_limit_witness :
  app.telemetry_query sample.isoparse sample.int "d1" None None (Some "2")
    (Stored (document {[ "d1" := sample.device None ]}
               {[ "d1" := JArr [sample.reading "2024-05-17T09:00:00Z" 20;
                                sample.reading "2024-05-17T09:10:00Z" 21;
                                sample.reading "2024-05-17T09:20:00Z" 22;
                                sample.reading "2024-05-17T09:30:00Z" 23;
                                sample.reading "2024-05-17T10:00:00Z" 24] ]}))
  = (Ok (JArr [sample.reading "2024-05-17T09:30:00Z" 23;
               sample.reading "2024-05-17T10:00:00Z" 24], 200),
     Stored (document {[ "d1" := sample.device None ]}
               {[ "d1" := JArr [sample.reading "2024-05-17T09:00:00Z" 20;
                                sample.reading "2024-05-17T09:10:00Z" 21;
                                sample.reading "2024-05-17T09:20:00Z" 22;
                                sample.reading "2024-05-17T09:30:00Z" 23;
                                sample.reading "2024-05-17T10:00:00Z" 24] ]}))
  /\ app.telemetry_query sample.isoparse sample.int "d1" None None (Some "two") Garbage
     = (Raise ValueError, Garbage).
Proof.
  destruct (get_telemetry_limit sample.isoparse sample.int "d1" None None
              {[ "d1" := sample.device None ]}
              {[ "d1" := JArr [sample.reading "2024-05-17T09:00:00Z" 20;
                               sample.reading "2024-05-17T09:10:00Z" 21;
                               sample.reading "2024-05-17T09:20:00Z" 22;
                               sample.reading "2024-05-17T09:30:00Z" 23;
                               sample.reading "2024-05-17T10:00:00Z" 24] ]}
              [sample.reading "2024-05-17T09:00:00Z" 20;
               sample.reading "2024-05-17T09:10:00Z" 21;
               sample.reading "2024-05-17T09:20:00Z" 22;
               sample.reading "2024-05-17T09:30:00Z" 23;
               sample.reading "2024-05-17T10:00:00Z" 24])
    as (_ & Hquery & Hraise).
  - reflexivity.
  - discriminate.
  - split.
    + rewrite (Hquery (Some "2") 2); [reflexivity | reflexivity | lia].
    + apply Hraise. reflexivity.
Defined.

(** C4 fails as stated on a limit that is not positive.  On a bucket of
    three records, [limit=0] answers all three and raises nothing, and
    [limit=-1] answers the last two, which is neither an error nor the answer
    under the default limit. *)
Lemma get_telemetry_limit_counterexample :
  let a := sample.reading "2024-05-17T09:00:00Z" 20 in
  let b := sample.reading "2024-05-17T09:30:00Z" 21 in
  let c := sample.reading "2024-05-17T10:00:00Z" 22 in
  let fs := Stored (document {[ "d1" := sample.device None ]}
                      {[ "d1" := JArr [a; b; c] ]}) in
  app.telemetry_query sample.isoparse sample.int "d1" None None (Some "0") fs
  = (Ok (JArr [a; b; c], 200), fs)
  /\ app.telemetry_query sample.isoparse sample.int "d1" None None (Some "-1") fs
     = (Ok (JArr [b; c], 200), fs)
  /\ app.telemetry_query sample.isoparse sample.int "d1" None None None fs
     = (Ok (JArr [a; b; c], 200), fs).
Proof. vm_compute. repeat split. Qed.

(** ** The telemetry keys stay within the device keys *)

Lemma initial_within_devices : telemetry_within_devices (Stored storage.initial).
Proof. right. exists ∅, ∅. split; [done|]. set_solver. Qed.

Lemma storage_register_within device_id meta now fs :
  telemetry_within_devices fs ->
  telemetry_within_devices (snd (storage.register_device device_id meta now fs)).
Proof.
  assert (Hstored : forall devs tel, dom tel ⊆ dom devs ->
    telemetry_within_devices
      (snd (storage.register_device device_id meta now (Stored (document devs tel))))).
  { intros devs tel Hsub. rewrite register_device_stored.
    destruct (devs !! device_id) eqn:E; cbn [snd].
    - right. by exists devs, tel.
    - right. eexists _, _. split; [done|].
      rewrite dom_insert_L. unfold with_bucket.
      destruct (tel !! device_id); [|rewrite dom_insert_L].
      + by apply union_subseteq_r'.
      + by apply union_mono_l. }
  intros [-> | (devs & tel & -> & Hsub)].
  - unfold storage.register_device. rewrite with_lock_write_missing.
    apply (Hstored ∅ ∅). set_solver.
  - by apply Hstored.
Qed.

Lemma storage_store_within device_id payload fs :
  telemetry_within_devices fs ->
  telemetry_within_devices (snd (storage.store_telemetry device_id payload fs)).
Proof.
  assert (Hstored : forall devs tel, dom tel ⊆ dom devs ->
    telemetry_within_devices
      (snd (storage.store_telemetry device_id payload (Stored (document devs tel))))).
  { intros devs tel Hsub. rewrite store_telemetry_stored.
    destruct (devs !! device_id) eqn:E; cbn [snd].
    - destruct (default (JArr []) (tel !! device_id)); cbn [snd];
        try (right; by exists devs, tel).
      right. eexists _, _. split; [done|].
      rewrite dom_insert_L. apply elem_of_dom_2 in E.
      apply union_subseteq. split; [by apply singleton_subseteq_l | done].
    - right. by exists devs, tel. }
  intros [-> | (devs & tel & -> & Hsub)].
  - unfold storage.store_telemetry. rewrite with_lock_write_missing.
    apply (Hstored ∅ ∅). set_solver.
  - by apply Hstored.
Qed.

Lemma read_all_within fs :
  telemetry_within_devices fs -> telemetry_within_devices (snd (storage.read_all fs)).
Proof.
  intros [-> | (devs & tel & -> & Hsub)].
  - apply initial_within_devices.
  - right. by exists devs, tel.
Qed.

Lemma list_devices_state fs :
  snd (storage.list_devices fs) = snd (storage.read_all fs).
Proof.
  unfold storage.list_devices, storage.with_lock_read, bind, lift.
  destruct (storage.read_all fs) as [[d|e] fs']; [|done].
  by destruct (Py.getitem d "devices").
Qed.

Lemma get_telemetry_state isoparse device_id start_iso end_iso limit fs :
  snd (storage.get_telemetry isoparse device_id start_iso end_iso limit fs)
  = snd (storage.read_all fs).
Proof.
  unfold storage.get_telemetry, storage.with_lock_read. unfold bind at 1.
  destruct (storage.read_all fs) as [[d|e] fs']; [|done]. store_simpl.
  destruct (Py.getitem d "telemetry") as [telemetry|]; [|done].
  destruct (Py.contains device_id telemetry) as [present|]; [|done].
  destruct present; cbn [negb]; [|done].
  destruct (Py.getitem telemetry device_id) as [items|]; [|done].
  destruct (Py.str_truthy start_iso || Py.str_truthy end_iso).
  - destruct (Py.iter items) as [its|]; [|done].
    destruct (storage.time_filter _ _ _ its); [|done].
    by destruct (Py.getslice_from _ _).
  - by destruct (Py.getslice_from _ _).
Qed.

Lemma app_register_device_state payload u1 u2 now fs :
  snd (app.register_device payload u1 u2 now fs) = fs
  \/ exists device_id meta,
       snd (app.register_device payload u1 u2 now fs)
       = snd (storage.register_device device_id meta now fs).
Proof.
  unfold app.register_device. store_simpl.
  destruct (Py.setitem _ _ _) as [meta|]; [|by left].
  destruct (app.with_name _ meta) as [named|]; [|by left].
  right.
  exists (if Py.str_truthy (app.reg_device_id payload)
          then default "" (app.reg_device_id payload)
          else Uuid.str u1), named.
  destruct (storage.register_device _ named now fs) as [[d|e] fs']; [done|].
  by destruct (is_ValueError e).
Qed.

Lemma app_telemetry_ingest_state payload api_key now fs :
  snd (app.telemetry_ingest payload api_key now fs) = fs
  \/ snd (app.telemetry_ingest payload api_key now fs) = snd (storage.read_all fs)
  \/ exists device_id record,
       snd (app.telemetry_ingest payload api_key now fs)
       = snd (storage.store_telemetry device_id record (snd (storage.read_all fs))).
Proof.
  unfold app.telemetry_ingest.
  destruct (negb (Py.str_truthy (app.tel_device_id payload))); [by left|].
  right. rewrite <- list_devices_state. store_simpl.
  destruct (storage.list_devices fs) as [[devices|e] fs1]; [|by left].
  cbn [snd].
  destruct (Py.get devices _) as [dev|]; [|by left].
  destruct (negb (Py.truthy dev)); [by left|].
  destruct (Py.getitem dev "meta") as [meta|]; [|by left].
  destruct (Py.get meta "api_key") as [expected_key|]; [|by left].
  destruct (Py.truthy expected_key && app.key_differs api_key expected_key); [by left|].
  right. exists (default "" (app.tel_device_id payload)), (app.telemetry_record payload now).
  destruct (storage.store_telemetry _ _ fs1) as [[d|e] fs2]; [done|].
  by destruct (is_KeyError e).
Qed.

Lemma app_telemetry_query_state isoparse int device_id start end_ limit fs :
  snd (app.telemetry_query isoparse int device_id start end_ limit fs) = fs
  \/ snd (app.telemetry_query isoparse int device_id start end_ limit fs)
     = snd (storage.read_all fs).
Proof.
  unfold app.telemetry_query. store_simpl.
  destruct (int _) as [n|]; [|by left].
  right. rewrite <- (get_telemetry_state isoparse device_id start end_ n fs).
  by destruct (storage.get_telemetry isoparse device_id start end_ n fs) as [[items|e] fs'].
Qed.

Lemma after_within isoparse int c fs :
  telemetry_within_devices fs -> telemetry_within_devices (after isoparse int c fs).
Proof.
  intros Hfs. destruct c; cbn [after].
  - destruct (app_register_device_state payload u1 u2 now fs)
      as [-> | (device_id & meta & ->)]; [done|].
    by apply storage_register_within.
  - unfold app.list_devices, bind, ret.
    pose proof (list_devices_state fs) as Hst.
    destruct (storage.list_devices fs) as [[devices|e] fs']; cbn [snd] in *;
      rewrite Hst; by apply read_all_within.
  - destruct (app_telemetry_ingest_state payload api_key now fs)
      as [-> | [-> | (device_id & record & ->)]]; [done | by apply read_all_within |].
    by apply storage_store_within, read_all_within.
  - destruct (app_telemetry_query_state isoparse int device_id start end_ limit fs)
      as [-> | ->]; [done | by apply read_all_within].
  - by apply storage_register_within.
  - by apply storage_store_within.
Qed.

(** C9. Every file that the calls lead to, starting without a file, is
    either still missing or holds a document in which every key of
    [telemetry], with an empty list or not, is a key of [devices]. *)
Theorem reachable_telemetry_within_devices (isoparse : string -> option datetime)
    (int : string -> result Z) (fs : file_state) :
  reachable isoparse int fs -> telemetry_within_devices fs.
Proof.
  induction 1 as [|fs c Hreach IH].
  - by left.
  - by apply after_within.
Qed.

Lemma reachable_telemetry_within_devices_witness :
  telemetry_within_devices
    (after sample.isoparse (fun _ => Ok 100)
       (IngestTelemetry (sample.post (Some "d1")) None sample.later)
       (after sample.isoparse (fun _ => Ok 100)
          (StorageRegister "d1" (JObj ∅) sample.now) NoFile)).
Proof.
  apply (reachable_telemetry_within_devices sample.isoparse (fun _ => Ok 100)).
  apply reachable_call, reachable_call, reachable_start.
Defined.

(** ** Threads: the lock serialises the sections *)

Ltac pool_simpl :=
  cbn [threaded.locked threaded.threads threaded.file] in *.

Section serialisation.

Context {A : Type}.

Implicit Types (p k : threaded.prog A) (ts : list (threaded.prog A)).
Implicit Types (st : threaded.pool A) (fs : file_state).

Lemma steps_trans st1 st2 st3 :
  threaded.steps st1 st2 -> threaded.steps st2 st3 -> threaded.steps st1 st3.
Proof.
  induction 1 as [|st1 st2 st2' Hstep Hsteps IH]; [done|].
  intros H. eapply threaded.steps_step; [done|]. by apply IH.
Qed.

Lemma steps_one st1 st2 : threaded.step st1 st2 -> threaded.steps st1 st2.
Proof. intros H. eapply threaded.steps_step; [done|]. apply threaded.steps_refl. Qed.

Lemma serial_steps_trans (c1 c2 c3 : file_state * list (threaded.prog A)) :
  threaded.serial_steps c1 c2 -> threaded.serial_steps c2 c3 ->
  threaded.serial_steps c1 c3.
Proof.
  intros H12 H23. induction H23 as [|c2 c3 c4 H23 IH Hstep]; [done|].
  eapply threaded.serial_more; [|done]. by apply IH.
Qed.

Lemma outside_not_inside p : threaded.outside p -> threaded.inside p -> False.
Proof. by destruct p. Qed.

Lemma inside_not_returned p : threaded.inside p -> ~ threaded.returned p.
Proof. intros Hin [a ->]. done. Qed.

Lemma Forall_outside_insert ts i p :
  Forall threaded.outside ts -> threaded.outside p ->
  Forall threaded.outside (<[i := p]> ts).
Proof. intros. by apply Forall_insert. Qed.

Lemma others_outside_insert ts i (p q : threaded.prog A) j :
  (forall j q, i <> j -> ts !! j = Some q -> threaded.outside q) ->
  threaded.outside p ->
  <[i := p]> ts !! j = Some q -> threaded.outside q.
Proof.
  intros Hothers Hp Hq. destruct (decide (i = j)) as [<- | Hne].
  - apply list_lookup_insert_Some in Hq as [(_ & <- & _) | (? & _)]; done.
  - rewrite list_lookup_insert_ne in Hq by done. by eapply Hothers.
Qed.

(** While the lock is free only a waiting thread can move, and it takes the
    lock; while the lock is held only its holder can move. *)
Lemma step_lock_free st st' :
  lock_free st -> threaded.step st st' ->
  exists i k,
    threaded.threads st !! i = Some (threaded.Acquire k)
    /\ st' = threaded.Pool (threaded.file st) true (<[i := k]> (threaded.threads st))
    /\ lock_held st' i k.
Proof.
  intros [Hlock Hout] Hstep. destruct Hstep as [fs ts i k Hi | fs b ts i k Hi | fs b ts i X op k Hi];
    pool_simpl.
  - exists i, k. split; [done|]. split; [done|].
    pose proof (Forall_lookup_1 _ _ _ _ Hout Hi) as Hk. cbn [threaded.outside] in Hk.
    split; [done|]. split; [|split; [done|]].
    + apply list_lookup_insert_eq. by eapply lookup_lt_Some.
    + intros j q Hne Hq. pool_simpl. rewrite list_lookup_insert_ne in Hq by done.
      by eapply (Forall_lookup_1 _ _ _ _ Hout).
  - by pose proof (Forall_lookup_1 _ _ _ _ Hout Hi).
  - by pose proof (Forall_lookup_1 _ _ _ _ Hout Hi).
Qed.

Lemma step_lock_held st st' i p :
  lock_held st i p -> threaded.step st st' ->
  (exists k, p = threaded.Release k
     /\ st' = threaded.Pool (threaded.file st) false (<[i := k]> (threaded.threads st))
     /\ lock_free st')
  \/ (exists X op kf, p = threaded.Do X op kf
        /\ st' = threaded.Pool (snd (op (threaded.file st))) true
                   (<[i := kf (fst (op (threaded.file st)))]> (threaded.threads st))
        /\ lock_held st' i (kf (fst (op (threaded.file st))))).
Proof.
  intros (Hlock & Hi & Hin & Hothers) Hstep.
  destruct Hstep as [fs ts j k Hj | fs b ts j k Hj | fs b ts j X op k Hj]; pool_simpl.
  - done.
  - destruct (decide (i = j)) as [<- | Hne].
    + rewrite Hi in Hj. injection Hj as ->. left. exists k.
      split; [done|]. split; [done|]. split; [done|]. cbn [threaded.locked threaded.threads threaded.file].
      apply Forall_lookup_2. intros j q Hq.
      by eapply (others_outside_insert ts i k).
    + by pose proof (Hothers j _ Hne Hj).
  - destruct (decide (i = j)) as [<- | Hne].
    + rewrite Hi in Hj. injection Hj as ->. right. exists X, op, k.
      split; [done|]. subst b. split; [done|]. split; [done|]. cbn [threaded.locked threaded.threads threaded.file].
      split; [|split].
      * apply list_lookup_insert_eq. by eapply lookup_lt_Some.
      * apply Hin.
      * intros j q Hne Hq. pool_simpl. rewrite list_lookup_insert_ne in Hq by done.
        by eapply Hothers.
    + by pose proof (Hothers j _ Hne Hj).
Qed.

Lemma step_well_locked st st' :
  well_locked st -> threaded.step st st' -> well_locked st'.
Proof.
  intros [Hfree | (i & p & Hheld)] Hstep.
  - destruct (step_lock_free st st' Hfree Hstep) as (i & k & _ & _ & Hheld).
    right. by exists i, k.
  - destruct (step_lock_held st st' i p Hheld Hstep)
      as [(k & _ & _ & Hfree) | (X & op & k & _ & _ & Hheld')].
    + by left.
    + right. by eexists i, _.
Qed.

Lemma steps_well_locked st st' :
  well_locked st -> threaded.steps st st' -> well_locked st'.
Proof.
  intros Hwl Hsteps. induction Hsteps as [|st1 st2 st3 Hstep Hsteps IH]; [done|].
  apply IH. by eapply step_well_locked.
Qed.

(** A step of a thread keeps the run serial up to the section in
    progress. *)
Lemma step_serial c0 st st' :
  serial_so_far c0 st -> threaded.step st st' -> serial_so_far c0 st'.
Proof.
  intros Hinv Hstep.
  destruct Hinv as [(Hfree & Hserial)
                   | (i & k & p & fsA & tsA & Hserial & Hout & Hi & Hlock & Hts & Hin & Hrun)].
  - destruct (step_lock_free st st' Hfree Hstep) as (i & k & Hi & -> & Hheld).
    right. exists i, k, k, (threaded.file st), (threaded.threads st).
    destruct Hfree as (_ & Hout). destruct Hheld as (_ & _ & Hin & _).
    by pool_simpl.
  - assert (Hheld : lock_held st i p).
    { split; [done|]. rewrite Hts. split; [|split; [done|]].
      - apply list_lookup_insert_eq. by eapply lookup_lt_Some.
      - intros j q Hne Hq. rewrite list_lookup_insert_ne in Hq by done.
        by eapply (Forall_lookup_1 _ _ _ _ Hout). }
    destruct (step_lock_held st st' i p Hheld Hstep)
      as [(k' & -> & -> & Hfree) | (X & op & kf & -> & -> & Hheld')].
    + left. split; [done|]. pool_simpl.
      eapply threaded.serial_more; [exact Hserial|].
      rewrite Hts, list_insert_insert_eq.
      pose proof (threaded.serial_section fsA tsA i k Hi) as Hsec.
      rewrite <- Hrun in Hsec. exact Hsec.
    + right. exists i, k, (kf (fst (op (threaded.file st)))), fsA, tsA.
      pool_simpl. split; [done|]. split; [done|]. split; [done|]. split; [done|].
      split; [|split].
      * by rewrite Hts, list_insert_insert_eq.
      * apply Hin.
      * exact Hrun.
Qed.

Lemma steps_serial c0 st st' :
  serial_so_far c0 st -> threaded.steps st st' -> serial_so_far c0 st'.
Proof.
  intros Hinv Hsteps. induction Hsteps as [|st1 st2 st3 Hstep Hsteps IH]; [done|].
  apply IH. by eapply step_serial.
Qed.

(** A run that ends with every request returned is a serial run. *)
Lemma finished_serial st0 st :
  lock_free st0 ->
  threaded.steps st0 st ->
  threaded.finished st ->
  threaded.serial_steps (threaded.file st0, threaded.threads st0)
    (threaded.file st, threaded.threads st).
Proof.
  intros Hfree Hsteps Hfin.
  assert (Hstart : serial_so_far (threaded.file st0, threaded.threads st0) st0).
  { left. split; [done|]. apply threaded.serial_refl. }
  destruct (steps_serial _ st0 st Hstart Hsteps)
    as [(_ & Hserial) | (i & k & p & fsA & tsA & _ & _ & Hi & _ & Hts & Hin & _)]; [done|].
  exfalso. apply (inside_not_returned p Hin).
  eapply (Forall_lookup_1 _ _ i _ Hfin).
  rewrite Hts. apply list_lookup_insert_eq. by eapply lookup_lt_Some.
Qed.

(** No run goes on for ever: every step leaves less of one request to
    run, and the requests are finite. *)
Lemma rest_of_inv p p' :
  threaded.rest_of p p' ->
  match p with
  | threaded.Return _ => False
  | threaded.Acquire k => p' = k
  | threaded.Release k => p' = k
  | threaded.Do X op kf => exists x, p' = kf x
  end.
Proof. intros [k | k | X op kf x]; eauto. Qed.

Lemma rest_of_terminates p : Acc (fun p' p => threaded.rest_of p p') p.
Proof.
  induction p as [a | k IH | k IH | X op kf IH]; constructor; intros p' Hrest;
    apply rest_of_inv in Hrest.
  - destruct Hrest.
  - by subst p'.
  - by subst p'.
  - destruct Hrest as [x ->]. apply IH.
Qed.

Lemma advance_cons_terminates p :
  Acc (fun p' p => threaded.rest_of p p') p ->
  forall ts, Acc (fun ts' ts => threaded.advance ts ts') ts ->
  Acc (fun ts' ts => threaded.advance ts ts') (p :: ts).
Proof.
  induction 1 as [p _ IHp]. induction 1 as [ts Hts IHts].
  constructor. intros ts' Hadv. inversion Hadv as [ts0 i q q' Hi Hrest]; subst.
  destruct i as [|i]; cbn in Hi |- *.
  - injection Hi as <-. apply IHp; [done|]. by constructor.
  - apply IHts. by econstructor.
Qed.

Lemma advance_terminates ts : Acc (fun ts' ts => threaded.advance ts ts') ts.
Proof.
  induction ts as [|p ts IH].
  - constructor. intros ts' Hadv. by inversion Hadv.
  - apply advance_cons_terminates; [apply rest_of_terminates | done].
Qed.

Lemma step_advance st st' :
  threaded.step st st' -> threaded.advance (threaded.threads st) (threaded.threads st').
Proof.
  intros [fs ts i k Hi | fs b ts i k Hi | fs b ts i X op kf Hi]; pool_simpl;
    (econstructor; [done|]); constructor.
Qed.

Lemma steps_terminate st : Acc (fun st' st => threaded.step st st') st.
Proof.
  remember (threaded.threads st) as ts eqn:Hts. revert st Hts.
  induction (advance_terminates ts) as [ts _ IH]. intros st ->.
  constructor. intros st' Hstep. eapply IH; [|done]. by apply step_advance.
Qed.

(** A thread can always be run to its return, alone. *)
Lemma finish_thread p :
  (threaded.outside p ->
   forall fs ts i, ts !! i = Some p ->
   exists fs' a,
     threaded.steps (threaded.Pool fs false ts)
       (threaded.Pool fs' false (<[i := threaded.Return a]> ts)))
  /\ (threaded.inside p ->
      forall fs b ts i, ts !! i = Some p ->
      exists fs' a,
        threaded.steps (threaded.Pool fs b ts)
          (threaded.Pool fs' false (<[i := threaded.Return a]> ts))).
Proof.
  induction p as [a | k IH | k IH | X op kf IH]; (split; [intros Hout | intros Hin]);
    try done.
  - intros fs ts i Hi. exists fs, a. rewrite list_insert_id by done.
    apply threaded.steps_refl.
  - intros fs ts i Hi. destruct IH as (_ & IH).
    destruct (IH Hout fs true (<[i := k]> ts) i) as (fs' & a & Hsteps).
    { apply list_lookup_insert_eq. by eapply lookup_lt_Some. }
    exists fs', a. rewrite list_insert_insert_eq in Hsteps.
    eapply threaded.steps_step; [|exact Hsteps]. by apply threaded.step_acquire.
  - intros fs b ts i Hi. destruct IH as (IH & _).
    destruct (IH Hin fs (<[i := k]> ts) i) as (fs' & a & Hsteps).
    { apply list_lookup_insert_eq. by eapply lookup_lt_Some. }
    exists fs', a. rewrite list_insert_insert_eq in Hsteps.
    eapply threaded.steps_step; [|exact Hsteps]. by apply threaded.step_release.
  - intros fs b ts i Hi. destruct (IH (fst (op fs))) as (_ & IH').
    destruct (IH' (Hin _) (snd (op fs)) b (<[i := kf (fst (op fs))]> ts) i)
      as (fs' & a & Hsteps).
    { apply list_lookup_insert_eq. by eapply lookup_lt_Some. }
    exists fs', a. rewrite list_insert_insert_eq in Hsteps.
    eapply threaded.steps_step; [|exact Hsteps]. by apply threaded.step_do.
Qed.

Lemma finish_first n : forall ts fs,
  Forall threaded.outside ts ->
  exists fs' ts',
    threaded.steps (threaded.Pool fs false ts) (threaded.Pool fs' false ts')
    /\ length ts' = length ts
    /\ Forall threaded.outside ts'
    /\ (forall i q, (i < n)%nat -> ts' !! i = Some q -> threaded.returned q).
Proof.
  induction n as [|n IH]; intros ts fs Hout.
  - exists fs, ts. split; [apply threaded.steps_refl|]. repeat split; [done|].
    intros i q Hlt. lia.
  - destruct (IH ts fs Hout) as (fs1 & ts1 & Hsteps1 & Hlen1 & Hout1 & Hret1).
    destruct (ts1 !! n) as [p|] eqn:Hn.
    + destruct (finish_thread p) as (Hfinish & _).
      destruct (Hfinish (Forall_lookup_1 _ _ _ _ Hout1 Hn) fs1 ts1 n Hn)
        as (fs2 & a & Hsteps2).
      exists fs2, (<[n := threaded.Return a]> ts1).
      split; [by eapply steps_trans|]. split; [by rewrite length_insert|].
      split; [by apply Forall_insert|].
      intros i q Hlt Hq. destruct (decide (n = i)) as [<- | Hne].
      * apply list_lookup_insert_Some in Hq as [(_ & <- & _) | (? & _)]; [|done].
        by eexists.
      * rewrite list_lookup_insert_ne in Hq by done. eapply (Hret1 i); [lia | done].
    + exists fs1, ts1. repeat split; try done.
      intros i q Hlt Hq. destruct (decide (n = i)) as [<- | Hne]; [congruence|].
      eapply (Hret1 i); [lia | done].
Qed.

(** From every state that respects the lock discipline the requests can all
    be run to their return: no thread waits for ever. *)
Lemma well_locked_completes st :
  well_locked st -> exists st', threaded.steps st st' /\ threaded.finished st'.
Proof.
  assert (Hfree : forall fs ts, Forall threaded.outside ts ->
    exists st', threaded.steps (threaded.Pool fs false ts) st' /\ threaded.finished st').
  { intros fs ts Hout.
    destruct (finish_first (length ts) ts fs Hout) as (fs' & ts' & Hsteps & Hlen & _ & Hret).
    exists (threaded.Pool fs' false ts'). split; [done|].
    apply Forall_lookup_2. intros i q Hq. eapply (Hret i); [|done].
    rewrite <- Hlen. by eapply lookup_lt_Some. }
  destruct st as [fs b ts].
  intros [(Hlock & Hout) | (i & p & Hlock & Hi & Hin & Hothers)]; pool_simpl.
  - subst b. by apply Hfree.
  - destruct (finish_thread p) as (_ & Hfinish).
    destruct (Hfinish Hin fs b ts i Hi) as (fs' & a & Hsteps).
    destruct (Hfree fs' (<[i := threaded.Return a]> ts)) as (st' & Hsteps' & Hfin).
    { apply Forall_lookup_2. intros j q Hq.
      by eapply (others_outside_insert ts i (threaded.Return a)). }
    exists st'. split; [by eapply steps_trans | done].
Qed.

End serialisation.

(** ** Threads: each function, run alone, is its sequential version *)

Lemma run_with_lock_write mutator_fn fs :
  threaded.run (threaded.with_lock_write mutator_fn) fs
  = storage.with_lock_write mutator_fn fs.
Proof.
  destruct fs as [| |j]; try reflexivity.
  - cbn. unfold storage.with_lock_write, bind, lift. cbn.
    by destruct (mutator_fn storage.initial).
  - cbn. unfold storage.with_lock_write, bind, lift. cbn.
    by destruct (mutator_fn j).
Qed.

Lemma run_with_lock_read fs :
  threaded.run threaded.with_lock_read fs = storage.with_lock_read fs.
Proof. by destruct fs. Qed.

Lemma run_list_devices fs :
  threaded.run threaded.list_devices fs = storage.list_devices fs.
Proof. by destruct fs. Qed.

Lemma run_pbind {A B} (p : threaded.prog A) (f : A -> threaded.prog B) fs :
  threaded.run (threaded.pbind p f) fs
  = threaded.run (f (fst (threaded.run p fs))) (snd (threaded.run p fs)).
Proof.
  revert fs. induction p as [a | k IH | k IH | X op kf IH]; intros fs; cbn; try done.
Qed.

Lemma run_ebind {A B} (p : threaded.prog (result A)) (f : A -> threaded.prog (result B))
    (m : M A) (k : A -> M B) fs :
  (forall fs, threaded.run p fs = m fs) ->
  (forall a fs, threaded.run (f a) fs = k a fs) ->
  threaded.run (threaded.ebind p f) fs = bind m k fs.
Proof.
  intros Hp Hf. unfold threaded.ebind, bind. rewrite run_pbind, Hp.
  destruct (m fs) as [[a|e] fs']; cbn; [apply Hf | done].
Qed.

Lemma run_try_except {A} (p h : threaded.prog (result A)) handles (m mh : M A) fs :
  (forall fs, threaded.run p fs = m fs) ->
  (forall fs, threaded.run h fs = mh fs) ->
  threaded.run (threaded.try_except p handles h) fs = try_except m handles mh fs.
Proof.
  intros Hp Hh. unfold threaded.try_except, try_except. rewrite run_pbind, Hp.
  destruct (m fs) as [[a|e] fs']; cbn; [done|].
  destruct (handles e); [apply Hh | done].
Qed.

Lemma run_app_register_device payload u1 u2 now fs :
  threaded.run (threaded.app_register_device payload u1 u2 now) fs
  = app.register_device payload u1 u2 now fs.
Proof.
  unfold threaded.app_register_device, app.register_device.
  apply run_ebind; [done|]. intros meta fs1.
  apply run_ebind; [done|]. intros named fs2.
  apply run_try_except; [|done]. intros fs3.
  apply run_ebind; [|done]. intros fs4. apply run_with_lock_write.
Qed.

Lemma run_app_telemetry_ingest payload api_key now fs :
  threaded.run (threaded.app_telemetry_ingest payload api_key now) fs
  = app.telemetry_ingest payload api_key now fs.
Proof.
  unfold threaded.app_telemetry_ingest, app.telemetry_ingest.
  destruct (negb (Py.str_truthy (app.tel_device_id payload))); [done|].
  apply run_ebind; [apply run_list_devices|]. intros devices fs1.
  apply run_ebind; [done|]. intros dev fs2.
  destruct (negb (Py.truthy dev)); [done|].
  apply run_ebind; [done|]. intros meta fs3.
  apply run_ebind; [done|]. intros expected_key fs4.
  destruct (Py.truthy expected_key && app.key_differs api_key expected_key); [done|].
  apply run_try_except; [|done]. intros fs5.
  apply run_ebind; [|done]. intros fs6. apply run_with_lock_write.
Qed.

(** The section of [with_lock_write]: it is left with the lock given back
    and the result of the sequential function. *)
Lemma with_lock_write_section mutator_fn :
  exists k,
    threaded.with_lock_write mutator_fn = threaded.Acquire k
    /\ threaded.inside k
    /\ forall fs,
         threaded.run_section k fs
         = (threaded.Return (fst (storage.with_lock_write mutator_fn fs)),
            snd (storage.with_lock_write mutator_fn fs)).
Proof.
  eexists. split; [reflexivity|]. split.
  - cbn. intros [] ?; cbn; intros; repeat case_match; cbn; done.
  - intros fs. rewrite <- run_with_lock_write.
    destruct fs as [| |j]; cbn; try done.
    + by destruct (mutator_fn storage.initial).
    + by destruct (mutator_fn j).
Qed.

(** ** Threads: parallel registrations *)

Lemma app_register_device_fresh r fs devs tel :
  holds fs devs tel ->
  meta_is_object r ->
  devs !! requested_id r = None ->
  app.register_device (rr_payload r) (rr_u1 r) (rr_u2 r) (rr_now r) fs
  = (Ok (register_reply r),
     Stored (document (<[requested_id r := registered_record r]> devs)
               (with_bucket tel (requested_id r)))).
Proof.
  intros Hfs [m0 Hmeta] Hfresh.
  assert (Hstored :
    app.register_device (rr_payload r) (rr_u1 r) (rr_u2 r) (rr_now r)
      (Stored (document devs tel))
    = (Ok (register_reply r),
       Stored (document (<[requested_id r := registered_record r]> devs)
                 (with_bucket tel (requested_id r))))).
  { unfold app.register_device, registered_record, register_reply.
    fold (requested_id r). rewrite Hmeta. cbn [Py.setitem]. store_simpl.
    cbn [app.with_name]. by rewrite register_device_stored, Hfresh. }
  destruct Hfs as [-> | (-> & -> & ->)]; [done|].
  by rewrite (app_register_device_missing _ _ _ _ m0).
Qed.

Lemma pbind_discipline {A B} (p : threaded.prog A) (f : A -> threaded.prog B) :
  (forall a, threaded.outside (f a)) ->
  (threaded.outside p -> threaded.outside (threaded.pbind p f))
  /\ (threaded.inside p -> threaded.inside (threaded.pbind p f)).
Proof.
  intros Hf. induction p as [a | k IH | k IH | X op kf IH]; cbn; split; try done.
  - apply IH.
  - apply IH.
  - intros Hin x. by apply IH.
Qed.

Lemma run_section_pbind {A B} (p : threaded.prog A) (f : A -> threaded.prog B) fs :
  threaded.inside p ->
  threaded.run_section (threaded.pbind p f) fs
  = (threaded.pbind (fst (threaded.run_section p fs)) f,
     snd (threaded.run_section p fs)).
Proof.
  revert fs. induction p as [a | k IH | k IH | X op kf IH]; intros fs Hin; try done.
  cbn. by apply IH.
Qed.

(** A registration is one section: it waits for the lock, and when it
    gives the lock back it has returned what the sequential handler
    returns. *)
Lemma register_thread_section r :
  meta_is_object r ->
  exists k,
    register_thread r = threaded.Acquire k
    /\ threaded.inside k
    /\ forall fs,
         threaded.run_section k fs
         = (threaded.Return
              (fst (app.register_device (rr_payload r) (rr_u1 r) (rr_u2 r) (rr_now r) fs)),
            snd (app.register_device (rr_payload r) (rr_u1 r) (rr_u2 r) (rr_now r) fs)).
Proof.
  intros [m0 Hmeta].
  unfold register_thread, threaded.app_register_device, app.register_device.
  rewrite Hmeta. unfold threaded.try_except, threaded.ebind.
  cbn [Py.setitem app.with_name threaded.pbind].
  unfold threaded.register_device, storage.register_device.
  destruct (with_lock_write_section
              (storage.register_device_mut
                 (if Py.str_truthy (app.reg_device_id (rr_payload r))
                  then default "" (app.reg_device_id (rr_payload r))
                  else Uuid.str (rr_u1 r))
                 (JObj (<["api_key" := JStr (Uuid.hex (rr_u2 r))]> m0
                        ∪ {[ "name" := default (JStr "") (app.reg_name (rr_payload r)) ]}))
                 (rr_now r))) as (k & -> & Hin & Hrun).
  cbn [threaded.pbind]. eexists. split; [reflexivity|]. split.
  - apply pbind_discipline; [by intros [|e]; [|destruct (is_ValueError e)]|].
    apply pbind_discipline; [by intros [|]|done].
  - intros fs. rewrite run_section_pbind by (apply pbind_discipline; [by intros [|]|done]).
    rewrite run_section_pbind by done. rewrite Hrun. store_simpl.
    cbv beta iota zeta. cbn [app.with_name Py.setitem].
    destruct (storage.with_lock_write _ fs) as [[d|e] fs']; cbn; [done|].
    by destruct (is_ValueError e).
Qed.

Lemma register_thread_outside r :
  meta_is_object r -> threaded.outside (register_thread r).
Proof.
  intros Hmeta. by destruct (register_thread_section r Hmeta) as (k & -> & Hin & _).
Qed.

Lemma serial_step_registrations reqs devs c c' :
  NoDup (requested_id <$> reqs) ->
  Forall meta_is_object reqs ->
  registrations_served reqs devs c ->
  threaded.serial_step c c' ->
  registrations_served reqs devs c'.
Proof.
  intros Hdistinct Hmeta (devs' & tel' & Hfs & Hlen & Hsub & Hsup & Hthreads) Hstep.
  destruct Hstep as [fs ts i k Hi]. cbn [fst snd] in *.
  assert (is_Some (reqs !! i)) as [r Hr].
  { apply lookup_lt_is_Some. rewrite <- Hlen. by eapply lookup_lt_Some. }
  pose proof (Forall_lookup_1 _ _ _ _ Hmeta Hr) as Hobj.
  destruct (Hthreads i r Hr) as [(Hti & Hfree) | (Hti & _)]; [|congruence].
  destruct (register_thread_section r Hobj) as (k0 & Hk0 & _ & Hrun).
  assert (k = k0) as -> by congruence.
  rewrite Hrun, (app_register_device_fresh r fs devs' tel') by done. cbn [fst snd].
  exists (<[requested_id r := registered_record r]> devs'),
         (with_bucket tel' (requested_id r)).
  cbn [fst snd]. split; [by left|]. split; [by rewrite length_insert|].
  split; [rewrite dom_insert; set_solver|]. split.
  - rewrite dom_insert. apply union_subseteq. split; [|done].
    apply singleton_subseteq_l, elem_of_union_r, elem_of_list_to_set, list_elem_of_fmap.
    exists r. split; [done|]. apply list_elem_of_lookup. by exists i.
  - intros j rj Hrj. destruct (decide (i = j)) as [<- | Hne].
    + assert (rj = r) as -> by congruence. right. split.
      * apply list_lookup_insert_eq. by eapply lookup_lt_Some.
      * by rewrite lookup_insert_eq.
    + assert (requested_id r <> requested_id rj) as Hids.
      { intros Heq. apply Hne.
        apply (NoDup_lookup (requested_id <$> reqs) i j (requested_id r) Hdistinct).
        - by rewrite list_lookup_fmap, Hr.
        - by rewrite list_lookup_fmap, Hrj, Heq. }
      rewrite list_lookup_insert_ne by done. rewrite lookup_insert_ne by done.
      by apply Hthreads.
Qed.

Lemma serial_steps_registrations reqs devs c c' :
  NoDup (requested_id <$> reqs) ->
  Forall meta_is_object reqs ->
  registrations_served reqs devs c ->
  threaded.serial_steps c c' ->
  registrations_served reqs devs c'.
Proof.
  intros Hdistinct Hmeta Hinv Hsteps.
  induction Hsteps as [|c1 c2 c3 Hsteps IH Hstep]; [done|].
  eapply serial_step_registrations; [done | done | | done]. by apply IH.
Qed.

(** ** Threads: parallel ingestions *)

(** The append of a checked ingestion is one section, which ends with what
    the sequential [store_telemetry] returns turned into the reply. *)
Lemma ingest_checked_section device_id r :
  exists k,
    ingest_checked device_id r = threaded.Acquire k
    /\ threaded.inside k
    /\ forall fs,
         threaded.run_section k fs
         = (threaded.Return
              (match fst (storage.store_telemetry device_id (ingest_record r) fs) with
               | Ok _ => Ok ingest_reply
               | Raise e =>
                   if is_KeyError e then Ok (app.error_body "unknown device", 404)
                   else Raise e
               end),
            snd (storage.store_telemetry device_id (ingest_record r) fs)).
Proof.
  unfold ingest_checked, threaded.try_except, threaded.ebind.
  unfold threaded.store_telemetry, storage.store_telemetry.
  destruct (with_lock_write_section
              (storage.store_telemetry_mut device_id (ingest_record r)))
    as (k & -> & Hin & Hrun).
  cbn [threaded.pbind]. eexists. split; [reflexivity|]. split.
  - apply pbind_discipline; [by intros [|e]; [|destruct (is_KeyError e)]|].
    apply pbind_discipline; [by intros [|]|done].
  - intros fs. rewrite run_section_pbind by (apply pbind_discipline; [by intros [|]|done]).
    rewrite run_section_pbind by done. rewrite Hrun. cbn [fst snd].
    destruct (storage.with_lock_write _ fs) as [[d|e] fs']; cbn; [done|].
    by destruct (is_KeyError e).
Qed.

Lemma ingest_checked_outside device_id r :
  threaded.outside (ingest_checked device_id r).
Proof. by destruct (ingest_checked_section device_id r) as (k & -> & Hin & _). Qed.

Lemma with_lock_read_section :
  exists k,
    threaded.with_lock_read = threaded.Acquire k
    /\ threaded.inside k
    /\ forall fs,
         threaded.run_section k fs
         = (threaded.Return (fst (storage.with_lock_read fs)),
            snd (storage.with_lock_read fs)).
Proof.
  eexists. split; [reflexivity|]. split.
  - cbn. intros []; cbn; done.
  - by intros [| |j].
Qed.

(** The first section of an ingestion reads the devices; on a document in
    which the device is registered with a key the request passes, what is
    left afterwards is the checked ingestion, and the file is as before. *)
Lemma ingest_thread_section device_id meta r :
  device_id <> "" ->
  accepted_request device_id meta r ->
  exists k,
    ingest_thread r = threaded.Acquire k
    /\ threaded.inside k
    /\ forall devs tel record,
         devs !! device_id = Some (JObj record) ->
         record !! "meta" = Some (JObj meta) ->
         threaded.run_section k (Stored (document devs tel))
         = (ingest_checked device_id r, Stored (document devs tel)).
Proof.
  intros Hne (Hid & Hkey).
  unfold ingest_thread, threaded.app_telemetry_ingest. rewrite Hid.
  assert (Py.str_truthy (Some device_id) = true) as ->.
  { simpl. by apply negb_true_iff, String.eqb_neq. }
  cbn [negb from_option id].
  unfold threaded.list_devices. unfold threaded.ebind at 1 2.
  destruct with_lock_read_section as (k & -> & Hin & Hrun).
  cbn [threaded.pbind]. eexists. split; [reflexivity|].
  assert (Hfirst : threaded.inside
            (threaded.pbind k (fun r0 : result json =>
               match r0 with
               | Ok a => threaded.Return (Py.getitem a "devices")
               | Raise e => threaded.Return (Raise e)
               end))).
  { apply pbind_discipline; [by intros [|]|done]. }
  split.
  - apply pbind_discipline; [|done].
    intros [devices|e]; [|done]. unfold threaded.ebind. cbn [threaded.pbind].
    destruct (Py.get devices device_id) as [dev|]; [|done].
    destruct (negb (Py.truthy dev)); [done|].
    destruct (Py.getitem dev "meta") as [meta'|]; [|done].
    destruct (Py.get meta' "api_key") as [expected_key|]; [|done].
    destruct (Py.truthy expected_key && app.key_differs (ir_api_key r) expected_key);
      [done|].
    apply (ingest_checked_outside device_id r).
  - intros devs tel record Hdev Hmeta.
    rewrite run_section_pbind by done. rewrite run_section_pbind by done.
    rewrite Hrun. unfold storage.with_lock_read. rewrite read_all_stored.
    cbn [fst snd threaded.pbind]. rewrite document_devices.
    unfold threaded.ebind. cbn [threaded.pbind Py.get]. rewrite Hdev.
    cbn [from_option id].
    assert (Py.truthy (JObj record) = true) as ->.
    { simpl. apply negb_true_iff, Nat.eqb_neq. intros Hz.
      apply map_size_empty_iff in Hz. subst record. by rewrite lookup_empty in Hmeta. }
    cbn [negb Py.getitem]. rewrite Hmeta. cbn [Py.get threaded.pbind].
    by rewrite key_accepted_passes.
Qed.

Lemma ingest_thread_outside device_id meta r :
  device_id <> "" -> accepted_request device_id meta r ->
  threaded.outside (ingest_thread r).
Proof.
  intros Hne Hacc.
  by destruct (ingest_thread_section device_id meta r Hne Hacc) as (k & -> & Hin & _).
Qed.

Lemma returned_count_insert {A} (ts : list (threaded.prog A)) i p q :
  ts !! i = Some p ->
  (length (List.filter has_returned (<[i := q]> ts)) + (if has_returned p then 1 else 0)
   = length (List.filter has_returned ts) + (if has_returned q then 1 else 0))%nat.
Proof.
  revert i. induction ts as [|t ts IH]; intros i Hi; [done|].
  destruct i as [|i]; cbn in *.
  - injection Hi as ->. destruct (has_returned p), (has_returned q); cbn [length].
    all: clear IH; lia.
  - specialize (IH i Hi). destruct (has_returned t); cbn [length]; [|done].
    rewrite !Nat.add_succ_l. by f_equal.
Qed.

Lemma serial_step_ingestions reqs device_id devs l record meta c c' :
  device_id <> "" ->
  devs !! device_id = Some (JObj record) ->
  record !! "meta" = Some (JObj meta) ->
  Forall (accepted_request device_id meta) reqs ->
  ingestions_served reqs device_id devs l c ->
  threaded.serial_step c c' ->
  ingestions_served reqs device_id devs l c'.
Proof.
  intros Hne Hdev Hmeta Hacc
    (tel' & appended & Hfile & Hbucket & Hlen & Hcount & Hthreads) Hstep.
  destruct Hstep as [fs ts i k Hi]. cbn [fst snd] in *. subst fs.
  assert (is_Some (reqs !! i)) as [r Hr].
  { apply lookup_lt_is_Some. rewrite <- Hlen. by eapply lookup_lt_Some. }
  pose proof (Forall_lookup_1 _ _ _ _ Hacc Hr) as Hreq.
  destruct (Hthreads i r Hr) as [[Hti | Hti] | (Hti & _)]; [| |congruence].
  - destruct (ingest_thread_section device_id meta r Hne Hreq) as (k0 & Hk0 & _ & Hrun).
    assert (k = k0) as -> by congruence.
    rewrite (Hrun devs tel' record) by done. cbn [fst snd].
    exists tel', appended. cbn [fst snd].
    split; [done|]. split; [done|]. split; [by rewrite length_insert|]. split.
    + pose proof (returned_count_insert ts i _ (ingest_checked device_id r) Hi) as Hc.
      destruct (ingest_checked_section device_id r) as (k1 & Hk1 & _).
      rewrite Hk1 in Hc |- *. cbn [has_returned] in Hc. lia.
    + intros j rj Hrj. destruct (decide (i = j)) as [<- | Hij].
      * assert (rj = r) as -> by congruence. left. right.
        apply list_lookup_insert_eq. by eapply lookup_lt_Some.
      * rewrite list_lookup_insert_ne by done. by apply Hthreads.
  - destruct (ingest_checked_section device_id r) as (k0 & Hk0 & _ & Hrun).
    assert (k = k0) as -> by congruence.
    rewrite Hrun, store_telemetry_stored, Hdev, Hbucket. cbn [fst snd].
    exists (<[device_id := JArr ((l ++ appended) ++ [ingest_record r])]> tel'),
           (appended ++ [ingest_record r]). cbn [fst snd].
    split; [done|]. split; [by rewrite lookup_insert_eq, app_assoc|].
    split; [by rewrite length_insert|]. split.
    + pose proof (returned_count_insert ts i _
                    (threaded.Return (Ok ingest_reply)) Hi) as Hc.
      cbn [has_returned] in Hc. rewrite length_app. cbn [length]. lia.
    + intros j rj Hrj. destruct (decide (i = j)) as [<- | Hij].
      * assert (rj = r) as -> by congruence. right. split.
        -- apply list_lookup_insert_eq. by eapply lookup_lt_Some.
        -- apply elem_of_app. right. by apply list_elem_of_singleton.
      * rewrite list_lookup_insert_ne by done.
        destruct (Hthreads j rj Hrj) as [Hwait | (Hdone & Hin)]; [by left|].
        right. split; [done|]. apply elem_of_app. by left.
Qed.

Lemma serial_steps_ingestions reqs device_id devs l record meta c c' :
  device_id <> "" ->
  devs !! device_id = Some (JObj record) ->
  record !! "meta" = Some (JObj meta) ->
  Forall (accepted_request device_id meta) reqs ->
  ingestions_served reqs device_id devs l c ->
  threaded.serial_steps c c' ->
  ingestions_served reqs device_id devs l c'.
Proof.
  intros Hne Hdev Hmeta Hacc Hinv Hsteps.
  induction Hsteps as [|c1 c2 c3 Hsteps IH Hstep]; [done|].
  eapply serial_step_ingestions; [done | done | done | done | | done]. by apply IH.
Qed.

Lemma returned_count_all {A} (ts : list (threaded.prog A)) :
  Forall threaded.returned ts -> length (List.filter has_returned ts) = length ts.
Proof.
  induction 1 as [|p ts [a ->] Hrest IH]; [done|]. cbn. by rewrite IH.
Qed.

(** C10. Requests served by parallel threads, whose steps (taking and
    giving back the lock, each access to the file) interleave in any order.
    For registrations of distinct ids that are not registered yet: every run
    can be completed, and in every completed run each request has got its
    201 reply and the file holds the old devices and exactly one record for
    each request, so [length reqs] devices more.  For ingestions for one
    registered device, each with a key that passes: every run can be
    completed, and in every completed run each request has got its 201
    reply, and the list of the device is the old list followed by one record
    for each request, so [length reqs] records more.  No run goes on for
    ever, so every run ends completed. *)
Theorem parallel_requests_all_succeed :
  (forall (reqs : list register_request) (fs : file_state)
          (devs tel : gmap string json) (st : threaded.pool (result app.response)),
     holds fs devs tel ->
     NoDup (requested_id <$> reqs) ->
     Forall meta_is_object reqs ->
     Forall (fun r => devs !! requested_id r = None) reqs ->
     threaded.steps (threaded.Pool fs false (register_thread <$> reqs)) st ->
     (exists st', threaded.steps st st' /\ threaded.finished st')
     /\ (threaded.finished st ->
         threaded.threads st = (fun r => threaded.Return (Ok (register_reply r))) <$> reqs
         /\ exists devs' tel' : gmap string json,
              holds (threaded.file st) devs' tel'
              /\ (forall r, r ∈ reqs ->
                  devs' !! requested_id r = Some (registered_record r))
              /\ dom devs' = dom devs ∪ list_to_set (requested_id <$> reqs)
              /\ size devs' = (size devs + length reqs)%nat))
  /\ (forall (reqs : list ingest_request) (device_id : string)
             (devs tel record meta : gmap string json) (l : list json)
             (st : threaded.pool (result app.response)),
        device_id <> "" ->
        devs !! device_id = Some (JObj record) ->
        record !! "meta" = Some (JObj meta) ->
        Forall (accepted_request device_id meta) reqs ->
        default (JArr []) (tel !! device_id) = JArr l ->
        threaded.steps
          (threaded.Pool (Stored (document devs tel)) false (ingest_thread <$> reqs)) st ->
        (exists st', threaded.steps st st' /\ threaded.finished st')
        /\ (threaded.finished st ->
            threaded.threads st = (fun _ => threaded.Return (Ok ingest_reply)) <$> reqs
            /\ exists (tel' : gmap string json) (appended : list json),
                 threaded.file st = Stored (document devs tel')
                 /\ default (JArr []) (tel' !! device_id) = JArr (l ++ appended)
                 /\ length appended = length reqs
                 /\ (forall r, r ∈ reqs -> ingest_record r ∈ appended)))
  /\ (forall st : threaded.pool (result app.response),
        Acc (fun st' st => threaded.step st st') st).
Proof.
  split; [|split; [|apply steps_terminate]].
  { intros reqs fs devs tel st.
    intros Hfs Hdistinct Hmeta Hfresh Hsteps.
    assert (Hfree : lock_free (threaded.Pool fs false (register_thread <$> reqs))).
    { split; [done|]. pool_simpl. apply Forall_fmap.
      eapply Forall_impl; [exact Hmeta|]. intros r. apply register_thread_outside. }
    split.
    - apply well_locked_completes. eapply steps_well_locked; [|done]. by left.
    - intros Hfin.
      pose proof (finished_serial _ _ Hfree Hsteps Hfin) as Hserial. pool_simpl.
      assert (Hstart : registrations_served reqs devs (fs, register_thread <$> reqs)).
      { exists devs, tel. cbn [fst snd]. split; [done|]. split; [by rewrite length_fmap|].
        split; [done|]. split; [set_solver|].
        intros i r Hr. left. split.
        - by rewrite list_lookup_fmap, Hr.
        - by apply (Forall_lookup_1 _ _ _ _ Hfresh Hr). }
      destruct (serial_steps_registrations _ _ _ _ Hdistinct Hmeta Hstart Hserial)
        as (devs' & tel' & Hfile & Hlen & Hsub & Hsup & Hthreads). cbn [fst snd] in *.
      assert (Hdone : forall i r, reqs !! i = Some r ->
                threaded.threads st !! i = Some (threaded.Return (Ok (register_reply r)))
                /\ devs' !! requested_id r = Some (registered_record r)).
      { intros i r Hr. destruct (Hthreads i r Hr) as [(Hti & _) | Hdone]; [|done].
        exfalso. pose proof (Forall_lookup_1 _ _ _ _ Hfin Hti) as [a Ha].
        pose proof (Forall_lookup_1 _ _ _ _ Hmeta Hr) as Hobj.
        destruct (register_thread_section r Hobj) as (k & Hk & _). congruence. }
      split.
      + apply list_eq. intros i. rewrite list_lookup_fmap.
        destruct (reqs !! i) as [r|] eqn:Hr; cbn.
        * by apply Hdone.
        * apply lookup_ge_None. rewrite Hlen. by apply lookup_ge_None.
      + exists devs', tel'. split; [done|].
        assert (Hall : forall r, r ∈ reqs ->
                  devs' !! requested_id r = Some (registered_record r)).
        { intros r Hin. apply list_elem_of_lookup in Hin as [i Hr]. by eapply Hdone. }
        split; [done|].
        assert (Hdom : dom devs' = dom devs ∪ list_to_set (requested_id <$> reqs)).
        { apply set_eq. intros x. split; [apply Hsup|].
          intros [Hx | Hx]%elem_of_union; [by apply Hsub|].
          apply elem_of_list_to_set, list_elem_of_fmap in Hx as (r & -> & Hin).
          apply elem_of_dom. rewrite (Hall r Hin). by eexists. }
        split; [done|].
        rewrite <- (size_dom devs'), Hdom, size_union.
        * rewrite size_dom, size_list_to_set by done. by rewrite length_fmap.
        * intros x Hx1 Hx2.
          apply elem_of_list_to_set, list_elem_of_fmap in Hx2 as (r & -> & Hin).
          apply list_elem_of_lookup in Hin as [i Hr].
          pose proof (Forall_lookup_1 _ _ _ _ Hfresh Hr) as Hnone. cbn in Hnone.
          apply elem_of_dom in Hx1 as [v Hv]. congruence. }
  intros reqs device_id devs tel record meta l st.
  intros Hne Hdev Hmeta Hacc Hbucket Hsteps.
  assert (Hfree : lock_free (threaded.Pool (Stored (document devs tel)) false
                               (ingest_thread <$> reqs))).
  { split; [done|]. pool_simpl. apply Forall_fmap.
    eapply Forall_impl; [exact Hacc|]. intros r. by apply ingest_thread_outside. }
  split.
  - apply well_locked_completes. eapply steps_well_locked; [|done]. by left.
  - intros Hfin.
    pose proof (finished_serial _ _ Hfree Hsteps Hfin) as Hserial. pool_simpl.
    assert (Hstart : ingestions_served reqs device_id devs l
                       (Stored (document devs tel), ingest_thread <$> reqs)).
    { exists tel, []. cbn [fst snd]. split; [done|].
      split; [by rewrite app_nil_r|]. split; [by rewrite length_fmap|]. split.
      - clear Hsteps Hfree Hserial. induction Hacc as [|r rs Hr Hrs IH]; [done|].
        rewrite fmap_cons. cbn [List.filter].
        destruct (ingest_thread_section device_id meta r Hne Hr) as (k & -> & _).
        cbn [has_returned]. exact IH.
      - intros i r Hr. left. left. by rewrite list_lookup_fmap, Hr. }
    destruct (serial_steps_ingestions _ _ _ _ _ _ _ _ Hne Hdev Hmeta Hacc Hstart Hserial)
      as (tel' & appended & Hfile & Hbucket' & Hlen & Hcount & Hthreads).
    cbn [fst snd] in *.
    assert (Hdone : forall i r, reqs !! i = Some r ->
              threaded.threads st !! i = Some (threaded.Return (Ok ingest_reply))
              /\ ingest_record r ∈ appended).
    { intros i r Hr. pose proof (Forall_lookup_1 _ _ _ _ Hacc Hr) as Hreq.
      destruct (Hthreads i r Hr) as [[Hti | Hti] | Hdone]; [| |done]; exfalso;
        pose proof (Forall_lookup_1 _ _ _ _ Hfin Hti) as [a Ha].
      - destruct (ingest_thread_section device_id meta r Hne Hreq) as (k & Hk & _).
        congruence.
      - destruct (ingest_checked_section device_id r) as (k & Hk & _). congruence. }
    split.
    + apply list_eq. intros i. rewrite list_lookup_fmap.
      destruct (reqs !! i) as [r|] eqn:Hr; cbn.
      * by apply (Hdone i r).
      * apply lookup_ge_None. rewrite Hlen. by apply lookup_ge_None.
    + exists tel', appended. split; [done|]. split; [done|]. split.
      * by rewrite Hcount, returned_count_all.
      * intros r Hin. apply list_elem_of_lookup in Hin as [i Hr]. by eapply Hdone.
Qed.

Lemma parallel_requests_all_succeed_witness :
  (exists st' (devs' tel' : gmap string json),
     threaded.steps (threaded.Pool NoFile false (register_thread <$> sample_registrations))
       st'
     /\ threaded.finished st'
     /\ threaded.threads st'
        = (fun r => threaded.Return (Ok (register_reply r))) <$> sample_registrations
     /\ holds (threaded.file st') devs' tel'
     /\ size devs' = 2%nat)
  /\ (exists st' (tel' : gmap string json) (appended : list json),
        threaded.steps
          (threaded.Pool (Stored (document {[ "d1" := sample.device (Some "k1") ]} ∅))
             false (ingest_thread <$> sample_ingestions)) st'
        /\ threaded.finished st'
        /\ threaded.file st'
           = Stored (document {[ "d1" := sample.device (Some "k1") ]} tel')
        /\ default (JArr []) (tel' !! "d1") = JArr ([] ++ appended)
        /\ length appended = 2%nat).
Proof.
  destruct parallel_requests_all_succeed as (Hregister & Hingest & _).
  split.
  - assert (Hfs : holds NoFile (∅ : gmap string json) ∅) by (by right).
    assert (Hdistinct : NoDup (requested_id <$> sample_registrations)).
    { apply NoDup_cons. split; [|apply NoDup_singleton].
      apply not_elem_of_cons. split; [discriminate | apply not_elem_of_nil]. }
    assert (Hmeta : Forall meta_is_object sample_registrations).
    { repeat constructor; eexists; reflexivity. }
    assert (Hfresh : Forall (fun r => (∅ : gmap string json) !! requested_id r = None)
                       sample_registrations).
    { repeat constructor. }
    destruct (Hregister sample_registrations NoFile ∅ ∅ _ Hfs Hdistinct Hmeta Hfresh
                (threaded.steps_refl _)) as ((st' & Hsteps & Hfin) & _).
    destruct (Hregister sample_registrations NoFile ∅ ∅ st' Hfs Hdistinct Hmeta Hfresh
                Hsteps) as (_ & Hend).
    destruct (Hend Hfin) as (Hthreads & devs' & tel' & Hfile & _ & _ & Hsize).
    exists st', devs', tel'. by rewrite map_size_empty in Hsize.
  - assert (Hacc : Forall (accepted_request "d1"
                             (<["api_key" := JStr "k1"]> {[ "name" := JStr "probe" ]}))
                     sample_ingestions).
    { apply Forall_cons. split; [|apply Forall_cons; split; [|apply Forall_nil_2]];
        (split; [reflexivity | right; exists "k1"; split; reflexivity]). }
    destruct (Hingest sample_ingestions "d1" {[ "d1" := sample.device (Some "k1") ]} ∅
                (<["meta" := JObj (<["api_key" := JStr "k1"]> {[ "name" := JStr "probe" ]})]>
                   {[ "registered_at" := JStr "2024-05-17T09:00:00Z" ]})
                (<["api_key" := JStr "k1"]> {[ "name" := JStr "probe" ]}) [] _
                ltac:(discriminate) eq_refl eq_refl Hacc eq_refl (threaded.steps_refl _))
      as ((st' & Hsteps & Hfin) & _).
    destruct (Hingest sample_ingestions "d1" {[ "d1" := sample.device (Some "k1") ]} ∅
                (<["meta" := JObj (<["api_key" := JStr "k1"]> {[ "name" := JStr "probe" ]})]>
                   {[ "registered_at" := JStr "2024-05-17T09:00:00Z" ]})
                (<["api_key" := JStr "k1"]> {[ "name" := JStr "probe" ]}) [] st'
                ltac:(discriminate) eq_refl eq_refl Hacc eq_refl Hsteps)
      as (_ & Hend).
    destruct (Hend Hfin) as (_ & tel' & appended & Hfile & Hbucket & Hlen & _).
    by exists st', tel', appended.
Defined.

(** ** Threads: what the lock is for *)

Ltac thread_step i :=
  eapply threaded.steps_step;
  [ first [ eapply (threaded.step_do _ _ _ i); reflexivity
          | eapply (threaded.step_release _ _ _ i); reflexivity
          | eapply (threaded.step_acquire _ _ i); reflexivity ]
  | cbn [list_insert list_lookup fst snd] ].

(** Without the lock the steps of two registrations can interleave so that
    both read the empty document before either writes: the second write
    then replaces the first, and the device of the first request is lost. *)
Example unlocked_registrations_lose_a_device :
  exists st' (devs' tel' : gmap string json),
    threaded.steps
      (threaded.Pool (Stored (document ∅ ∅)) false
         [without_lock (threaded.register_device "d1" (JObj ∅) sample.now);
          without_lock (threaded.register_device "d2" (JObj ∅) sample.now)])
      st'
    /\ threaded.finished st'
    /\ threaded.file st' = Stored (document devs' tel')
    /\ devs' !! "d1" = None
    /\ size devs' = 1%nat.
Proof.
  eexists _, _, _. split; [|split; [|split; [|split]]].
  - thread_step 0%nat. thread_step 0%nat.
    thread_step 1%nat. thread_step 1%nat.
    thread_step 0%nat. thread_step 1%nat.
    thread_step 0%nat. thread_step 1%nat.
    apply threaded.steps_refl.
  - repeat constructor; eexists; reflexivity.
  - vm_compute. reflexivity.
  - vm_compute. reflexivity.
  - vm_compute. reflexivity.
Qed.

(** ** Writes are all or nothing *)


(** ** A file that is not JSON *)

(** X2. On a file whose text is not JSON every function of [storage] raises
    [JSONDecodeError] and leaves the file alone.  The handlers pass the
    exception on, except [register_device]: its [except ValueError] catches
    it, [JSONDecodeError] being a [ValueError], and the request is answered
    409 "device already exists". *)
Theorem corrupt_file_answers (isoparse : string -> option datetime)
    (int : string -> result Z) :
  (forall mutator_fn,
     storage.with_lock_write mutator_fn Garbage = (Raise JSONDecodeError, Garbage))
  /\ storage.list_devices Garbage = (Raise JSONDecodeError, Garbage)
  /\ (forall device_id start_iso end_iso limit,
        storage.get_telemetry isoparse device_id start_iso end_iso limit Garbage
        = (Raise JSONDecodeError, Garbage))
  /\ (forall payload u1 u2 now,
        is_object (default (JObj ∅) (app.reg_meta payload)) ->
        app.register_device payload u1 u2 now Garbage
        = (Ok (app.error_body "device already exists", 409), Garbage))
  /\ app.list_devices Garbage = (Raise JSONDecodeError, Garbage)
  /\ (forall payload api_key now,
        Py.str_truthy (app.tel_device_id payload) = true ->
        app.telemetry_ingest payload api_key now Garbage
        = (Raise JSONDecodeError, Garbage))
  /\ (forall device_id start end_ limit n,
        int (default "100" limit) = Ok n ->
        app.telemetry_query isoparse int device_id start end_ limit Garbage
        = (Raise JSONDecodeError, Garbage))
  /\ (forall device_id limit n,
        int (default "100" limit) = Ok n ->
        pages.api_telemetry isoparse int device_id limit Garbage
        = (Raise JSONDecodeError, Garbage))
  /\ pages.index Garbage = (Raise JSONDecodeError, Garbage)
  /\ (forall device_id, pages.dashboard device_id Garbage = (Raise JSONDecodeError, Garbage)).
Proof.
  repeat split.
  - intros payload u1 u2 now [m Hmeta].
    unfold app.register_device. by rewrite Hmeta.
  - intros payload api_key now Hid. unfold app.telemetry_ingest. by rewrite Hid.
  - intros device_id start end_ limit n Hint. unfold app.telemetry_query.
    unfold bind at 1. unfold lift at 1. by rewrite Hint.
  - intros device_id limit n Hint. unfold pages.api_telemetry.
    unfold bind at 1. unfold lift at 1. by rewrite Hint.
Qed.

Lemma corrupt_file_answers_witness :
  app.register_device
    {| app.reg_device_id := Some "d1"; app.reg_name := None; app.reg_meta := None |}
    1%N 2%N sample.now Garbage
  = (Ok (app.error_body "device already exists", 409), Garbage)
  /\ app.telemetry_ingest (sample.post (Some "d1")) None sample.now Garbage
     = (Raise JSONDecodeError, Garbage)
  /\ app.telemetry_query sample.isoparse sample.int "d1" None None None Garbage
     = (Raise JSONDecodeError, Garbage)
  /\ pages.api_telemetry sample.isoparse sample.int "d1" (Some "2") Garbage
     = (Raise JSONDecodeError, Garbage).
Proof.
  destruct (corrupt_file_answers sample.isoparse sample.int)
    as (_ & _ & _ & Hreg & _ & Hingest & Hquery & Hapi & _).
  split; [|split; [|split]].
  - apply Hreg. by eexists.
  - apply Hingest. reflexivity.
  - apply (Hquery "d1" None None None 100). reflexivity.
  - apply (Hapi "d1" (Some "2") 2). reflexivity.
Defined.

(** ** What a write leaves alone *)

(** X3. [store_telemetry] for a device that is not registered raises
    [KeyError] and changes nothing (a missing file is created empty).
    Whether it succeeds or not, it leaves the devices as they were and
    changes the answer of no query for another device. *)
Theorem store_telemetry_frame (isoparse : string -> option datetime)
    (device_id : string) (payload : json) (devs tel : gmap string json) :
  let fs := Stored (document devs tel) in
  let fs' := snd (storage.store_telemetry device_id payload fs) in
  (devs !! device_id = None ->
   storage.store_telemetry device_id payload fs = (Raise KeyError, fs))
  /\ storage.store_telemetry device_id payload NoFile
     = (Raise KeyError, Stored storage.initial)
  /\ storage.list_devices fs' = (Ok (JObj devs), fs')
  /\ (forall other start_iso end_iso limit,
        other <> device_id ->
        fst (storage.get_telemetry isoparse other start_iso end_iso limit fs')
        = fst (storage.get_telemetry isoparse other start_iso end_iso limit fs)).
Proof.
  intros fs fs'. split; [|split; [|split]].
  - intros Hnone. unfold fs. by rewrite store_telemetry_stored, Hnone.
  - change (storage.store_telemetry device_id payload NoFile)
      with (storage.store_telemetry device_id payload (Stored (document ∅ ∅))).
    by rewrite store_telemetry_stored, lookup_empty.
  - unfold fs', fs. rewrite store_telemetry_stored.
    destruct (devs !! device_id); cbn [snd]; [|by rewrite list_devices_stored].
    destruct (default (JArr []) (tel !! device_id)); cbn [snd];
      by rewrite list_devices_stored.
  - intros other start_iso end_iso limit Hother. unfold fs', fs.
    rewrite store_telemetry_stored.
    destruct (devs !! device_id); cbn [snd]; [|done].
    destruct (default (JArr []) (tel !! device_id)); cbn [snd]; try done.
    rewrite !get_telemetry_stored. cbn [fst].
    by rewrite lookup_insert_ne.
Qed.

Lemma store_telemetry_frame_witness :
  storage.store_telemetry "d2" (sample.reading "2024-05-17T09:30:00Z" 21)
    (Stored (document {[ "d1" := sample.device None ]} ∅))
  = (Raise KeyError, Stored (document {[ "d1" := sample.device None ]} ∅))
  /\ fst (storage.get_telemetry sample.isoparse "d2" None None 5
            (snd (storage.store_telemetry "d1" (sample.reading "2024-05-17T09:30:00Z" 21)
                    (Stored (document
                               (<["d2" := sample.device None]> {[ "d1" := sample.device None ]})
                               {[ "d2" := JArr [sample.reading "2024-05-17T09:00:00Z" 20] ]})))))
     = fst (storage.get_telemetry sample.isoparse "d2" None None 5
              (Stored (document
                         (<["d2" := sample.device None]> {[ "d1" := sample.device None ]})
                         {[ "d2" := JArr [sample.reading "2024-05-17T09:00:00Z" 20] ]}))).
Proof.
  split.
  - destruct (store_telemetry_frame sample.isoparse "d2"
                (sample.reading "2024-05-17T09:30:00Z" 21)
                {[ "d1" := sample.device None ]} ∅) as (H & _).
    apply H. reflexivity.
  - destruct (store_telemetry_frame sample.isoparse "d1"
                (sample.reading "2024-05-17T09:30:00Z" 21)
                (<["d2" := sample.device None]> {[ "d1" := sample.device None ]})
                {[ "d2" := JArr [sample.reading "2024-05-17T09:00:00Z" 20] ]})
      as (_ & _ & _ & H).
    apply H. discriminate.
Defined.



(** ** A record stored is the last one returned *)

Lemma last_drop_snoc {A} (l : list A) (x : A) (n : nat) :
  (n <= length l)%nat -> last (drop n (l ++ [x])) = Some x.
Proof.
  intros Hle. rewrite drop_app_le by done. apply last_snoc.
Qed.

(** X5. After [store_telemetry] has appended a record to the list of a
    registered device, the query with no bounds and a positive limit returns
    the last [limit] records of the longer list, and the record stored is the
    last of them: with limit 1 it is the whole answer. *)
Theorem store_then_get_telemetry (isoparse : string -> option datetime)
    (device_id : string) (payload : json) (devs tel : gmap string json)
    (l : list json) (limit : Z) :
  is_Some (devs !! device_id) ->
  default (JArr []) (tel !! device_id) = JArr l ->
  0 < limit ->
  let fs' := snd (storage.store_telemetry device_id payload (Stored (document devs tel))) in
  let answer := drop (length (l ++ [payload]) - Z.to_nat limit) (l ++ [payload]) in
  storage.get_telemetry isoparse device_id None None limit fs' = (Ok (JArr answer), fs')
  /\ last answer = Some payload
  /\ (limit = 1 -> answer = [payload]).
Proof.
  intros [rec Hdev] Hbucket Hpos fs' answer. unfold fs'.
  rewrite store_telemetry_stored, Hdev, Hbucket. cbn [snd].
  split; [|split].
  - apply get_telemetry_positive_limit; [|done]. by rewrite lookup_insert_eq.
  - apply last_drop_snoc. rewrite length_app. cbn [length]. lia.
  - intros ->. unfold answer. rewrite length_app. cbn [length].
    replace (length l + 1 - Z.to_nat 1)%nat with (length l) by lia.
    by rewrite drop_app_length.
Qed.

Lemma store_then_get_telemetry_witness :
  storage.get_telemetry sample.isoparse "d1" None None 2
    (snd (storage.store_telemetry "d1" (sample.reading "2024-05-17T10:00:00Z" 22)
            (Stored (document {[ "d1" := sample.device None ]}
                       {[ "d1" := JArr [sample.reading "2024-05-17T09:00:00Z" 20;
                                        sample.reading "2024-05-17T09:30:00Z" 21] ]}))))
  = (Ok (JArr [sample.reading "2024-05-17T09:30:00Z" 21;
               sample.reading "2024-05-17T10:00:00Z" 22]),
     snd (storage.store_telemetry "d1" (sample.reading "2024-05-17T10:00:00Z" 22)
            (Stored (document {[ "d1" := sample.device None ]}
                       {[ "d1" := JArr [sample.reading "2024-05-17T09:00:00Z" 20;
                                        sample.reading "2024-05-17T09:30:00Z" 21] ]})))).
Proof.
  destruct (store_then_get_telemetry sample.isoparse "d1"
              (sample.reading "2024-05-17T10:00:00Z" 22)
              {[ "d1" := sample.device None ]}
              {[ "d1" := JArr [sample.reading "2024-05-17T09:00:00Z" 20;
                               sample.reading "2024-05-17T09:30:00Z" 21] ]}
              [sample.reading "2024-05-17T09:00:00Z" 20;
               sample.reading "2024-05-17T09:30:00Z" 21] 2) as (H & _).
  - by eexists.
  - reflexivity.
  - lia.
  - exact H.
Defined.

(** ** Reads leave the file alone *)

Lemma read_all_reads_only : reads_only storage.read_all.
Proof. intros [| |j]; [right|left|left]; done. Qed.

Lemma reads_only_bind {A B} (m : M A) (k : A -> M B) :
  reads_only m ->
  (forall a fs, snd (k a fs) = fs) ->
  reads_only (bind m k).
Proof.
  intros Hm Hk fs. unfold bind.
  specialize (Hm fs). destruct (m fs) as [[a|e] fs']; cbn [snd] in *.
  - by rewrite Hk.
  - done.
Qed.

Lemma list_devices_reads_only : reads_only storage.list_devices.
Proof.
  apply reads_only_bind; [apply read_all_reads_only | done].
Qed.

Lemma get_telemetry_reads_only isoparse device_id start_iso end_iso limit :
  reads_only (storage.get_telemetry isoparse device_id start_iso end_iso limit).
Proof.
  intros fs. rewrite get_telemetry_state. apply read_all_reads_only.
Qed.

Lemma reads_only_after_lift {A B} (r : result A) (k : A -> M B) :
  (forall a, reads_only (k a)) ->
  reads_only (bind (lift r) k).
Proof.
  intros Hk fs. unfold bind, lift. destruct r as [a|e]; [apply Hk | by left].
Qed.

Lemma app_list_devices_reads_only : reads_only app.list_devices.
Proof. apply reads_only_bind; [apply list_devices_reads_only | done]. Qed.

Lemma telemetry_query_reads_only isoparse int device_id start end_ limit :
  reads_only (app.telemetry_query isoparse int device_id start end_ limit).
Proof.
  apply reads_only_after_lift. intros n.
  apply reads_only_bind; [apply get_telemetry_reads_only | done].
Qed.

Lemma api_telemetry_reads_only isoparse int device_id limit :
  reads_only (pages.api_telemetry isoparse int device_id limit).
Proof.
  apply reads_only_after_lift. intros n.
  apply reads_only_bind; [apply get_telemetry_reads_only | done].
Qed.

Lemma index_reads_only : reads_only pages.index.
Proof.
  apply reads_only_bind; [apply list_devices_reads_only|].
  intros devices fs. store_simpl.
  destruct (pages.items devices) as [kvs|]; [|done].
  by destruct (pages.dev_list kvs).
Qed.

Lemma dashboard_reads_only device_id : reads_only (pages.dashboard device_id).
Proof.
  apply reads_only_bind; [apply list_devices_reads_only|].
  intros devices fs. store_simpl.
  destruct (Py.contains device_id devices) as [present|]; [|done].
  destruct present; cbn [negb]; [|done].
  destruct (Py.getitem devices device_id) as [device|]; [|done].
  destruct (pages.get_or device "meta" _) as [meta|]; [|done].
  by destruct (pages.get_or meta "name" _).
Qed.

(** X6. The functions that only query leave an existing file exactly as it
    is, whatever it holds and whatever they return or raise; the one change
    they can make is to create a missing file with the empty document.  This
    covers [list_devices] and [get_telemetry] of [storage] and the handlers
    [list_devices], [telemetry_query], [api_telemetry], [index] and
    [dashboard]. *)
Theorem queries_read_only (isoparse : string -> option datetime)
    (int : string -> result Z) :
  reads_only storage.list_devices
  /\ (forall device_id start_iso end_iso limit,
        reads_only (storage.get_telemetry isoparse device_id start_iso end_iso limit))
  /\ reads_only app.list_devices
  /\ (forall device_id start end_ limit,
        reads_only (app.telemetry_query isoparse int device_id start end_ limit))
  /\ (forall device_id limit,
        reads_only (pages.api_telemetry isoparse int device_id limit))
  /\ reads_only pages.index
  /\ (forall device_id, reads_only (pages.dashboard device_id)).
Proof.
  split; [|split; [|split; [|split; [|split; [|split]]]]].
  - apply list_devices_reads_only.
  - intros. apply get_telemetry_reads_only.
  - apply app_list_devices_reads_only.
  - intros. apply telemetry_query_reads_only.
  - intros. apply api_telemetry_reads_only.
  - apply index_reads_only.
  - apply dashboard_reads_only.
Qed.

(** ** The time filter: an empty range, and what makes it raise *)

Lemma bound_given isoparse iso b :
  storage.bound isoparse iso = Some b -> Py.str_truthy iso = true.
Proof.
  unfold storage.bound. destruct iso as [s|]; [|done].
  by destruct (Py.str_truthy (Some s)).
Qed.

Lemma filter_none {A} (f : A -> bool) (l : list A) :
  (forall x, In x l -> f x = false) -> List.filter f l = [].
Proof.
  induction l as [|x l IH]; intros H; [done|].
  cbn [List.filter]. rewrite (H x) by (by left).
  apply IH. intros y Hy. apply H. by right.
Qed.

(** X7. A query whose start bound lies after its end bound returns the
    empty list, for every limit: no record is within the bounds, and the
    code does not treat the inverted range as an error. *)
Theorem get_telemetry_inverted_range (isoparse : string -> option datetime)
    (device_id : string) (start_iso end_iso : option string) (limit : Z)
    (devs tel : gmap string json) (items : list json) (s e : datetime) :
  tel !! device_id = Some (JArr items) ->
  Forall is_object items ->
  same_kind isoparse start_iso end_iso items ->
  storage.bound isoparse start_iso = Some s ->
  storage.bound isoparse end_iso = Some e ->
  Datetime.instant e < Datetime.instant s ->
  storage.get_telemetry isoparse device_id start_iso end_iso limit
    (Stored (document devs tel))
  = (Ok (JArr []), Stored (document devs tel)).
Proof.
  intros Hitems Hobj Hkind Hs He Hlt.
  rewrite get_telemetry_stored, Hitems, (bound_given _ _ _ Hs).
  cbn [orb Py.iter rbind]. rewrite time_filter_in_range by done.
  cbn [rbind Py.getslice_from]. rewrite filter_none; [by rewrite slice_from_nil|].
  intros it _. unfold in_range. rewrite Hs, He.
  destruct (record_time isoparse it) as [t|]; [|done].
  apply andb_false_iff.
  destruct (Z.le_gt_cases (Datetime.instant s) (Datetime.instant t)).
  - right. apply Z.leb_gt. lia.
  - left. apply Z.leb_gt. lia.
Qed.

Lemma get_telemetry_inverted_range_witness :
  storage.get_telemetry sample.isoparse "d1"
    (Some "2024-05-17T10:00:00Z") (Some "2024-05-17T09:00:00Z") 100
    (Stored (document {[ "d1" := sample.device None ]}
               {[ "d1" := JArr [sample.reading "2024-05-17T09:30:00Z" 21] ]}))
  = (Ok (JArr []),
     Stored (document {[ "d1" := sample.device None ]}
               {[ "d1" := JArr [sample.reading "2024-05-17T09:30:00Z" 21] ]})).
Proof.
  eapply (get_telemetry_inverted_range sample.isoparse "d1"
            (Some "2024-05-17T10:00:00Z") (Some "2024-05-17T09:00:00Z") 100
            {[ "d1" := sample.device None ]}
            {[ "d1" := JArr [sample.reading "2024-05-17T09:30:00Z" 21] ]}
            [sample.reading "2024-05-17T09:30:00Z" 21]).
  - reflexivity.
  - repeat constructor. eexists; reflexivity.
  - intros it t b Hin Ht Hb.
    destruct Hin as [<- | []]. vm_compute in Ht. injection Ht as <-.
    destruct Hb as [Hb | Hb]; vm_compute in Hb; injection Hb as <-; reflexivity.
  - reflexivity.
  - reflexivity.
  - vm_compute. reflexivity.
Defined.

Lemma keeps_record_time isoparse s_dt e_dt (r : gmap string json) :
  storage.keeps isoparse s_dt e_dt (JObj r)
  = match record_time isoparse (JObj r) with
    | None => Ok false
    | Some tdt =>
        (before <- match s_dt with
                   | Some s => Datetime.lt tdt s
                   | None => Ok false
                   end;
         if before : bool then Ok false
         else
           after <- match e_dt with
                    | Some e => Datetime.gt tdt e
                    | None => Ok false
                    end;
           Ok (negb after))%res
    end.
Proof.
  unfold storage.keeps. cbn [Py.get rbind].
  assert (Htime : (if Py.truthy (default JNull (r !! "timestamp"))
                   then storage.to_dt isoparse (default JNull (r !! "timestamp"))
                   else None) = record_time isoparse (JObj r)).
  { unfold record_time. destruct (r !! "timestamp") as [ts|]; [|done].
    cbn [from_option id]. destruct ts; cbn [Py.truthy storage.to_dt]; try done.
    - by destruct b.
    - by destruct (negb (z =? 0)).
    - by destruct f.
    - by destruct (String.eqb s "").
    - by destruct l.
    - by destruct (negb _). }
  by rewrite Htime.
Qed.

Lemma lt_raises a b e : Datetime.lt a b = Raise e -> e = TypeError.
Proof. unfold Datetime.lt. destruct (Bool.eqb _ _); congruence. Qed.

(** On a record that is an object the one exception a turn of the loop can
    raise is the [TypeError] of a comparison. *)
Lemma keeps_object isoparse s_dt e_dt it :
  is_object it ->
  (exists keep, storage.keeps isoparse s_dt e_dt it = Ok keep)
  \/ storage.keeps isoparse s_dt e_dt it = Raise TypeError.
Proof.
  intros [r ->]. rewrite keeps_record_time.
  destruct (record_time isoparse (JObj r)) as [t|]; [|by left; eexists].
  assert (Hend : (exists keep,
                    (after <- match e_dt with
                              | Some e => Datetime.gt t e
                              | None => Ok false
                              end; Ok (negb after))%res = Ok keep)
                 \/ (after <- match e_dt with
                              | Some e => Datetime.gt t e
                              | None => Ok false
                              end; Ok (negb after))%res = Raise TypeError).
  { destruct e_dt as [e|]; [|by left; eexists]. unfold Datetime.gt.
    destruct (Datetime.lt e t) as [b|x] eqn:E; [by left; eexists|].
    right. by rewrite (lt_raises _ _ _ E). }
  destruct s_dt as [s|]; cbn [rbind]; [|done].
  destruct (Datetime.lt t s) as [b|x] eqn:E; cbn [rbind].
  - destruct b; [by left; eexists | done].
  - right. by rewrite (lt_raises _ _ _ E).
Qed.


Lemma time_filter_mismatch isoparse s e_dt items it t :
  Forall is_object items ->
  In it items ->
  record_time isoparse it = Some t ->
  Datetime.aware t <> Datetime.aware s ->
  storage.time_filter isoparse (Some s) e_dt items = Raise TypeError.
Proof.
  induction 1 as [|x rest Hx Hrest IH]; intros Hin Ht Hkind; [done|].
  cbn [storage.time_filter]. destruct Hin as [-> | Hin].
  - destruct Hx as [r ->]. rewrite keeps_record_time, Ht.
    unfold Datetime.lt.
    destruct (Bool.eqb (Datetime.aware t) (Datetime.aware s)) eqn:E; [|done].
    by apply Bool.eqb_prop in E.
  - rewrite IH by done.
    by destruct (keeps_object isoparse (Some s) e_dt x Hx) as [[keep ->] | ->].
Qed.

(** X8. A query with a start bound raises [TypeError], and returns no list,
    as soon as the bucket holds one record whose time is of the other kind
    than the bound: a time with a UTC offset against a bound without one, or
    the reverse.  The file is left as it is. *)
Theorem get_telemetry_mixed_kinds (isoparse : string -> option datetime)
    (device_id : string) (start_iso end_iso : option string) (limit : Z)
    (devs tel : gmap string json) (items : list json) (it : json) (s t : datetime) :
  tel !! device_id = Some (JArr items) ->
  Forall is_object items ->
  storage.bound isoparse start_iso = Some s ->
  In it items ->
  record_time isoparse it = Some t ->
  Datetime.aware t <> Datetime.aware s ->
  storage.get_telemetry isoparse device_id start_iso end_iso limit
    (Stored (document devs tel))
  = (Raise TypeError, Stored (document devs tel)).
Proof.
  intros Hitems Hobj Hs Hin Ht Hkind.
  rewrite get_telemetry_stored, Hitems, (bound_given _ _ _ Hs), Hs.
  cbn [orb Py.iter rbind].
  by rewrite (time_filter_mismatch isoparse s _ items it t).
Qed.

Lemma get_telemetry_mixed_kinds_witness :
  storage.get_telemetry sample.isoparse "d1" (Some "2024-05-17T09:00:00") None 100
    (Stored (document {[ "d1" := sample.device None ]}
               {[ "d1" := JArr [sample.reading "not a time" 0;
                                sample.reading "2024-05-17T09:30:00Z" 21] ]}))
  = (Raise TypeError,
     Stored (document {[ "d1" := sample.device None ]}
               {[ "d1" := JArr [sample.reading "not a time" 0;
                                sample.reading "2024-05-17T09:30:00Z" 21] ]})).
Proof.
  eapply (get_telemetry_mixed_kinds sample.isoparse "d1" (Some "2024-05-17T09:00:00")
            None 100 {[ "d1" := sample.device None ]}
            {[ "d1" := JArr [sample.reading "not a time" 0;
                             sample.reading "2024-05-17T09:30:00Z" 21] ]}
            [sample.reading "not a time" 0; sample.reading "2024-05-17T09:30:00Z" 21]
            (sample.reading "2024-05-17T09:30:00Z" 21)).
  - reflexivity.
  - repeat constructor; eexists; reflexivity.
  - reflexivity.
  - right. left. reflexivity.
  - reflexivity.
  - discriminate.
Defined.

Lemma time_filter_not_object isoparse s_dt e_dt items it :
  In it items -> ~ is_object it ->
  exists e, storage.time_filter isoparse s_dt e_dt items = Raise e.
Proof.
  induction items as [|x rest IH]; intros Hin Hno; [done|].
  cbn [storage.time_filter]. destruct Hin as [-> | Hin].
  - exists AttributeError.
    destruct it; try done. exfalso. apply Hno. by eexists.
  - destruct (storage.keeps isoparse s_dt e_dt x) as [keep|e]; [|by eexists].
    cbn [rbind]. destruct (IH Hin Hno) as [e ->]. by eexists.
Qed.

(** X9. The time filter reads the timestamp of each element of the bucket
    with [it.get], so one element that is not a JSON object makes every
    query with a start or an end raise, while the query without bounds
    returns the same bucket sliced, whatever its elements are. *)
Theorem get_telemetry_not_an_object (isoparse : string -> option datetime)
    (device_id : string) (start_iso end_iso : option string) (limit : Z)
    (devs tel : gmap string json) (items : list json) (it : json) :
  tel !! device_id = Some (JArr items) ->
  In it items ->
  ~ is_object it ->
  (Py.str_truthy start_iso || Py.str_truthy end_iso = true ->
   exists e,
     storage.get_telemetry isoparse device_id start_iso end_iso limit
       (Stored (document devs tel))
     = (Raise e, Stored (document devs tel)))
  /\ storage.get_telemetry isoparse device_id None None limit (Stored (document devs tel))
     = (Ok (JArr (Py.slice_from (- limit) items)), Stored (document devs tel)).
Proof.
  intros Hitems Hin Hno. split.
  - intros Hgiven. rewrite get_telemetry_stored, Hitems, Hgiven. cbn [Py.iter rbind].
    destruct (time_filter_not_object isoparse (storage.bound isoparse start_iso)
                (storage.bound isoparse end_iso) items it Hin Hno) as [e ->].
    by exists e.
  - by apply get_telemetry_unfiltered.
Qed.

Lemma get_telemetry_not_an_object_witness :
  (exists e,
     storage.get_telemetry sample.isoparse "d1" None (Some "2024-05-17T10:00:00Z") 100
       (Stored (document {[ "d1" := sample.device None ]}
                  {[ "d1" := JArr [sample.reading "2024-05-17T09:30:00Z" 21; JInt 7] ]}))
     = (Raise e,
        Stored (document {[ "d1" := sample.device None ]}
                  {[ "d1" := JArr [sample.reading "2024-05-17T09:30:00Z" 21; JInt 7] ]})))
  /\ storage.get_telemetry sample.isoparse "d1" None None 100
       (Stored (document {[ "d1" := sample.device None ]}
                  {[ "d1" := JArr [sample.reading "2024-05-17T09:30:00Z" 21; JInt 7] ]}))
     = (Ok (JArr (Py.slice_from (- 100) [sample.reading "2024-05-17T09:30:00Z" 21; JInt 7])),
        Stored (document {[ "d1" := sample.device None ]}
                  {[ "d1" := JArr [sample.reading "2024-05-17T09:30:00Z" 21; JInt 7] ]})).
Proof.
  destruct (get_telemetry_not_an_object sample.isoparse "d1" None
              (Some "2024-05-17T10:00:00Z") 100 {[ "d1" := sample.device None ]}
              {[ "d1" := JArr [sample.reading "2024-05-17T09:30:00Z" 21; JInt 7] ]}
              [sample.reading "2024-05-17T09:30:00Z" 21; JInt 7] (JInt 7)) as (H1 & H2).
  - reflexivity.
  - right. left. reflexivity.
  - intros [m Hm]. discriminate.
  - split; [apply H1; reflexivity | exact H2].
Defined.

(** ** A limit that is not positive *)

(** X10. The limit is applied as the slice [items[-limit:]] with no check of
    its sign.  Without bounds, a limit of zero returns the whole bucket, and
    a limit [-k] returns the bucket without its first [k] records; the
    handlers pass on whatever [int] made of the text. *)
Theorem get_telemetry_limit_not_positive (isoparse : string -> option datetime)
    (int : string -> result Z) (device_id : string) (devs tel : gmap string json)
    (items : list json) :
  tel !! device_id = Some (JArr items) ->
  storage.get_telemetry isoparse device_id None None 0 (Stored (document devs tel))
  = (Ok (JArr items), Stored (document devs tel))
  /\ (forall k : nat,
        storage.get_telemetry isoparse device_id None None (- Z.of_nat k)
          (Stored (document devs tel))
        = (Ok (JArr (drop k items)), Stored (document devs tel)))
  /\ (forall limit n,
        int (default "100" limit) = Ok n ->
        n <= 0 ->
        app.telemetry_query isoparse int device_id None None limit
          (Stored (document devs tel))
        = (Ok (JArr (drop (Z.to_nat (- n)) items), 200), Stored (document devs tel))
        /\ pages.api_telemetry isoparse int device_id limit (Stored (document devs tel))
           = (Ok (JArr (drop (Z.to_nat (- n)) items), 200), Stored (document devs tel))).
Proof.
  intros Hitems. split; [|split].
  - by rewrite (get_telemetry_nonpositive_limit _ _ _ _ _ items) by done.
  - intros k. rewrite (get_telemetry_nonpositive_limit _ _ _ _ _ items) by (done || lia).
    by rewrite Z.opp_involutive, Nat2Z.id.
  - intros limit n Hint Hle.
    unfold app.telemetry_query, pages.api_telemetry.
    unfold bind at 1 3. unfold lift at 1 2. rewrite Hint. unfold bind.
    by rewrite (get_telemetry_nonpositive_limit _ _ _ _ _ items) by done.
Qed.

Lemma get_telemetry_limit_not_positive_witness :
  storage.get_telemetry sample.isoparse "d1" None None 0
    (Stored (document {[ "d1" := sample.device None ]}
               {[ "d1" := JArr [sample.reading "2024-05-17T09:00:00Z" 20;
                                sample.reading "2024-05-17T09:30:00Z" 21] ]}))
  = (Ok (JArr [sample.reading "2024-05-17T09:00:00Z" 20;
               sample.reading "2024-05-17T09:30:00Z" 21]),
     Stored (document {[ "d1" := sample.device None ]}
               {[ "d1" := JArr [sample.reading "2024-05-17T09:00:00Z" 20;
                                sample.reading "2024-05-17T09:30:00Z" 21] ]}))
  /\ pages.api_telemetry sample.isoparse sample.int "d1" (Some "-1")
       (Stored (document {[ "d1" := sample.device None ]}
                  {[ "d1" := JArr [sample.reading "2024-05-17T09:00:00Z" 20;
                                   sample.reading "2024-05-17T09:30:00Z" 21] ]}))
     = (Ok (JArr [sample.reading "2024-05-17T09:30:00Z" 21], 200),
        Stored (document {[ "d1" := sample.device None ]}
                  {[ "d1" := JArr [sample.reading "2024-05-17T09:00:00Z" 20;
                                   sample.reading "2024-05-17T09:30:00Z" 21] ]})).
Proof.
  destruct (get_telemetry_limit_not_positive sample.isoparse sample.int "d1"
              {[ "d1" := sample.device None ]}
              {[ "d1" := JArr [sample.reading "2024-05-17T09:00:00Z" 20;
                               sample.reading "2024-05-17T09:30:00Z" 21] ]}
              [sample.reading "2024-05-17T09:00:00Z" 20;
               sample.reading "2024-05-17T09:30:00Z" 21]) as (H0 & _ & Hq).
  - reflexivity.
  - split; [exact H0|].
    destruct (Hq (Some "-1") (-1)) as (_ & H); [reflexivity | lia | exact H].
Defined.

(** ** The second query route *)

(** X11. [api_telemetry] is the query without bounds.  It takes the limit
    from the text of the [limit] argument, or of ["100"] when the argument is
    absent, by [int]; when [int] raises it raises before it reads the store.
    With a positive limit it answers 200 with the last [limit] elements of
    the bucket, whatever they are, and with the empty list when the device
    has no bucket or the file is missing. *)
Theorem api_telemetry_answers (isoparse : string -> option datetime)
    (int : string -> result Z) (device_id : string) (limit : option string) :
  (forall fs,
     pages.api_telemetry isoparse int device_id limit fs
     = app.telemetry_query isoparse int device_id None None limit fs)
  /\ (forall e fs,
        int (default "100" limit) = Raise e ->
        pages.api_telemetry isoparse int device_id limit fs = (Raise e, fs))
  /\ (forall n devs tel items,
        int (default "100" limit) = Ok n ->
        0 < n ->
        tel !! device_id = Some (JArr items) ->
        pages.api_telemetry isoparse int device_id limit (Stored (document devs tel))
        = (Ok (JArr (drop (length items - Z.to_nat n) items), 200),
           Stored (document devs tel)))
  /\ (forall n devs tel,
        int (default "100" limit) = Ok n ->
        tel !! device_id = None ->
        pages.api_telemetry isoparse int device_id limit (Stored (document devs tel))
        = (Ok (JArr [], 200), Stored (document devs tel)))
  /\ (forall n,
        int (default "100" limit) = Ok n ->
        pages.api_telemetry isoparse int device_id limit NoFile
        = (Ok (JArr [], 200), Stored storage.initial)).
Proof.
  split; [done|]. split; [|split; [|split]].
  - intros e fs Hint. unfold pages.api_telemetry.
    unfold bind at 1. unfold lift at 1. by rewrite Hint.
  - intros n devs tel items Hint Hpos Hitems. unfold pages.api_telemetry.
    unfold bind at 1. unfold lift at 1. rewrite Hint.
    unfold bind. by rewrite (get_telemetry_positive_limit _ _ _ _ _ items).
  - intros n devs tel Hint Hnone. unfold pages.api_telemetry.
    unfold bind at 1. unfold lift at 1. rewrite Hint.
    unfold bind. by rewrite get_telemetry_stored, Hnone.
  - intros n Hint. unfold pages.api_telemetry.
    unfold bind at 1. unfold lift at 1. rewrite Hint.
    unfold bind. by rewrite get_telemetry_missing.
Qed.

Lemma api_telemetry_answers_witness :
  pages.api_telemetry sample.isoparse sample.int "d1" (Some "two") NoFile
  = (Raise ValueError, NoFile)
  /\ pages.api_telemetry sample.isoparse sample.int "d1" (Some "2")
       (Stored (document {[ "d1" := sample.device None ]}
                  {[ "d1" := JArr [JInt 1; JStr "x"; sample.reading "no time" 3] ]}))
     = (Ok (JArr [JStr "x"; sample.reading "no time" 3], 200),
        Stored (document {[ "d1" := sample.device None ]}
                  {[ "d1" := JArr [JInt 1; JStr "x"; sample.reading "no time" 3] ]}))
  /\ pages.api_telemetry sample.isoparse sample.int "d2" None
       (Stored (document {[ "d1" := sample.device None ]} ∅))
     = (Ok (JArr [], 200), Stored (document {[ "d1" := sample.device None ]} ∅))
  /\ pages.api_telemetry sample.isoparse sample.int "d1" None NoFile
     = (Ok (JArr [], 200), Stored storage.initial).
Proof.
  split; [|split; [|split]].
  - destruct (api_telemetry_answers sample.isoparse sample.int "d1" (Some "two"))
      as (_ & H & _).
    apply H. reflexivity.
  - destruct (api_telemetry_answers sample.isoparse sample.int "d1" (Some "2"))
      as (_ & _ & H & _).
    apply (H 2 _ _ [JInt 1; JStr "x"; sample.reading "no time" 3]);
      [reflexivity | lia | reflexivity].
  - destruct (api_telemetry_answers sample.isoparse sample.int "d2" None)
      as (_ & _ & _ & H & _).
    apply (H 100); reflexivity.
  - destruct (api_telemetry_answers sample.isoparse sample.int "d1" None)
      as (_ & _ & _ & _ & H).
    apply (H 100). reflexivity.
Defined.

(** ** The dashboard *)

Lemma dashboard_stored device_id devs tel :
  pages.dashboard device_id (Stored (document devs tel))
  = (match devs !! device_id with
     | None => Ok (pages.Aborted 404)
     | Some device =>
         (meta <- pages.get_or device "meta" (JObj ∅);
          device_name <- pages.get_or meta "name" (JStr device_id);
          Ok (pages.Rendered "dashboard.html"
                (<["device_id" := JStr device_id]>
                   (<["device_name" := device_name]> ∅))))%res
     end, Stored (document devs tel)).
Proof.
  unfold pages.dashboard. unfold bind at 1. rewrite list_devices_stored.
  unfold bind at 1. unfold lift at 1. rewrite contains_dict.
  destruct (devs !! device_id) as [device|] eqn:E; cbn [negb]; [|done].
  store_simpl. cbn [Py.getitem]. rewrite E.
  destruct (pages.get_or device "meta" _) as [meta|]; [|done]. cbn [rbind].
  by destruct (pages.get_or meta "name" _).
Qed.

(** X12. [dashboard] ends with [abort(404)] exactly when the device id is
    not a key of [devices]; a missing file is created and answered 404.  For
    a device that is registered it renders [dashboard.html] with the device
    id and, as the device name, the [name] of the record's [meta], or the
    device id itself when the record has no [meta] or the [meta] has no
    [name]. *)
Theorem dashboard_answers (device_id : string) (devs tel : gmap string json) :
  let fs := Stored (document devs tel) in
  (fst (pages.dashboard device_id fs) = Ok (pages.Aborted 404)
   <-> devs !! device_id = None)
  /\ pages.dashboard device_id NoFile = (Ok (pages.Aborted 404), Stored storage.initial)
  /\ (forall record meta : gmap string json,
        devs !! device_id = Some (JObj record) ->
        default (JObj ∅) (record !! "meta") = JObj meta ->
        pages.dashboard device_id fs
        = (Ok (pages.Rendered "dashboard.html"
                 (<["device_id" := JStr device_id]>
                    (<["device_name" := default (JStr device_id) (meta !! "name")]> ∅))),
           fs)).
Proof.
  intros fs. unfold fs. split; [|split].
  - rewrite dashboard_stored. cbn [fst]. split.
    + destruct (devs !! device_id) as [device|]; [|done].
      destruct (pages.get_or device "meta" _) as [meta|]; [|done]. cbn [rbind].
      by destruct (pages.get_or meta "name" _).
    + by intros ->.
  - change (pages.dashboard device_id NoFile)
      with (pages.dashboard device_id (Stored (document ∅ ∅))).
    by rewrite dashboard_stored, lookup_empty.
  - intros record meta Hdev Hmeta. rewrite dashboard_stored, Hdev.
    cbn [pages.get_or]. by rewrite Hmeta.
Qed.

Lemma dashboard_answers_witness :
  pages.dashboard "d1" (Stored (document {[ "d1" := sample.device None ]} ∅))
  = (Ok (pages.Rendered "dashboard.html"
           (<["device_id" := JStr "d1"]> (<["device_name" := JStr "probe"]> ∅))),
     Stored (document {[ "d1" := sample.device None ]} ∅))
  /\ pages.dashboard "d2" (Stored (document {[ "d2" := JObj ∅ ]} ∅))
     = (Ok (pages.Rendered "dashboard.html"
              (<["device_id" := JStr "d2"]> (<["device_name" := JStr "d2"]> ∅))),
        Stored (document {[ "d2" := JObj ∅ ]} ∅))
  /\ fst (pages.dashboard "d3" (Stored (document {[ "d1" := sample.device None ]} ∅)))
     = Ok (pages.Aborted 404).
Proof.
  split; [|split].
  - destruct (dashboard_answers "d1" {[ "d1" := sample.device None ]} ∅) as (_ & _ & H).
    rewrite (H (<["meta" := JObj {[ "name" := JStr "probe" ]}]>
                  {[ "registered_at" := JStr "2024-05-17T09:00:00Z" ]})
               {[ "name" := JStr "probe" ]}); reflexivity.
  - destruct (dashboard_answers "d2" {[ "d2" := JObj ∅ ]} ∅) as (_ & _ & H).
    rewrite (H ∅ ∅); reflexivity.
  - destruct (dashboard_answers "d3" {[ "d1" := sample.device None ]} ∅) as (H & _).
    apply H. reflexivity.
Defined.

(** ** The index page *)

(** The three lookups of the name come to one. *)
Lemma index_name_listed v :
  has_meta_object v -> pages.index_name v = Ok (listed_name v).
Proof.
  intros (record & -> & meta & Hmeta).
  unfold pages.index_name, listed_name. cbn [pages.get_or rbind]. rewrite Hmeta.
  cbn [pages.get_or rbind].
  destruct (meta !! "name") as [name|]; cbn [from_option id]; [|done].
  by destruct (Py.truthy name).
Qed.

Lemma dev_list_entries kvs :
  Forall (fun kv => has_meta_object (snd kv)) kvs ->
  pages.dev_list kvs = Ok (device_entry <$> kvs).
Proof.
  induction 1 as [|[k v] rest Hv Hrest IH]; [done|].
  cbn [pages.dev_list]. cbn [snd] in Hv. rewrite (index_name_listed v Hv). cbn [rbind].
  by rewrite IH.
Qed.

Lemma dev_list_not_object kvs k v :
  In (k, v) kvs -> ~ is_object v -> pages.dev_list kvs = Raise AttributeError.
Proof.
  induction kvs as [|[k' v'] rest IH]; intros Hin Hno; [done|].
  cbn [pages.dev_list]. destruct Hin as [[= -> ->] | Hin].
  - destruct v; try done. exfalso. apply Hno. by eexists.
  - rewrite (IH Hin Hno).
    destruct (pages.index_name v') as [name|e] eqn:E; [done|].
    revert E. unfold pages.index_name.
    destruct (pages.get_or v' "meta" _) as [m|e1] eqn:E1; cbn [rbind].
    + destruct (pages.get_or m "name" (JStr "")) as [f|e2] eqn:E2; cbn [rbind].
      * destruct m; try discriminate. cbn [pages.get_or].
        cbn [rbind]. destruct (Py.truthy _); [discriminate|].
        cbn [pages.get_or]. discriminate.
      * destruct m; try discriminate; injection E2 as <-; congruence.
    + destruct v'; try discriminate; injection E1 as <-; congruence.
Qed.

(** X13. [index] renders [index.html] with one entry for each registered
    device and no other: the entry holds the device id and the [name] of the
    record's [meta], or the empty string when there is none (the three
    lookups of the name in the source come to this one).  A missing file is
    created and gives the empty list; a device record that is not a JSON
    object makes the page raise [AttributeError]. *)
Theorem index_lists_the_devices (devs tel : gmap string json) :
  let fs := Stored (document devs tel) in
  ((forall k v, devs !! k = Some v -> has_meta_object v) ->
   exists entries,
     pages.index fs = (Ok (pages.Rendered "index.html" {[ "devices" := JArr entries ]}), fs)
     /\ length entries = size devs
     /\ (forall entry,
           entry ∈ entries
           <-> exists k v, devs !! k = Some v /\ entry = device_entry (k, v)))
  /\ (forall k v,
        devs !! k = Some v -> ~ is_object v ->
        pages.index fs = (Raise AttributeError, fs))
  /\ pages.index NoFile
     = (Ok (pages.Rendered "index.html" {[ "devices" := JArr [] ]}), Stored storage.initial).
Proof.
  intros fs. unfold fs. split; [|split].
  - intros Hshape. exists (device_entry <$> map_to_list devs).
    unfold pages.index. unfold bind at 1. rewrite list_devices_stored.
    store_simpl. cbn [pages.items].
    rewrite dev_list_entries.
    + split; [done|]. split.
      * by rewrite length_fmap, length_map_to_list.
      * intros entry. rewrite list_elem_of_fmap. split.
        -- intros ([k v] & -> & Hin). apply elem_of_map_to_list in Hin. by exists k, v.
        -- intros (k & v & Hdev & ->). exists (k, v). split; [done|].
           by apply elem_of_map_to_list.
    + apply Forall_forall. intros [k v] Hin.
      apply elem_of_map_to_list in Hin. by apply (Hshape k v).
  - intros k v Hdev Hno.
    unfold pages.index. unfold bind at 1. rewrite list_devices_stored.
    store_simpl. cbn [pages.items].
    rewrite (dev_list_not_object _ k v); [done| |done].
    apply list_elem_of_In. by apply elem_of_map_to_list.
  - change (pages.index NoFile) with (pages.index (Stored (document ∅ ∅))).
    unfold pages.index. unfold bind at 1. rewrite list_devices_stored.
    store_simpl. cbn [pages.items]. by rewrite map_to_list_empty.
Qed.

Lemma index_lists_the_devices_witness :
  (exists entries,
     pages.index (Stored (document
                            (<["d2" := JObj ∅]> {[ "d1" := sample.device None ]}) ∅))
     = (Ok (pages.Rendered "index.html" {[ "devices" := JArr entries ]}),
        Stored (document (<["d2" := JObj ∅]> {[ "d1" := sample.device None ]}) ∅))
     /\ length entries = 2%nat
     /\ JObj (<["device_id" := JStr "d1"]> (<["name" := JStr "probe"]> ∅)) ∈ entries
     /\ JObj (<["device_id" := JStr "d2"]> (<["name" := JStr ""]> ∅)) ∈ entries)
  /\ pages.index (Stored (document {[ "d1" := JInt 7 ]} ∅))
     = (Raise AttributeError, Stored (document {[ "d1" := JInt 7 ]} ∅)).
Proof.
  split.
  - destruct (index_lists_the_devices
                (<["d2" := JObj ∅]> {[ "d1" := sample.device None ]}) ∅) as (H & _).
    destruct H as (entries & Hrun & Hlen & Hin).
    + intros k v Hkv.
      destruct (decide (k = "d2")) as [->|Hne].
      * rewrite lookup_insert_eq in Hkv. injection Hkv as <-.
        exists ∅. split; [reflexivity | by eexists].
      * rewrite lookup_insert_ne in Hkv by done.
        apply lookup_singleton_Some in Hkv as [<- <-].
        eexists. split; [reflexivity | by eexists].
    + exists entries. split; [exact Hrun|]. split; [exact Hlen|]. split.
      * apply Hin. exists "d1", (sample.device None). split; reflexivity.
      * apply Hin. exists "d2", (JObj ∅). split; reflexivity.
  - destruct (index_lists_the_devices {[ "d1" := JInt 7 ]} ∅) as (_ & H & _).
    apply (H "d1" (JInt 7)); [reflexivity|]. intros [m Hm]. discriminate.
Defined.

(** ** Registration: the refusals *)

Lemma str_nonempty u : Uuid.str u <> "".
Proof.
  unfold Uuid.str. generalize (Uuid.hex u). intros h.
  by destruct (substring 0 8 h).
Qed.

Lemma requested_id_nonempty r : requested_id r <> "".
Proof.
  unfold requested_id.
  destruct (Py.str_truthy (app.reg_device_id (rr_payload r))) eqn:E.
  - destruct (app.reg_device_id (rr_payload r)) as [s|]; [|done].
    cbn in E. apply negb_true_iff in E. by apply String.eqb_neq in E.
  - apply str_nonempty.
Qed.

(** [register_device] of [app] on a document. *)
Lemma app_register_device_document r devs tel :
  meta_is_object r ->
  app.register_device (rr_payload r) (rr_u1 r) (rr_u2 r) (rr_now r)
    (Stored (document devs tel))
  = match devs !! requested_id r with
    | Some _ =>
        (Ok (app.error_body "device already exists", 409), Stored (document devs tel))
    | None =>
        (Ok (register_reply r),
         Stored (document (<[requested_id r := registered_record r]> devs)
                   (with_bucket tel (requested_id r))))
    end.
Proof.
  intros [m0 Hmeta].
  unfold app.register_device, registered_record, register_reply.
  fold (requested_id r). rewrite Hmeta. cbn [Py.setitem]. store_simpl.
  cbn [app.with_name]. rewrite register_device_stored.
  by destruct (devs !! requested_id r).
Qed.



(** ** The key a registration returns *)

Lemma registered_record_shape r :
  exists record meta : gmap string json,
    registered_record r = JObj record
    /\ record !! "meta" = Some (JObj meta)
    /\ meta !! "api_key" = Some (JStr (Uuid.hex (rr_u2 r)))
    /\ is_Some (meta !! "name").
Proof.
  unfold registered_record, storage.device_record.
  eexists _, _. split; [done|]. split; [by rewrite lookup_insert_eq|]. split.
  - erewrite lookup_union_Some_l; [done|]. by rewrite lookup_insert_eq.
  - apply lookup_union_is_Some. right. by rewrite lookup_singleton_eq.
Qed.

Lemma str_truthy_some s : s <> "" -> Py.str_truthy (Some s) = true.
Proof. intros H. cbn. by apply negb_true_iff, String.eqb_neq. Qed.

Lemma truthy_record (record : gmap string json) k v :
  record !! k = Some v -> Py.truthy (JObj record) = true.
Proof.
  intros H. cbn. apply negb_true_iff, Nat.eqb_neq. intros Hz.
  apply map_size_empty_iff in Hz. subst record. by rewrite lookup_empty in H.
Qed.

(** A stored key that differs from the supplied one. *)
Lemma telemetry_ingest_rejected payload api_key now device_id devs tel
    (record meta : gmap string json) stored_key :
  app.tel_device_id payload = Some device_id ->
  device_id <> "" ->
  devs !! device_id = Some (JObj record) ->
  record !! "meta" = Some (JObj meta) ->
  meta !! "api_key" = Some (JStr stored_key) ->
  stored_key <> "" ->
  api_key <> Some stored_key ->
  app.telemetry_ingest payload api_key now (Stored (document devs tel))
  = (Ok (app.error_body "invalid api key", 401), Stored (document devs tel)).
Proof.
  intros Hid Hne Hdev Hmeta Hkey Hstored Hdiff.
  unfold app.telemetry_ingest. rewrite Hid, (str_truthy_some _ Hne).
  cbn [negb from_option id]. unfold bind at 1. rewrite list_devices_stored.
  store_simpl. cbn [Py.get]. rewrite Hdev. cbn [from_option id].
  rewrite (truthy_record _ _ _ Hmeta).
  cbn [negb Py.getitem]. rewrite Hmeta. cbn [Py.get]. rewrite Hkey.
  cbn [from_option id Py.truthy].
  assert (negb (String.eqb stored_key "") = true) as ->.
  { apply negb_true_iff, String.eqb_neq. done. }
  assert (app.key_differs api_key (JStr stored_key) = true) as ->; [|done].
  destruct api_key as [a|]; [|done]. cbn.
  apply negb_true_iff, String.eqb_neq. congruence.
Qed.

Lemma insert_with_bucket (tel : gmap string json) device_id v :
  <[device_id := v]> (with_bucket tel device_id) = <[device_id := v]> tel.
Proof.
  unfold with_bucket. destruct (tel !! device_id); [done|].
  by rewrite insert_insert_eq.
Qed.

(** X15. After a registration that succeeds, [POST /telemetry] for the new
    device is answered 201 when the [X-API-KEY] header is the key the
    registration returned, and the record is appended; with any other key, or
    with no header, it is answered 401 "invalid api key" and nothing is
    stored. *)
Theorem registered_key_opens_ingestion (r : register_request)
    (payload : app.telemetry_payload) (now : datetime) (fs : file_state)
    (devs tel : gmap string json) (l : list json) :
  holds fs devs tel ->
  meta_is_object r ->
  devs !! requested_id r = None ->
  default (JArr []) (tel !! requested_id r) = JArr l ->
  app.tel_device_id payload = Some (requested_id r) ->
  let fs1 := snd (app.register_device (rr_payload r) (rr_u1 r) (rr_u2 r) (rr_now r) fs) in
  app.telemetry_ingest payload (Some (Uuid.hex (rr_u2 r))) now fs1
  = (Ok (JObj {[ "status" := JStr "ok" ]}, 201),
     Stored (document (<[requested_id r := registered_record r]> devs)
               (<[requested_id r := JArr (l ++ [app.telemetry_record payload now])]> tel)))
  /\ (forall api_key,
        api_key <> Some (Uuid.hex (rr_u2 r)) ->
        app.telemetry_ingest payload api_key now fs1
        = (Ok (app.error_body "invalid api key", 401), fs1)).
Proof.
  intros Hfs Hmeta Hfresh Hbucket Hid fs1. unfold fs1.
  rewrite (app_register_device_fresh r fs devs tel) by done. cbn [snd].
  destruct (registered_record_shape r) as (record & meta & Hrec & Hm & Hkey & _).
  split.
  - rewrite (telemetry_ingest_accepted payload _ now (requested_id r) _ _ record meta).
    + rewrite with_bucket_lookup, Hbucket. cbn [from_option id].
      by rewrite insert_with_bucket.
    + done.
    + apply requested_id_nonempty.
    + by rewrite lookup_insert_eq, Hrec.
    + done.
    + apply key_accepted_passes. right. by eexists.
  - intros api_key Hdiff.
    apply (telemetry_ingest_rejected payload api_key now (requested_id r) _ _
             record meta (Uuid.hex (rr_u2 r))); try done.
    + apply requested_id_nonempty.
    + by rewrite lookup_insert_eq, Hrec.
    + apply hex_nonempty.
Qed.

Lemma registered_key_opens_ingestion_witness :
  let r := {| rr_payload := {| app.reg_device_id := Some "d1"; app.reg_name := None;
                               app.reg_meta := None |};
              rr_u1 := 1%N; rr_u2 := 255%N; rr_now := sample.now |} in
  let fs1 := snd (app.register_device (rr_payload r) 1%N 255%N sample.now NoFile) in
  fst (app.telemetry_ingest (sample.post (Some "d1"))
         (Some "000000000000000000000000000000ff") sample.later fs1)
  = Ok (JObj {[ "status" := JStr "ok" ]}, 201)
  /\ app.telemetry_ingest (sample.post (Some "d1")) None sample.later fs1
     = (Ok (app.error_body "invalid api key", 401), fs1).
Proof.
  intros r fs1.
  destruct (registered_key_opens_ingestion r (sample.post (Some "d1")) sample.later
              NoFile ∅ ∅ []) as (H1 & H2).
  - by right.
  - by eexists.
  - reflexivity.
  - reflexivity.
  - reflexivity.
  - split.
    + change (Some "000000000000000000000000000000ff") with (Some (Uuid.hex (rr_u2 r))).
      unfold fs1. change 255%N with (rr_u2 r) at 1. change 1%N with (rr_u1 r).
      change sample.now with (rr_now r). by rewrite H1.
    + apply H2. discriminate.
Defined.

(** ** Ingestions served one after the other *)

(** X16. Requests to [POST /telemetry] for one registered device, each with
    a key that passes, served one after the other: the list of the device
    then holds the records it had, followed by one record for each request
    in the order in which the requests were served; the devices and the lists
    of the other devices are as before. *)
Theorem ingest_all_in_order (reqs : list ingest_request) (device_id : string)
    (devs tel record meta : gmap string json) (l : list json) :
  device_id <> "" ->
  devs !! device_id = Some (JObj record) ->
  record !! "meta" = Some (JObj meta) ->
  Forall (accepted_request device_id meta) reqs ->
  default (JArr []) (tel !! device_id) = JArr l ->
  exists tel' : gmap string json,
    ingest_all reqs (Stored (document devs tel)) = Stored (document devs tel')
    /\ default (JArr []) (tel' !! device_id) = JArr (l ++ (ingest_record <$> reqs))
    /\ forall other, other <> device_id -> tel' !! other = tel !! other.
Proof.
  intros Hne Hdev Hmeta Hreqs. revert tel l.
  induction Hreqs as [|r reqs [Hid Hkey] Hrest IH]; intros tel l Hbucket.
  - exists tel. split; [done|]. split; [|done]. by rewrite app_nil_r.
  - cbn [ingest_all foldl].
    rewrite (telemetry_ingest_accepted _ _ _ device_id devs tel record meta)
      by (try done; by apply key_accepted_passes).
    rewrite Hbucket. cbn [snd].
    destruct (IH (<[device_id := JArr (l ++ [ingest_record r])]> tel)
                (l ++ [ingest_record r])) as (tel' & Hrun & Hlist & Hother).
    { by rewrite lookup_insert_eq. }
    exists tel'. split; [exact Hrun|]. split.
    + rewrite Hlist. cbn [fmap list_fmap]. by rewrite <- app_assoc.
    + intros other Ho. rewrite Hother by done. by rewrite lookup_insert_ne.
Qed.

Lemma ingest_all_in_order_witness :
  exists tel' : gmap string json,
    ingest_all sample_ingestions
      (Stored (document {[ "d1" := sample.device (Some "k1") ]} ∅))
    = Stored (document {[ "d1" := sample.device (Some "k1") ]} tel')
    /\ default (JArr []) (tel' !! "d1")
       = JArr ([] ++ (ingest_record <$> sample_ingestions)).
Proof.
  destruct (ingest_all_in_order sample_ingestions "d1"
              {[ "d1" := sample.device (Some "k1") ]} ∅
              (<["meta" := JObj (<["api_key" := JStr "k1"]> {[ "name" := JStr "probe" ]})]>
                 {[ "registered_at" := JStr "2024-05-17T09:00:00Z" ]})
              (<["api_key" := JStr "k1"]> {[ "name" := JStr "probe" ]}) [])
    as (tel' & Hrun & Hlist & _).
  - discriminate.
  - reflexivity.
  - reflexivity.
  - apply Forall_cons. split; [|apply Forall_cons; split; [|apply Forall_nil_2]].
    + split; [reflexivity|]. right. exists "k1". split; reflexivity.
    + split; [reflexivity|]. right. exists "k1". split; reflexivity.
  - reflexivity.
  - exists tel'. split; [exact Hrun | exact Hlist].
Defined.

(** ** Stores built through the routes *)

Lemma initial_well_formed : well_formed ∅ ∅.
Proof.
  split; [by rewrite !dom_empty_L|]. split; apply map_Forall_empty.
Qed.

Lemma reads_only_well_formed {A} (m : M A) fs :
  reads_only m -> store_well_formed fs -> store_well_formed (snd (m fs)).
Proof.
  intros Hm Hfs. destruct (Hm fs) as [-> | [-> ->]]; [done|].
  right. exists ∅, ∅. split; [done | apply initial_well_formed].
Qed.

Lemma append_nonempty s c : s +:+ String c "" <> "".
Proof. by destruct s. Qed.

Lemma telemetry_record_well_formed payload now :
  record_well_formed (app.telemetry_record payload now).
Proof.
  unfold app.telemetry_record. eexists _, _. split; [done|].
  split; [by rewrite lookup_insert_eq|]. split.
  - assert (Hclock : Py.truthy (JStr (Datetime.isoformat now +:+ "Z")) = true).
    { cbn. apply negb_true_iff, String.eqb_neq, append_nonempty. }
    destruct (app.tel_timestamp payload) as [t|]; [|done].
    by destruct (Py.truthy t) eqn:E.
  - rewrite lookup_insert_ne by done. by rewrite lookup_insert_eq.
Qed.

Lemma registered_record_well_formed r : device_well_formed (registered_record r).
Proof.
  unfold registered_record, storage.device_record.
  eexists _, _, (Uuid.hex (rr_u2 r)), _. split; [done|].
  split; [by rewrite lookup_insert_ne, lookup_insert_eq|].
  split; [by rewrite lookup_insert_eq|]. split; [|split].
  - erewrite lookup_union_Some_l; [done|]. by rewrite lookup_insert_eq.
  - apply hex_nonempty.
  - apply lookup_union_is_Some. right. by rewrite lookup_singleton_eq.
Qed.

Lemma well_formed_bucket devs tel device_id v :
  well_formed devs tel -> devs !! device_id = Some v ->
  exists l, tel !! device_id = Some (JArr l) /\ Forall record_well_formed l.
Proof.
  intros (Hdom & _ & Htel) Hdev.
  assert (is_Some (tel !! device_id)) as [b Hb].
  { apply elem_of_dom. rewrite Hdom. by apply elem_of_dom_2 in Hdev. }
  destruct (Htel device_id b Hb) as (l & -> & Hl). by exists l.
Qed.

Lemma well_formed_registered devs tel r :
  well_formed devs tel ->
  devs !! requested_id r = None ->
  well_formed (<[requested_id r := registered_record r]> devs)
    (with_bucket tel (requested_id r)).
Proof.
  intros (Hdom & Hdevs & Htel) Hfresh.
  assert (tel !! requested_id r = None) as Hnone.
  { apply not_elem_of_dom. rewrite Hdom. by apply not_elem_of_dom. }
  unfold with_bucket. rewrite Hnone. split; [|split].
  - by rewrite !dom_insert_L, Hdom.
  - apply map_Forall_insert_2; [apply registered_record_well_formed | done].
  - apply map_Forall_insert_2; [|done]. by exists [].
Qed.

Lemma well_formed_appended devs tel device_id l it :
  well_formed devs tel ->
  tel !! device_id = Some (JArr l) ->
  Forall record_well_formed l ->
  record_well_formed it ->
  well_formed devs (<[device_id := JArr (l ++ [it])]> tel).
Proof.
  intros (Hdom & Hdevs & Htel) Hl Hwf Hit. split; [|split; [done|]].
  - rewrite dom_insert_L, <- Hdom. apply elem_of_dom_2 in Hl.
    apply subseteq_union_1_L. by apply singleton_subseteq_l.
  - apply map_Forall_insert_2; [|done]. eexists. split; [done|].
    apply Forall_app. split; [done|]. by apply Forall_singleton.
Qed.

Lemma register_well_formed r fs :
  store_well_formed fs ->
  store_well_formed
    (snd (app.register_device (rr_payload r) (rr_u1 r) (rr_u2 r) (rr_now r) fs)).
Proof.
  intros Hfs.
  assert (Hdoc : forall devs tel, meta_is_object r -> well_formed devs tel ->
    store_well_formed
      (snd (app.register_device (rr_payload r) (rr_u1 r) (rr_u2 r) (rr_now r)
              (Stored (document devs tel))))).
  { intros devs tel Hmeta Hwf. rewrite app_register_device_document by done.
    destruct (devs !! requested_id r) eqn:E; cbn [snd].
    - right. by exists devs, tel.
    - right. eexists _, _. split; [done|]. by apply well_formed_registered. }
  destruct (default (JObj ∅) (app.reg_meta (rr_payload r))) as [| | | | | |m0] eqn:E;
    try (unfold app.register_device; by rewrite E).
  assert (meta_is_object r) as Hmeta by (by exists m0).
  destruct Hfs as [-> | (devs & tel & -> & Hwf)].
  - rewrite (app_register_device_missing _ _ _ _ m0 E).
    apply Hdoc; [done | apply initial_well_formed].
  - by apply Hdoc.
Qed.

Lemma telemetry_ingest_unknown payload api_key now device_id devs tel :
  app.tel_device_id payload = Some device_id ->
  device_id <> "" ->
  devs !! device_id = None ->
  app.telemetry_ingest payload api_key now (Stored (document devs tel))
  = (Ok (app.error_body "unknown device", 404), Stored (document devs tel)).
Proof.
  intros Hid Hne Hdev.
  unfold app.telemetry_ingest. rewrite Hid, (str_truthy_some _ Hne).
  cbn [negb from_option id]. unfold bind at 1. rewrite list_devices_stored.
  store_simpl. cbn [Py.get]. by rewrite Hdev.
Qed.

Lemma str_truthy_inv o :
  Py.str_truthy o = true -> exists s, o = Some s /\ s <> "".
Proof.
  destruct o as [s|]; [|done]. cbn. intros H. exists s. split; [done|].
  by apply String.eqb_neq, negb_true_iff.
Qed.

(** [telemetry_ingest] on a document that is well formed: a refusal that
    leaves the file alone, or an append by a request that bears the key of
    the device. *)
Lemma telemetry_ingest_well_formed payload api_key now devs tel :
  well_formed devs tel ->
  (exists msg code,
     app.telemetry_ingest payload api_key now (Stored (document devs tel))
     = (Ok (app.error_body msg, code), Stored (document devs tel))
     /\ (code = 400 \/ code = 404 \/ code = 401))
  \/ (exists device_id (record meta : gmap string json) key l,
        app.tel_device_id payload = Some device_id
        /\ devs !! device_id = Some (JObj record)
        /\ record !! "meta" = Some (JObj meta)
        /\ meta !! "api_key" = Some (JStr key)
        /\ api_key = Some key
        /\ tel !! device_id = Some (JArr l)
        /\ Forall record_well_formed l
        /\ app.telemetry_ingest payload api_key now (Stored (document devs tel))
           = (Ok ingest_reply,
              Stored (document devs
                        (<[device_id := JArr (l ++ [app.telemetry_record payload now])]>
                           tel)))).
Proof.
  intros Hwf.
  destruct (Py.str_truthy (app.tel_device_id payload)) eqn:Hid.
  - apply str_truthy_inv in Hid as (device_id & Hid & Hne).
    destruct (devs !! device_id) as [v|] eqn:Hdev.
    + destruct (well_formed_bucket devs tel device_id v Hwf Hdev) as (l & Hl & Hrecs).
      destruct Hwf as (_ & Hdevs & _).
      destruct (Hdevs device_id v Hdev)
        as (record & meta & key & registered_at & -> & _ & Hmeta & Hkey & Hkne & _).
      destruct (decide (api_key = Some key)) as [-> | Hdiff].
      * right. exists device_id, record, meta, key, l. repeat (split; [done|]).
        rewrite (telemetry_ingest_accepted payload _ now device_id devs tel record meta);
          try done.
        -- by rewrite Hl.
        -- apply key_accepted_passes. right. by exists key.
      * left. exists "invalid api key", 401. split; [|by right; right].
        by apply (telemetry_ingest_rejected payload api_key now device_id devs tel
                    record meta key).
    + left. exists "unknown device", 404. split; [|by right; left].
      by apply (telemetry_ingest_unknown payload api_key now device_id).
  - left. exists "device_id required", 400. split; [|by left].
    unfold app.telemetry_ingest. by rewrite Hid.
Qed.

Lemma ingest_well_formed r fs :
  store_well_formed fs ->
  store_well_formed
    (snd (app.telemetry_ingest (ir_payload r) (ir_api_key r) (ir_now r) fs)).
Proof.
  intros Hfs.
  assert (Hdoc : forall devs tel, well_formed devs tel ->
    store_well_formed
      (snd (app.telemetry_ingest (ir_payload r) (ir_api_key r) (ir_now r)
              (Stored (document devs tel))))).
  { intros devs tel Hwf.
    destruct (telemetry_ingest_well_formed (ir_payload r) (ir_api_key r) (ir_now r)
                devs tel Hwf)
      as [(msg & code & -> & _)
         | (device_id & record & meta & key & l & _ & _ & _ & _ & _ & Hl & Hrecs & ->)];
      cbn [snd].
    - right. by exists devs, tel.
    - right. eexists _, _. split; [done|].
      apply well_formed_appended; try done. apply telemetry_record_well_formed. }
  destruct Hfs as [-> | (devs & tel & -> & Hwf)]; [|by apply Hdoc].
  destruct (Py.str_truthy (app.tel_device_id (ir_payload r))) eqn:Hid.
  - rewrite app_telemetry_ingest_missing by done.
    apply Hdoc, initial_well_formed.
  - unfold app.telemetry_ingest. rewrite Hid. by left.
Qed.

Lemma serve_well_formed isoparse int q fs :
  store_well_formed fs -> store_well_formed (serve isoparse int q fs).
Proof.
  intros Hfs. destruct q; cbn [serve].
  - by apply register_well_formed.
  - by apply reads_only_well_formed; [apply app_list_devices_reads_only|].
  - by apply ingest_well_formed.
  - by apply reads_only_well_formed; [apply telemetry_query_reads_only|].
  - by apply reads_only_well_formed; [apply api_telemetry_reads_only|].
  - by apply reads_only_well_formed; [apply index_reads_only|].
  - by apply reads_only_well_formed; [apply dashboard_reads_only|].
Qed.

(** X17. Every file that requests to the seven routes lead to, starting
    without a file, is still missing or holds a document that is well formed:
    [devices] and [telemetry] have the same keys, every device record is an
    object with a [registered_at] string and a [meta] object that holds a
    name and a non-empty string [api_key], and every telemetry value is a list
    of objects that have a truthy [timestamp] and a [data]. *)
Theorem served_store_well_formed (isoparse : string -> option datetime)
    (int : string -> result Z) (fs : file_state) :
  served isoparse int fs -> store_well_formed fs.
Proof.
  induction 1 as [|fs q Hserved IH].
  - by left.
  - by apply serve_well_formed.
Qed.

Lemma served_store_well_formed_witness :
  store_well_formed
    (serve sample.isoparse sample.int
       (PostTelemetry {| ir_payload := sample.post (Some "d1");
                         ir_api_key := Some "00000000000000000000000000000002";
                         ir_now := sample.later |})
       (serve sample.isoparse sample.int
          (PostDevices {| rr_payload := {| app.reg_device_id := Some "d1";
                                           app.reg_name := None; app.reg_meta := None |};
                          rr_u1 := 1%N; rr_u2 := 2%N; rr_now := sample.now |})
          NoFile)).
Proof.
  apply (served_store_well_formed sample.isoparse sample.int).
  apply served_next, served_next, served_start.
Defined.



(** ** Requests on a store built through the routes *)







(** ** Threads: every request respects the lock *)

Lemma register_thread_outside_any r : threaded.outside (register_thread r).
Proof.
  destruct (default (JObj ∅) (app.reg_meta (rr_payload r))) as [| | | | | |m0] eqn:E;
    try (unfold register_thread, threaded.app_register_device; by rewrite E).
  apply register_thread_outside. by exists m0.
Qed.

Lemma list_devices_outside : threaded.outside threaded.list_devices.
Proof.
  unfold threaded.list_devices, threaded.ebind.
  apply pbind_discipline; [by intros [|]|].
  by destruct with_lock_read_section as (k & -> & Hin & _).
Qed.

Lemma ingest_thread_outside_any r : threaded.outside (ingest_thread r).
Proof.
  unfold ingest_thread, threaded.app_telemetry_ingest.
  destruct (negb (Py.str_truthy (app.tel_device_id (ir_payload r)))); [done|].
  unfold threaded.ebind at 1. apply pbind_discipline; [|apply list_devices_outside].
  intros [devices|e]; [|done].
  unfold threaded.ebind at 1. cbn [threaded.pbind].
  destruct (Py.get devices _) as [dev|]; [|done].
  destruct (negb (Py.truthy dev)); [done|].
  unfold threaded.ebind at 1. cbn [threaded.pbind].
  destruct (Py.getitem dev "meta") as [meta|]; [|done].
  unfold threaded.ebind at 1. cbn [threaded.pbind].
  destruct (Py.get meta "api_key") as [expected_key|]; [|done].
  destruct (Py.truthy expected_key && app.key_differs (ir_api_key r) expected_key);
    [done|].
  apply (ingest_checked_outside (default "" (app.tel_device_id (ir_payload r))) r).
Qed.

(** X20. Registrations and ingestions served by parallel threads, whatever
    the requests are and however their steps interleave.  In every state of
    the run at most one thread is inside a [with _lock] block, and it holds
    the lock; a step that changes the file is taken while the lock is held;
    the run can always be completed, so no thread waits for ever; and a run
    that has ended is a serial run: its file and its replies are those of the
    locked sections run one after the other in some order. *)
Theorem requests_respect_the_lock (regs : list register_request)
    (ings : list ingest_request) (fs : file_state)
    (st : threaded.pool (result app.response)) :
  let ts := (register_thread <$> regs) ++ (ingest_thread <$> ings) in
  threaded.steps (threaded.Pool fs false ts) st ->
  well_locked st
  /\ (forall st',
        threaded.step st st' -> threaded.file st' <> threaded.file st ->
        exists i p, lock_held st i p)
  /\ (exists st', threaded.steps st st' /\ threaded.finished st')
  /\ (threaded.finished st ->
      threaded.serial_steps (fs, ts) (threaded.file st, threaded.threads st)).
Proof.
  intros ts Hsteps.
  assert (Hfree : lock_free (threaded.Pool fs false ts)).
  { split; [done|]. pool_simpl. apply Forall_app. split; apply Forall_fmap, Forall_forall.
    - intros r _. apply register_thread_outside_any.
    - intros r _. apply ingest_thread_outside_any. }
  assert (Hwell : well_locked st).
  { eapply steps_well_locked; [|done]. by left. }
  split; [done|]. split; [|split].
  - intros st' Hstep Hfile. destruct Hwell as [Hlf | Hheld]; [|done].
    destruct (step_lock_free st st' Hlf Hstep) as (i & k & _ & -> & _). done.
  - by apply well_locked_completes.
  - intros Hfin. by apply (finished_serial _ _ Hfree Hsteps Hfin).
Qed.

Lemma requests_respect_the_lock_witness :
  well_locked
    (threaded.Pool NoFile false
       ((register_thread <$> sample_registrations)
        ++ (ingest_thread <$> sample_ingestions)))
  /\ exists st',
       threaded.steps
         (threaded.Pool NoFile false
            ((register_thread <$> sample_registrations)
             ++ (ingest_thread <$> sample_ingestions))) st'
       /\ threaded.finished st'.
Proof.
  destruct (requests_respect_the_lock sample_registrations sample_ingestions NoFile
              (threaded.Pool NoFile false
                 ((register_thread <$> sample_registrations)
                  ++ (ingest_thread <$> sample_ingestions))))
    as (Hwell & _ & Hcomplete & _).
  - apply threaded.steps_refl.
  - split; [exact Hwell | exact Hcomplete].
Defined.

(** ** Threads: parallel registrations of one id *)





(** ** Requests only add *)








(** ** A timestamp that is no datetime *)

Lemma time_filter_snoc_dropped isoparse s_dt e_dt l it :
  storage.keeps isoparse s_dt e_dt it = Ok false ->
  storage.time_filter isoparse s_dt e_dt (l ++ [it])
  = storage.time_filter isoparse s_dt e_dt l.
Proof.
  intros Hit. induction l as [|x l IH]; cbn [app storage.time_filter].
  - by rewrite Hit.
  - by rewrite IH.
Qed.

Lemma telemetry_record_unparsable isoparse payload now t s_dt e_dt :
  app.tel_timestamp payload = Some t ->
  Py.truthy t = true ->
  storage.to_dt isoparse t = None ->
  storage.keeps isoparse s_dt e_dt (app.telemetry_record payload now) = Ok false.
Proof.
  intros Ht Htruthy Hdt. unfold app.telemetry_record, storage.keeps.
  rewrite Ht, Htruthy. cbn [Py.get rbind]. rewrite lookup_insert_eq.
  cbn [from_option id]. by rewrite Htruthy, Hdt.
Qed.

(** X23. The timestamp of a request is stored as it is, without a check.
    A request whose timestamp is truthy but no ISO datetime (a text that
    [isoparse] rejects, or a value that is not a string) is answered 201 and
    its record is the last of the list; yet no query with a start or an end
    ever returns the record: every such query answers as it did before the
    ingestion. *)
Theorem unparsable_timestamp_is_stored (isoparse : string -> option datetime)
    (payload : app.telemetry_payload) (api_key : option string) (now : datetime)
    (device_id : string) (devs tel record meta : gmap string json) (l : list json)
    (t : json) :
  app.tel_device_id payload = Some device_id ->
  device_id <> "" ->
  devs !! device_id = Some (JObj record) ->
  record !! "meta" = Some (JObj meta) ->
  key_accepted (meta !! "api_key") api_key ->
  tel !! device_id = Some (JArr l) ->
  app.tel_timestamp payload = Some t ->
  Py.truthy t = true ->
  storage.to_dt isoparse t = None ->
  let fs := Stored (document devs tel) in
  let fs' := snd (app.telemetry_ingest payload api_key now fs) in
  app.telemetry_ingest payload api_key now fs
  = (Ok (JObj {[ "status" := JStr "ok" ]}, 201),
     Stored (document devs
               (<[device_id := JArr (l ++ [app.telemetry_record payload now])]> tel)))
  /\ Py.getitem (app.telemetry_record payload now) "timestamp" = Ok t
  /\ (forall start_iso end_iso limit,
        Py.str_truthy start_iso || Py.str_truthy end_iso = true ->
        fst (storage.get_telemetry isoparse device_id start_iso end_iso limit fs')
        = fst (storage.get_telemetry isoparse device_id start_iso end_iso limit fs)).
Proof.
  intros Hid Hne Hdev Hmeta Hkey Hl Ht Htruthy Hdt fs fs'.
  assert (Hrun : app.telemetry_ingest payload api_key now fs
                 = (Ok (JObj {[ "status" := JStr "ok" ]}, 201),
                    Stored (document devs
                              (<[device_id := JArr (l ++ [app.telemetry_record payload now])]>
                                 tel)))).
  { unfold fs.
    rewrite (telemetry_ingest_accepted payload api_key now device_id devs tel record meta)
      by (try done; by apply key_accepted_passes).
    by rewrite Hl. }
  split; [exact Hrun|]. split.
  - unfold app.telemetry_record. cbn [Py.getitem].
    by rewrite lookup_insert_eq, Ht, Htruthy.
  - intros start_iso end_iso limit Hgiven. unfold fs'. rewrite Hrun. cbn [snd].
    unfold fs. rewrite !get_telemetry_stored. cbn [fst].
    rewrite lookup_insert_eq, Hl, Hgiven. cbn [Py.iter rbind].
    by rewrite (time_filter_snoc_dropped isoparse _ _ l _
                  (telemetry_record_unparsable isoparse payload now t _ _ Ht Htruthy Hdt)).
Qed.

Lemma unparsable_timestamp_is_stored_witness :
  let payload := {| app.tel_device_id := Some "d1";
                    app.tel_timestamp := Some (JStr "yesterday");
                    app.tel_data := None |} in
  let fs := Stored (document {[ "d1" := sample.device None ]}
                      {[ "d1" := JArr [sample.reading "2024-05-17T09:30:00Z" 21] ]}) in
  fst (app.telemetry_ingest payload None sample.now fs)
  = Ok (JObj {[ "status" := JStr "ok" ]}, 201)
  /\ fst (storage.get_telemetry sample.isoparse "d1" (Some "2024-05-17T09:00:00Z") None 100
            (snd (app.telemetry_ingest payload None sample.now fs)))
     = fst (storage.get_telemetry sample.isoparse "d1" (Some "2024-05-17T09:00:00Z") None
              100 fs).
Proof.
  intros payload fs.
  destruct (unparsable_timestamp_is_stored sample.isoparse payload None sample.now "d1"
              {[ "d1" := sample.device None ]}
              {[ "d1" := JArr [sample.reading "2024-05-17T09:30:00Z" 21] ]}
              (<["meta" := JObj {[ "name" := JStr "probe" ]}]>
                 {[ "registered_at" := JStr "2024-05-17T09:00:00Z" ]})
              {[ "name" := JStr "probe" ]}
              [sample.reading "2024-05-17T09:30:00Z" 21] (JStr "yesterday"))
    as (Hrun & _ & Hquery).
  - reflexivity.
  - discriminate.
  - reflexivity.
  - reflexivity.
  - left. reflexivity.
  - reflexivity.
  - reflexivity.
  - reflexivity.
  - reflexivity.
  - split.
    + unfold fs. by rewrite Hrun.
    + apply Hquery. reflexivity.
Defined.

(** ** What a registration stores as [meta] *)

(** X24. The [meta] a registration stores.  Its [api_key] is the key drawn
    for the request and returned in the reply, also when the [meta] of the
    request has an [api_key] of its own: a client cannot choose its key.  Its
    [name] is the [name] inside the [meta] of the request when there is one,
    and the [name] of the request (or the empty string) otherwise.  Every
    other entry of the request's [meta] is stored as it is. *)
Theorem registered_meta (r : register_request) (fs : file_state)
    (devs tel m0 : gmap string json) :
  holds fs devs tel ->
  default (JObj ∅) (app.reg_meta (rr_payload r)) = JObj m0 ->
  devs !! requested_id r = None ->
  exists (record meta : gmap string json) (devs' tel' : gmap string json),
    app.register_device (rr_payload r) (rr_u1 r) (rr_u2 r) (rr_now r) fs
    = (Ok (JObj (<["device_id" := JStr (requested_id r)]>
                   (<["api_key" := JStr (Uuid.hex (rr_u2 r))]> ∅)), 201),
       Stored (document devs' tel'))
    /\ devs' !! requested_id r = Some (JObj record)
    /\ record !! "meta" = Some (JObj meta)
    /\ meta !! "api_key" = Some (JStr (Uuid.hex (rr_u2 r)))
    /\ meta !! "name"
       = Some (default (default (JStr "") (app.reg_name (rr_payload r))) (m0 !! "name"))
    /\ (forall k, k <> "api_key" -> k <> "name" -> meta !! k = m0 !! k).
Proof.
  intros Hfs Hmeta Hfresh.
  eexists _, _, _, _. split.
  { rewrite (app_register_device_fresh r fs devs tel); [done | done | by exists m0 | done]. }
  split; [by rewrite lookup_insert_eq|].
  unfold registered_record, storage.device_record. rewrite Hmeta.
  split; [by rewrite lookup_insert_eq|]. split; [|split].
  - erewrite lookup_union_Some_l; [done|]. by rewrite lookup_insert_eq.
  - rewrite lookup_union, lookup_insert_ne, lookup_singleton_eq by done.
    by destruct (m0 !! "name").
  - intros k Hk1 Hk2.
    rewrite lookup_union, lookup_insert_ne, lookup_singleton_ne by done.
    by destruct (m0 !! k).
Qed.

Lemma registered_meta_witness :
  let r := {| rr_payload := {| app.reg_device_id := Some "d1";
                               app.reg_name := Some (JStr "outer");
                               app.reg_meta :=
                                 Some (JObj (<["api_key" := JStr "mine"]>
                                               (<["name" := JStr "inner"]>
                                                  {[ "site" := JStr "roof" ]}))) |};
              rr_u1 := 1%N; rr_u2 := 255%N; rr_now := sample.now |} in
  exists (record meta devs' tel' : gmap string json),
    snd (app.register_device (rr_payload r) (rr_u1 r) (rr_u2 r) (rr_now r) NoFile)
    = Stored (document devs' tel')
    /\ devs' !! "d1" = Some (JObj record)
    /\ record !! "meta" = Some (JObj meta)
    /\ meta !! "api_key" = Some (JStr "000000000000000000000000000000ff")
    /\ meta !! "name" = Some (JStr "inner")
    /\ meta !! "site" = Some (JStr "roof").
Proof.
  intros r.
  destruct (registered_meta r NoFile ∅ ∅
              (<["api_key" := JStr "mine"]>
                 (<["name" := JStr "inner"]> {[ "site" := JStr "roof" ]})))
    as (record & meta & devs' & tel' & Hrun & Hdev & Hmeta & Hkey & Hname & Hrest).
  - by right.
  - reflexivity.
  - reflexivity.
  - exists record, meta, devs', tel'. split; [by rewrite Hrun|].
    split; [exact Hdev|]. split; [exact Hmeta|]. split; [exact Hkey|].
    split; [exact Hname|]. rewrite Hrest; [reflexivity | discriminate | discriminate].
Defined.
